(** * Polymarket bot: the detection engine and the threshold commands

    A shallow embedding of [src/polymarket_bot.py]: the rolling stores of
    [PolymarketTelegramBot], [get_wallet_age], [analyze_trade],
    [process_command], the update loop of [listen_for_commands],
    [format_alert] and [scan_markets], followed by the properties the
    specification states about them and by further properties read off the
    code. The functions that only talk to the network ([send_telegram],
    [get_updates], [get_markets], [get_market_trades]) appear through what
    they return.

    Conventions of the embedding.
    - A Python float is an IEEE 754 binary64 value ([spec_float] with
      [prec = 53] and [emax = 1024]): sums, products, quotients and
      differences round as in Python; an [int] is compared with a float on
      the exact values.
    - The values [float()] is called on are JSON values ([pyval]); where
      [float()] raises, the call of [analyze_trade] raises.
    - A [datetime] is a count of microseconds together with its awareness;
      subtracting an aware from a naive value raises, as in Python.
    - An uncaught exception is [None] in the [option] monad; [analyze_trade]
      returns the state reached when the exception escaped, since the bot
      object outlives it ([run] catches and goes on).
    - Library functions the source calls ([datetime.fromisoformat],
      [str.strip], [str.split], [float] on a string, [sum], [str.isdigit],
      [int], the formatting of a float) are section variables; concrete
      ASCII instances are given for evaluation. *)

From Stdlib Require Import ZArith QArith String Ascii List Lia.
From Stdlib Require Import DecimalString Qround SpecFloat.
From stdpp Require Import gmap strings list fin_maps fin_sets.

Open Scope string_scope.
Open Scope Z_scope.
Open Scope list_scope.

(** ** Numbers *)

(** A Python [float]: the operations round to nearest, ties to even, and
    overflow to an infinity. *)
Definition float : Type := spec_float.

Definition fadd : float → float → float := SFadd 53 1024.
Definition fsub : float → float → float := SFsub 53 1024.
Definition fmul : float → float → float := SFmul 53 1024.
Definition fdiv : float → float → float := SFdiv 53 1024.
Definition fabs : float → float := SFabs.

(** [x > y] and [x < y] on two floats; a NaN compares false. *)
Definition fgtb (x y : float) : bool := SFltb y x.
Definition fltb (x y : float) : bool := SFltb x y.

(** [x == 0.0], which [-0.0] satisfies too. *)
Definition is_zero (x : float) : bool :=
  match x with S754_zero _ => true | _ => false end.

(** The float nearest to the integer [n]; an infinity beyond the range. *)
Definition float_of_Z (n : Z) : float := binary_normalize 53 1024 n 0 false.

(** [float(n)] on an [int]; [None] is [OverflowError]. *)
Definition float_of_int (n : Z) : option float :=
  match float_of_Z n with
  | S754_infinity _ => None
  | x => Some x
  end.

(** The float nearest to the quotient [n / d] of two positive integers. *)
Definition float_of_ratio (neg : bool) (n d : positive) : float :=
  let '(m, e, l) := SFdiv_core_binary 53 1024 (Zpos n) 0 (Zpos d) 0 in
  binary_round_aux 53 1024 neg m e l.

(** The float a decimal literal denotes: [decimal m k] is [m / 10^k]
    rounded, so [decimal 15 2] is the literal [0.15]. *)
Definition decimal (m : Z) (k : nat) : float :=
  match m with
  | Z0 => S754_zero false
  | Zpos p => float_of_ratio false p (Z.to_pos (10 ^ Z.of_nat k))
  | Zneg p => float_of_ratio true p (Z.to_pos (10 ^ Z.of_nat k))
  end.

(** The comparison of an [int] with a float, which Python makes on the
    exact values; [None] for a NaN. *)
Definition int_cmp_float (n : Z) (x : float) : option comparison :=
  match x with
  | S754_nan => None
  | S754_infinity s => Some (if s then Gt else Lt)
  | S754_zero _ => Some (n ?= 0)
  | S754_finite s m e =>
      let v := if s then Z.neg m else Z.pos m in
      Some (if 0 <=? e then n ?= v * 2 ^ e else n * 2 ^ (- e) ?= v)
  end.

(** [n < x], [n > x] and [n >= x] for an [int] [n] and a float [x]. *)
Definition int_ltb_float (n : Z) (x : float) : bool :=
  match int_cmp_float n x with Some Lt => true | _ => false end.
Definition int_gtb_float (n : Z) (x : float) : bool :=
  match int_cmp_float n x with Some Gt => true | _ => false end.
Definition int_geb_float (n : Z) (x : float) : bool :=
  match int_cmp_float n x with Some Gt | Some Eq => true | _ => false end.

(** A JSON value as [float()] sees it; [PyOther] is a list or a dict. *)
Inductive pyval :=
  | PyNone
  | PyBool (b : bool)
  | PyInt (n : Z)
  | PyFloat (x : float)
  | PyStr (s : string)
  | PyOther.

(** ** Python list idioms *)

(** [l[-n:]] *)
Definition lastn {A} (n : nat) (l : list A) : list A :=
  drop (length l - n) l.

(** [l.append(x)] followed by [if len(l) > cap: l.pop(0)] *)
Definition push_capped {A} (cap : nat) (x : A) (l : list A) : list A :=
  let l' := l ++ [x] in
  if (cap <? length l')%nat then tail l' else l'.

(** [d[k].append(x)] on a [defaultdict(list)] *)
Definition dd_append {A} (k : string) (x : A) (d : gmap string (list A))
  : gmap string (list A) :=
  <[k := default [] (d !! k) ++ [x]]> d.

(** [d.get(k, [])] *)
Definition dd_get {A} (k : string) (d : gmap string (list A)) : list A :=
  default [] (d !! k).

(** ** Time *)

Record datetime := { dt_us : Z; dt_aware : bool }.

Definition us_per_second : Z := 1000000.
Definition us_per_day : Z := 86400 * us_per_second.

(** [a - b] as a timedelta in microseconds; [None] is the [TypeError] of
    mixing naive and aware values. *)
Definition dt_sub (a b : datetime) : option Z :=
  if Bool.eqb (dt_aware a) (dt_aware b) then Some (dt_us a - dt_us b) else None.

(** [timedelta.days]: the floor of the duration in days. *)
Definition td_days (us : Z) : Z := us / us_per_day.

(** [datetime.now()] is naive. *)
Definition naive (us : Z) : datetime := {| dt_us := us; dt_aware := false |}.

(** ** Data model *)

(** The [trade] dict; [None] is an absent key. *)
Record trade := {
  maker_address : option string;
  tr_size : option pyval;
  tr_price : option pyval;
  tr_timestamp : option string;
  tr_outcome : option string
}.

(** The trade with the locals [size] and [price] of lines 225-226, once
    [float()] has returned them. *)
Record converted := {
  c_trade :> trade;
  c_size : float;
  c_price : float
}.

(** The [market_data] dict. *)
Record market_data := {
  condition_id : option string;
  question : option string;
  volume : option pyval
}.

(** An entry of [wallet_history[wallet]]. *)
Record hist_entry := {
  h_timestamp : string;
  h_market : string;
  h_market_id : option string;
  h_size : float;
  h_value : float;
  h_price : float;
  h_outcome : string
}.

(** An entry of [market_prices[market_id]]. *)
Record price_entry := { p_timestamp : string; p_price : float }.

(** An entry of [wallet_outcomes[wallet]]. *)
Record outcome_entry := {
  o_market_id : option string;
  o_outcome : string;
  o_price : float
}.

(** [self.thresholds]. The dict starts with ints and floats and [/set]
    stores floats; an int is held here as the float equal to it, which
    every use allows: the comparisons are exact and the one product, on
    line 271, is with 2.5 or with a value [/set] stored. *)
Record thresholds := {
  fresh_wallet_days : float;
  fresh_wallet_min_value : float;
  unusual_size_multiplier : float;
  niche_volume_max : float;
  niche_trades_min : float;
  win_rate_conviction_min : float;
  win_rate_min_value : float;
  pre_move_min_value : float;
  pre_move_change_pct : float;
  coordinated_min_value : float;
  coordinated_min_wallets : float
}.

Definition default_thresholds : thresholds := {|
  fresh_wallet_days := float_of_Z 7;
  fresh_wallet_min_value := float_of_Z 1000;
  unusual_size_multiplier := decimal 25 1;
  niche_volume_max := float_of_Z 10000;
  niche_trades_min := float_of_Z 3;
  win_rate_conviction_min := float_of_Z 7;
  win_rate_min_value := float_of_Z 300;
  pre_move_min_value := float_of_Z 500;
  pre_move_change_pct := decimal 15 2;
  coordinated_min_value := float_of_Z 200;
  coordinated_min_wallets := float_of_Z 3
|}.

Inductive alert_type :=
  | FRESH_WALLET_LARGE_BET
  | UNUSUAL_SIZE
  | REPEAT_NICHE_PLAYER
  | HIGH_WIN_RATE_TRADER
  | PRE_MOVE_POSITIONING
  | COORDINATED_ENTRY.

(** The rule-specific fields of an alert dict. *)
Inductive alert_fields :=
  | FreshFields (age_days : Z) (value : float)
  | UnusualFields (size avg_size : float)
  | NicheFields (trades_count : nat) (market_volume : float)
  | ConvictionFields (conviction_trades total_trades : nat)
      (current_price value : float)
  | PreMoveFields (value old_price new_price price_change : float)
  | CoordinatedFields (coordinated_wallets : nat) (outcome : string)
      (value : float).

Record alert := {
  a_type : alert_type;
  a_wallet : string;
  a_fields : alert_fields;
  a_market : string;
  a_key : string
}.

Definition alert_type_eqb (x y : alert_type) : bool :=
  match x, y with
  | FRESH_WALLET_LARGE_BET, FRESH_WALLET_LARGE_BET
  | UNUSUAL_SIZE, UNUSUAL_SIZE
  | REPEAT_NICHE_PLAYER, REPEAT_NICHE_PLAYER
  | HIGH_WIN_RATE_TRADER, HIGH_WIN_RATE_TRADER
  | PRE_MOVE_POSITIONING, PRE_MOVE_POSITIONING
  | COORDINATED_ENTRY, COORDINATED_ENTRY => true
  | _, _ => false
  end.

Definition is_type (ty : alert_type) (a : alert) : bool :=
  alert_type_eqb (a_type a) ty.

(** The number of alerts of one rule in a batch. *)
Definition count_type (ty : alert_type) (l : list alert) : nat :=
  length (List.filter (is_type ty) l).

(** The bot's rolling stores and its ledger. *)
Record state := {
  wallet_history : gmap string (list hist_entry);
  market_volumes : gmap string (list float);
  market_prices : gmap string (list price_entry);
  wallet_outcomes : gmap string (list outcome_entry);
  sent_alerts : gset string
}.

(** The stores as [__init__] creates them. *)
Definition init_state : state := {|
  wallet_history := ∅;
  market_volumes := ∅;
  market_prices := ∅;
  wallet_outcomes := ∅;
  sent_alerts := ∅
|}.

(** What a call of [analyze_trade] leaves behind: the returned batch, or an
    escaped exception; both with the stores as the call left them. *)
Inductive result :=
  | Returned (alerts : list alert) (st : state)
  | Raised (st : state).

Definition result_state (r : result) : state :=
  match r with Returned _ st => st | Raised st => st end.

Definition result_alerts (r : result) : list alert :=
  match r with Returned l _ => l | Raised _ => [] end.

(** [if market_id:] on the value of [market_data.get('condition_id')]: the
    id when it is present and not the empty string. *)
Definition truthy_id (o : option string) : option string :=
  match o with
  | Some s => if String.eqb s "" then None else Some s
  | None => None
  end.

(** How an f-string prints the value of [dict.get]. *)
Definition fmt_opt (o : option string) : string := default "None" o.

(** [f"{wallet}_{market_data.get('condition_id')}_{timestamp}"] *)
Definition make_alert_key (wallet : string) (cid : option string)
    (timestamp : string) : string :=
  wallet +:+ "_" +:+ fmt_opt cid +:+ "_" +:+ timestamp.

(** ** Store updates *)

Definition upd_wallet_history (f : gmap string (list hist_entry) →
    gmap string (list hist_entry)) (st : state) : state :=
  {| wallet_history := f (wallet_history st);
     market_volumes := market_volumes st;
     market_prices := market_prices st;
     wallet_outcomes := wallet_outcomes st;
     sent_alerts := sent_alerts st |}.

Definition upd_market_volumes (f : gmap string (list float) →
    gmap string (list float)) (st : state) : state :=
  {| wallet_history := wallet_history st;
     market_volumes := f (market_volumes st);
     market_prices := market_prices st;
     wallet_outcomes := wallet_outcomes st;
     sent_alerts := sent_alerts st |}.

Definition upd_market_prices (f : gmap string (list price_entry) →
    gmap string (list price_entry)) (st : state) : state :=
  {| wallet_history := wallet_history st;
     market_volumes := market_volumes st;
     market_prices := f (market_prices st);
     wallet_outcomes := wallet_outcomes st;
     sent_alerts := sent_alerts st |}.

Definition upd_wallet_outcomes (f : gmap string (list outcome_entry) →
    gmap string (list outcome_entry)) (st : state) : state :=
  {| wallet_history := wallet_history st;
     market_volumes := market_volumes st;
     market_prices := market_prices st;
     wallet_outcomes := f (wallet_outcomes st);
     sent_alerts := sent_alerts st |}.

Definition upd_sent_alerts (f : gset string → gset string) (st : state)
  : state :=
  {| wallet_history := wallet_history st;
     market_volumes := market_volumes st;
     market_prices := market_prices st;
     wallet_outcomes := wallet_outcomes st;
     sent_alerts := f (sent_alerts st) |}.

(** [d[k].append(x)]; [if len(d[k]) > cap: d[k].pop(0)] *)
Definition dd_push_capped {A} (cap : nat) (k : string) (x : A)
    (d : gmap string (list A)) : gmap string (list A) :=
  <[k := push_capped cap x (dd_get k d)]> d.

(** Lines 235-243. *)
Definition record_history (wallet : string) (e : hist_entry) : state → state :=
  upd_wallet_history (dd_append wallet e).

(** Lines 246-252. *)
Definition record_price (market_id : option string) (e : price_entry)
    (st : state) : state :=
  match truthy_id market_id with
  | Some mid => upd_market_prices (dd_push_capped 200 mid e) st
  | None => st
  end.

(** Lines 281-283, under the [if market_id:] of line 267. *)
Definition record_size (market_id : option string) (size : float) (st : state)
  : state :=
  match truthy_id market_id with
  | Some mid => upd_market_volumes (dd_push_capped 100 mid size) st
  | None => st
  end.

(** Lines 300-304. *)
Definition record_outcome (wallet : string) (e : outcome_entry)
  : state → state :=
  upd_wallet_outcomes (dd_append wallet e).

(** Lines 375-376: [for alert in alerts: self.sent_alerts.add(alert['key'])]. *)
Definition mark_sent (alerts : list alert) : state → state :=
  upd_sent_alerts (λ s, foldl (λ acc a, {[a_key a]} ∪ acc) s alerts).

(** ** The detection engine *)

Section Engine.

(** [datetime.fromisoformat]; [None] where it raises [ValueError]. *)
Variable fromisoformat : string → option datetime.

(** [float] on a [str]; [None] where it raises [ValueError]. *)
Variable py_float : string → option float.

(** The builtin [sum] on a list of floats: the left fold of [+] from 0 up
    to CPython 3.11, a compensated sum from 3.12 on. *)
Variable py_sum : list float → float.

(** [float(v)]; [None] is the [TypeError], [ValueError] or [OverflowError]
    it raises. *)
Definition float_of (v : pyval) : option float :=
  match v with
  | PyNone | PyOther => None
  | PyBool b => Some (float_of_Z (if b then 1 else 0))
  | PyInt n => float_of_int n
  | PyFloat x => Some x
  | PyStr s => py_float s
  end.

(** [get_wallet_age]: the outer [None] is an exception, the inner one the
    returned [None]. [now] is the reading of [datetime.now()]. *)
Definition get_wallet_age (now : Z) (st : state) (address : string)
  : option (option Z) :=
  match wallet_history st !! address with
  | Some l =>
      e ← head l;
      first_seen ← fromisoformat (h_timestamp e);
      d ← dt_sub (naive now) first_seen;
      Some (Some (td_days d))
  | None => Some None
  end.

(** Lines 255-265. *)
Definition fresh_rule (th : thresholds) (wallet : string)
    (wallet_age : option Z) (value : float) (market key : string)
  : list alert :=
  match wallet_age with
  | Some age =>
      if int_ltb_float age (fresh_wallet_days th)
         && fgtb value (fresh_wallet_min_value th)
      then [ {| a_type := FRESH_WALLET_LARGE_BET; a_wallet := wallet;
                a_fields := FreshFields age value;
                a_market := market; a_key := key |} ]
      else []
  | None => []
  end.

(** [sum(l) / len(l)] for a non-empty list of floats; the length of a list
    is far below the ints [float()] overflows on. *)
Definition mean (l : list float) : float :=
  fdiv (py_sum l) (float_of_Z (Z.of_nat (length l))).

(** Lines 267-279: the size window is read before the trade's own size is
    appended to it. *)
Definition unusual_rule (th : thresholds) (st : state) (wallet : string)
    (market_id : option string) (size : float) (market key : string)
  : list alert :=
  match truthy_id market_id with
  | Some mid =>
      let recent_trades := dd_get mid (market_volumes st) in
      if (10 <? length recent_trades)%nat then
        let avg_size := mean recent_trades in
        if fgtb size (fmul avg_size (unusual_size_multiplier th))
        then [ {| a_type := UNUSUAL_SIZE; a_wallet := wallet;
                  a_fields := UnusualFields size avg_size;
                  a_market := market; a_key := key |} ]
        else []
      else []
  | None => []
  end.

(** Lines 285-298. The stored ['market'] is [get('question', 'unknown')],
    the value it is compared with is [get('question')]. [None] is the
    exception of [float()] on line 288. *)
Definition niche_rule (th : thresholds) (st : state) (wallet : string)
    (md : market_data) (market key : string) : option (list alert) :=
  let wallet_trades := dd_get wallet (wallet_history st) in
  let same_market_trades :=
    List.filter (λ t, bool_decide (Some (h_market t) = question md))
      wallet_trades in
  volume ← float_of (default (PyInt 0) (volume md));
  if int_gtb_float (Z.of_nat (length same_market_trades)) (niche_trades_min th)
     && fltb volume (niche_volume_max th)
  then Some [ {| a_type := REPEAT_NICHE_PLAYER; a_wallet := wallet;
                 a_fields := NicheFields (length same_market_trades) volume;
                 a_market := market; a_key := key |} ]
  else Some [].

(** [t['price'] > 0.8 or t['price'] < 0.2] *)
Definition high_conviction (t : outcome_entry) : bool :=
  fgtb (o_price t) (decimal 8 1) || fltb (o_price t) (decimal 2 1).

(** Lines 306-323. *)
Definition conviction_rule (th : thresholds) (st : state) (wallet : string)
    (price value : float) (market key : string) : list alert :=
  let outcomes := dd_get wallet (wallet_outcomes st) in
  if (10 <=? length outcomes)%nat then
    let high_conviction_trades :=
      List.filter high_conviction (lastn 20 outcomes) in
    if int_geb_float (Z.of_nat (length high_conviction_trades))
         (win_rate_conviction_min th)
       && fgtb value (win_rate_min_value th)
    then [ {| a_type := HIGH_WIN_RATE_TRADER; a_wallet := wallet;
              a_fields := ConvictionFields (length high_conviction_trades)
                            (length outcomes) price value;
              a_market := market; a_key := key |} ]
    else []
  else [].

(** Lines 329-332: the entries [p] with
    [(now - fromisoformat(p['timestamp'])).total_seconds() < 1800], in
    stored order. *)
Fixpoint last_30_min_of (now : datetime) (l : list price_entry)
  : option (list price_entry) :=
  match l with
  | [] => Some []
  | p :: l' =>
      t ← fromisoformat (p_timestamp p);
      d ← dt_sub now t;
      rest ← last_30_min_of now l';
      Some (if d <? 1800 * us_per_second then p :: rest else rest)
  end.

(** Lines 325-348. *)
Definition pre_move_rule (th : thresholds) (st : state) (wallet : string)
    (market_id : option string) (timestamp : string) (price value : float)
    (market key : string) : option (list alert) :=
  match truthy_id market_id with
  | Some mid =>
      if fgtb value (pre_move_min_value th) then
        let recent_prices := dd_get mid (market_prices st) in
        if (10 <? length recent_prices)%nat then
          now ← fromisoformat timestamp;
          last_30_min ← last_30_min_of now recent_prices;
          if (5 <=? length last_30_min)%nat then
            p0 ← head last_30_min;
            let old_price := p_price p0 in
            let price_change := fabs (fsub price old_price) in
            if fgtb price_change (pre_move_change_pct th)
            then Some [ {| a_type := PRE_MOVE_POSITIONING; a_wallet := wallet;
                           a_fields := PreMoveFields value old_price price
                                         (fmul price_change (float_of_Z 100));
                           a_market := market; a_key := key |} ]
            else Some []
          else Some []
        else Some []
      else Some []
  | None => Some []
  end.

(** Lines 357-361 for the trades [trades[-5:]] of one wallet [w]: [w] is
    appended once for every matching trade. *)
Fixpoint similar_of (now : datetime) (mid outcome w : string)
    (trades : list hist_entry) : option (list string) :=
  match trades with
  | [] => Some []
  | t :: trades' =>
      hit ← (if bool_decide (h_market_id t = Some mid)
                && bool_decide (h_outcome t = outcome)
             then trade_time ← fromisoformat (h_timestamp t);
                  d ← dt_sub now trade_time;
                  Some (Z.abs d <? 300 * us_per_second)
             else Some false);
      rest ← similar_of now mid outcome w trades';
      Some (if hit : bool then w :: rest else rest)
  end.

(** Lines 353-361: the loop over [self.wallet_history.items()]. *)
Fixpoint similar_recent_of (now : datetime) (wallet mid outcome : string)
    (items : list (string * list hist_entry)) : option (list string) :=
  match items with
  | [] => Some []
  | (w, trades) :: items' =>
      here ← (if bool_decide (w = wallet) then Some []
              else similar_of now mid outcome w (lastn 5 trades));
      more ← similar_recent_of now wallet mid outcome items';
      Some (here ++ more)
  end.

(** Lines 350-373. *)
Definition coordinated_rule (th : thresholds) (st : state) (wallet : string)
    (market_id : option string) (timestamp outcome : string) (value : float)
    (market key : string) : option (list alert) :=
  match truthy_id market_id with
  | Some mid =>
      if fgtb value (coordinated_min_value th) then
        now ← fromisoformat timestamp;
        similar_recent ← similar_recent_of now wallet mid outcome
                           (map_to_list (wallet_history st));
        let unique_wallets : gset string := list_to_set similar_recent in
        if int_geb_float (Z.of_nat (size unique_wallets + 1))
             (coordinated_min_wallets th)
        then Some [ {| a_type := COORDINATED_ENTRY; a_wallet := wallet;
                       a_fields := CoordinatedFields (size unique_wallets + 1)
                                     outcome value;
                       a_market := market; a_key := key |} ]
        else Some []
      else Some []
  | None => Some []
  end.

(** Lines 225-226: [None] where one of the two calls of [float()]
    raises. *)
Definition convert_trade (tr : trade) : option converted :=
  size ← float_of (default (PyInt 0) (tr_size tr));
  price ← float_of (default (PyInt 0) (tr_price tr));
  Some {| c_trade := tr; c_size := size; c_price := price |}.

(** The locals of lines 224-231. [now_iso] is [datetime.now().isoformat()]
    as evaluated on line 228. *)
Definition trade_wallet (tr : trade) : string :=
  default "unknown" (maker_address tr).
Definition trade_size (tr : converted) : float := c_size tr.
Definition trade_price (tr : converted) : float := c_price tr.
Definition trade_value (tr : converted) : float :=
  fmul (trade_size tr) (trade_price tr).
Definition trade_timestamp (now_iso : string) (tr : trade) : string :=
  default now_iso (tr_timestamp tr).
Definition trade_outcome (tr : trade) : string :=
  default "unknown" (tr_outcome tr).
Definition market_name (md : market_data) : string :=
  default "unknown" (question md).
Definition trade_key (now_iso : string) (tr : trade) (md : market_data)
  : string :=
  make_alert_key (trade_wallet tr) (condition_id md)
    (trade_timestamp now_iso tr).

(** The entries a processed trade adds to the stores. *)
Definition hist_entry_of (now_iso : string) (tr : converted) (md : market_data)
  : hist_entry :=
  {| h_timestamp := trade_timestamp now_iso tr; h_market := market_name md;
     h_market_id := condition_id md; h_size := trade_size tr;
     h_value := trade_value tr; h_price := trade_price tr;
     h_outcome := trade_outcome tr |}.

Definition price_entry_of (now_iso : string) (tr : converted) : price_entry :=
  {| p_timestamp := trade_timestamp now_iso tr; p_price := trade_price tr |}.

Definition outcome_entry_of (tr : converted) (md : market_data)
  : outcome_entry :=
  {| o_market_id := condition_id md; o_outcome := trade_outcome tr;
     o_price := trade_price tr |}.

(** The stores after lines 235-252: the trade is in the wallet's history and
    its price in the market's price window. *)
Definition recorded (now_iso : string) (tr : converted) (md : market_data)
    (st : state) : state :=
  record_price (condition_id md) (price_entry_of now_iso tr)
    (record_history (trade_wallet tr) (hist_entry_of now_iso tr md) st).

(** The stores after line 304: the size window and the wallet's outcomes
    are updated too. *)
Definition updated (now_iso : string) (tr : converted) (md : market_data)
    (st : state) : state :=
  record_outcome (trade_wallet tr) (outcome_entry_of tr md)
    (record_size (condition_id md) (trade_size tr)
       (recorded now_iso tr md st)).

(** Lines 227-378 of [analyze_trade], for a trade whose size and price
    [float()] has returned. *)
Definition analyze_converted (now_iso : string) (now : Z) (th : thresholds)
    (st : state) (tr : converted) (md : market_data) : result :=
  let wallet := trade_wallet tr in
  let size := trade_size tr in
  let price := trade_price tr in
  let value := trade_value tr in
  let timestamp := trade_timestamp now_iso tr in
  let outcome := trade_outcome tr in
  let market := market_name md in
  let alert_key := trade_key now_iso tr md in
  if bool_decide (alert_key ∈ sent_alerts st) then Returned [] st else
  let st1 := recorded now_iso tr md st in
  let market_id := condition_id md in
  match get_wallet_age now st1 wallet with
  | None => Raised st1
  | Some wallet_age =>
      let a1 := fresh_rule th wallet wallet_age value market alert_key in
      let a2 := unusual_rule th st1 wallet market_id size market alert_key in
      let st2 := record_size market_id size st1 in
      match niche_rule th st2 wallet md market alert_key with
      | None => Raised st2
      | Some a3 =>
          let st3 := updated now_iso tr md st in
          let a4 :=
            conviction_rule th st3 wallet price value market alert_key in
          match pre_move_rule th st3 wallet market_id timestamp price value
                  market alert_key with
          | None => Raised st3
          | Some a5 =>
              match coordinated_rule th st3 wallet market_id timestamp
                      outcome value market alert_key with
              | None => Raised st3
              | Some a6 =>
                  let alerts := a1 ++ a2 ++ a3 ++ a4 ++ a5 ++ a6 in
                  Returned alerts (mark_sent alerts st3)
              end
          end
      end
  end.

(** [analyze_trade(trade, market_data)] with the thresholds [th], from the
    stores [st]; [now] is the clock read by [get_wallet_age]. An exception
    of [float()] on lines 225-226 leaves the stores as they were. *)
Definition analyze_trade (now_iso : string) (now : Z) (th : thresholds)
    (st : state) (tr : trade) (md : market_data) : result :=
  match convert_trade tr with
  | Some converted_trade =>
      analyze_converted now_iso now th st converted_trade md
  | None => Raised st
  end.

(** The states the bot can be in: [analyze_trade] is the only writer of the
    stores, whatever the clock and the thresholds are at each call. *)
Inductive reachable : state → Prop :=
  | reach_init : reachable init_state
  | reach_step now_iso now th st tr md :
      reachable st →
      reachable (result_state (analyze_trade now_iso now th st tr md)).

(** *** Vocabulary of the properties *)

(** A timestamp that parses, as a naive [datetime]. *)
Definition parses_naive (ts : string) : Prop :=
  ∃ us, fromisoformat ts = Some (naive us).

(** Every timestamp held in the wallet histories and in the price windows
    parses as a naive [datetime]: no rule can raise on stored data. *)
Definition timestamps_ok (st : state) : Prop :=
  (∀ w l e, wallet_history st !! w = Some l → e ∈ l →
            parses_naive (h_timestamp e))
  ∧ (∀ m l p, market_prices st !! m = Some l → p ∈ l →
              parses_naive (p_timestamp p)).

(** Both windows of every market are within their caps. *)
Definition windows_bounded (st : state) : Prop :=
  ∀ m, (length (dd_get m (market_volumes st)) ≤ 100)%nat
       ∧ (length (dd_get m (market_prices st)) ≤ 200)%nat.

(** No window is stored under the empty market id. *)
Definition market_keys_ok (st : state) : Prop :=
  dd_get "" (market_volumes st) = [] ∧ dd_get "" (market_prices st) = [].

(** The size and price windows of the market of [md]; a market without an
    id has none. *)
Definition size_window (md : market_data) (st : state) : list float :=
  match condition_id md with
  | Some mid => dd_get mid (market_volumes st)
  | None => []
  end.

Definition price_window (md : market_data) (st : state) : list price_entry :=
  match condition_id md with
  | Some mid => dd_get mid (market_prices st)
  | None => []
  end.

(** The entry was recorded strictly less than 1800 seconds before [now]. *)
Definition within_30_min (now : datetime) (p : price_entry) : bool :=
  match fromisoformat (p_timestamp p) ≫= dt_sub now with
  | Some d => d <? 1800 * us_per_second
  | None => false
  end.

(** The recorded trade is on market [mid], for [outcome], and less than 300
    seconds away from [now]. *)
Definition coordinated_with (now : datetime) (mid outcome : string)
    (t : hist_entry) : bool :=
  bool_decide (h_market_id t = Some mid)
  && bool_decide (h_outcome t = outcome)
  && match fromisoformat (h_timestamp t) ≫= dt_sub now with
     | Some d => Z.abs d <? 300 * us_per_second
     | None => false
     end.

End Engine.

(** ** The threshold commands *)

(** The keys of [self.thresholds]; no code path adds or removes one. *)
Definition threshold_names : list string :=
  [ "fresh_wallet_days"; "fresh_wallet_min_value"; "unusual_size_multiplier";
    "niche_volume_max"; "niche_trades_min"; "win_rate_conviction_min";
    "win_rate_min_value"; "pre_move_min_value"; "pre_move_change_pct";
    "coordinated_min_value"; "coordinated_min_wallets" ].

(** [param in self.thresholds] *)
Definition known_param (param : string) : bool :=
  bool_decide (param ∈ threshold_names).

(** [self.thresholds[param]] *)
Definition get_threshold (param : string) (th : thresholds)
  : option float :=
  if String.eqb param "fresh_wallet_days" then Some (fresh_wallet_days th)
  else if String.eqb param "fresh_wallet_min_value"
       then Some (fresh_wallet_min_value th)
  else if String.eqb param "unusual_size_multiplier"
       then Some (unusual_size_multiplier th)
  else if String.eqb param "niche_volume_max" then Some (niche_volume_max th)
  else if String.eqb param "niche_trades_min" then Some (niche_trades_min th)
  else if String.eqb param "win_rate_conviction_min"
       then Some (win_rate_conviction_min th)
  else if String.eqb param "win_rate_min_value"
       then Some (win_rate_min_value th)
  else if String.eqb param "pre_move_min_value"
       then Some (pre_move_min_value th)
  else if String.eqb param "pre_move_change_pct"
       then Some (pre_move_change_pct th)
  else if String.eqb param "coordinated_min_value"
       then Some (coordinated_min_value th)
  else if String.eqb param "coordinated_min_wallets"
       then Some (coordinated_min_wallets th)
  else None.

(** [self.thresholds[param] = value], for a key of the dict. *)
Definition set_threshold (param : string) (value : float) (th : thresholds)
  : thresholds :=
  let upd (name : string) (old : float) : float :=
    if String.eqb param name then value else old in
  {| fresh_wallet_days := upd "fresh_wallet_days" (fresh_wallet_days th);
     fresh_wallet_min_value :=
       upd "fresh_wallet_min_value" (fresh_wallet_min_value th);
     unusual_size_multiplier :=
       upd "unusual_size_multiplier" (unusual_size_multiplier th);
     niche_volume_max := upd "niche_volume_max" (niche_volume_max th);
     niche_trades_min := upd "niche_trades_min" (niche_trades_min th);
     win_rate_conviction_min :=
       upd "win_rate_conviction_min" (win_rate_conviction_min th);
     win_rate_min_value := upd "win_rate_min_value" (win_rate_min_value th);
     pre_move_min_value := upd "pre_move_min_value" (pre_move_min_value th);
     pre_move_change_pct := upd "pre_move_change_pct" (pre_move_change_pct th);
     coordinated_min_value :=
       upd "coordinated_min_value" (coordinated_min_value th);
     coordinated_min_wallets :=
       upd "coordinated_min_wallets" (coordinated_min_wallets th) |}.

(** The part of the bot object the commands read and write. *)
Record config := {
  is_paused : bool;
  scan_interval : Z;
  bot_thresholds : thresholds
}.

(** The message a command answers with ([send_telegram]), by kind. *)
Inductive reply :=
  | HelpText
  | PausedText
  | ResumedText
  | StatusText (paused : bool) (interval : Z)
  | IntervalSet (new_interval : Z)
  | IntervalOutOfRange
  | IntervalUsage (interval : Z)
  | ThresholdsText (th : thresholds)
  | SetOk (param : string) (value : float)
  | UnknownParameter (param : string)
  | InvalidValue
  | SetUsage
  | StatsText.

(** The replies that reject a [/set] update. *)
Definition is_error_reply (r : option reply) : bool :=
  match r with
  | Some (UnknownParameter _) | Some InvalidValue => true
  | _ => false
  end.

Section Commands.

(** [str.strip], [str.split] (no argument), [float] ([None] where it raises
    [ValueError]), [str.isdigit] and [int]. *)
Variable py_strip : string → string.
Variable py_split : string → list string.
Variable py_float : string → option float.
Variable py_isdigit : string → bool.
Variable py_int : string → option Z.

(** [process_command(message)], with [msg_text] the ['text'] entry of the
    message. [None] is an exception escaping to [listen_for_commands]. *)
Definition process_command (msg_text : option string) (c : config)
  : option (config * option reply) :=
  let text := py_strip (default "" msg_text) in
  if String.eqb text "/start" || String.eqb text "/help" then
    Some (c, Some HelpText)
  else if String.eqb text "/pause" then
    Some ({| is_paused := true; scan_interval := scan_interval c;
             bot_thresholds := bot_thresholds c |}, Some PausedText)
  else if String.eqb text "/resume" then
    Some ({| is_paused := false; scan_interval := scan_interval c;
             bot_thresholds := bot_thresholds c |}, Some ResumedText)
  else if String.eqb text "/status" then
    Some (c, Some (StatusText (is_paused c) (scan_interval c)))
  else if String.prefix "/interval" text then
    match py_split text with
    | [_; arg] =>
        if py_isdigit arg then
          new_interval ← py_int arg;
          if (10 <=? new_interval) && (new_interval <=? 600) then
            Some ({| is_paused := is_paused c; scan_interval := new_interval;
                     bot_thresholds := bot_thresholds c |},
                  Some (IntervalSet new_interval))
          else Some (c, Some IntervalOutOfRange)
        else Some (c, Some (IntervalUsage (scan_interval c)))
    | _ => Some (c, Some (IntervalUsage (scan_interval c)))
    end
  else if String.eqb text "/thresholds" then
    Some (c, Some (ThresholdsText (bot_thresholds c)))
  else if String.prefix "/set" text then
    match py_split text with
    | [_; param; arg] =>
        match py_float arg with
        | Some value =>
            if known_param param then
              Some ({| is_paused := is_paused c;
                       scan_interval := scan_interval c;
                       bot_thresholds :=
                         set_threshold param value (bot_thresholds c) |},
                    Some (SetOk param value))
            else Some (c, Some (UnknownParameter param))
        | None => Some (c, Some InvalidValue)
        end
    | _ => Some (c, Some SetUsage)
    end
  else if String.eqb text "/stats" then Some (c, Some StatsText)
  else Some (c, None).

End Commands.

(** ** Concrete library functions, for evaluation

    These agree with Python on the inputs they accept: timestamps of the
    form [YYYY-MM-DDTHH:MM:SS], ASCII white space, plain decimal numerals.
    On other inputs they answer [None] (or do not split); the theorems below
    do not depend on them, only the evaluated examples do. *)

Definition digit_of (c : ascii) : option Z :=
  let n := Z.of_nat (nat_of_ascii c) in
  if (48 <=? n) && (n <=? 57) then Some (n - 48) else None.

(** The value of a string of decimal digits, [acc] being the value read so
    far. *)
Fixpoint digits_from (acc : Z) (s : string) : option Z :=
  match s with
  | EmptyString => Some acc
  | String c s' => d ← digit_of c; digits_from (10 * acc + d) s'
  end.

Definition dec_nat (s : string) : option Z :=
  match s with EmptyString => None | _ => digits_from 0 s end.

Definition is_leap (y : Z) : bool :=
  (y mod 4 =? 0) && (negb (y mod 100 =? 0) || (y mod 400 =? 0)).

Definition days_in_month (y m : Z) : Z :=
  if m =? 2 then (if is_leap y then 29 else 28)
  else if (m =? 4) || (m =? 6) || (m =? 9) || (m =? 11) then 30
  else 31.

Definition days_before_year (y : Z) : Z :=
  let y1 := y - 1 in y1 * 365 + y1 / 4 - y1 / 100 + y1 / 400.

Definition days_before_month (y m : Z) : Z :=
  foldr (λ k acc, days_in_month y (Z.of_nat k) + acc) 0
    (seq 1 (Z.to_nat (m - 1))).

(** The proleptic Gregorian ordinal of a date, day 1 being 0001-01-01. *)
Definition ymd2ord (y m d : Z) : Z :=
  days_before_year y + days_before_month y m + d.

(** [datetime.fromisoformat] on [YYYY-MM-DDTHH:MM:SS]. *)
Definition iso_basic (s : string) : option datetime :=
  if negb (String.length s =? 19)%nat then None else
  if negb (String.eqb (substring 4 1 s) "-" && String.eqb (substring 7 1 s) "-"
           && String.eqb (substring 10 1 s) "T"
           && String.eqb (substring 13 1 s) ":"
           && String.eqb (substring 16 1 s) ":") then None else
  y ← dec_nat (substring 0 4 s);
  m ← dec_nat (substring 5 2 s);
  d ← dec_nat (substring 8 2 s);
  hh ← dec_nat (substring 11 2 s);
  mm ← dec_nat (substring 14 2 s);
  ss ← dec_nat (substring 17 2 s);
  if (1 <=? y) && (1 <=? m) && (m <=? 12) && (1 <=? d)
     && (d <=? days_in_month y m) && (hh <? 24) && (mm <? 60) && (ss <? 60)
  then Some (naive ((((ymd2ord y m d * 24 + hh) * 60 + mm) * 60 + ss)
                    * us_per_second))
  else None.

Definition is_space (c : ascii) : bool :=
  let n := nat_of_ascii c in
  (n =? 32)%nat || ((9 <=? n) && (n <=? 13))%nat
  || ((28 <=? n) && (n <=? 31))%nat.

(** [str.split()] on ASCII white space; [cur] is the word being read, in
    reverse. *)
Fixpoint split_from (cur : list ascii) (s : string) : list string :=
  let flush := match cur with
               | [] => []
               | _ => [string_of_list_ascii (rev cur)]
               end in
  match s with
  | EmptyString => flush
  | String c s' =>
      if is_space c then flush ++ split_from [] s'
      else split_from (c :: cur) s'
  end.

Definition ascii_split (s : string) : list string := split_from [] s.

Fixpoint drop_spaces (l : list ascii) : list ascii :=
  match l with
  | c :: l' => if is_space c then drop_spaces l' else l
  | [] => []
  end.

(** [str.strip()] on ASCII white space. *)
Definition ascii_strip (s : string) : string :=
  string_of_list_ascii
    (rev (drop_spaces (rev (drop_spaces (list_ascii_of_string s))))).

Definition ascii_isdigit (s : string) : bool :=
  match dec_nat s with Some _ => true | None => false end.

(** [float] on an optional sign, digits and an optional fraction: the
    float nearest to the decimal numeral. *)
Definition dec_float (s : string) : option float :=
  let '(neg, body) :=
    match s with
    | String "-"%char s' => (true, s')
    | String "+"%char s' => (false, s')
    | _ => (false, s)
    end in
  let k := match index 0 "." body with
           | Some k => k
           | None => String.length body
           end in
  let int_part := substring 0 k body in
  let frac_part := substring (k + 1) (String.length body - (k + 1)) body in
  '(m, scale) ← (if (k =? String.length body)%nat
                 then i ← dec_nat int_part; Some (i, 1)
                 else i ← dec_nat int_part; f ← dec_nat frac_part;
                      let scale := 10 ^ Z.of_nat (String.length frac_part) in
                      Some (i * scale + f, scale));
  Some match m with
       | Zpos p => float_of_ratio neg p (Z.to_pos scale)
       | _ => S754_zero neg
       end.

(** [sum] as CPython computes it up to version 3.11: [0 + x1 + ... + xn]
    from the left. *)
Definition naive_sum (l : list float) : float :=
  foldl fadd (S754_zero false) l.

(** ** Sample inputs *)

(** The clock reading at a given wall time. *)
Definition clock_of (s : string) : Z :=
  match iso_basic s with Some d => dt_us d | None => 0 end.

Definition sample_market : market_data :=
  {| condition_id := Some "0xm1"; question := Some "Will it rain?";
     volume := Some (PyStr "5000") |}.

(** A trade as the API delivers it, its size and price as strings. *)
Definition mk_trade (wallet size price timestamp outcome : string) : trade :=
  {| maker_address := Some wallet; tr_size := Some (PyStr size);
     tr_price := Some (PyStr price); tr_timestamp := Some timestamp;
     tr_outcome := Some outcome |}.

(** The same trade once [float()] has read its numbers with [dec_float];
    the numbers of a string that [dec_float] rejects are not used. *)
Definition read (tr : trade) : converted :=
  {| c_trade := tr;
     c_size := default (S754_zero false)
                 (float_of dec_float (default (PyInt 0) (tr_size tr)));
     c_price := default (S754_zero false)
                  (float_of dec_float (default (PyInt 0) (tr_price tr))) |}.

(** A trade worth 2500 and one worth 5. *)
Definition large_trade (timestamp : string) : trade :=
  mk_trade "0xabc" "5000" "0.5" timestamp "Yes".
Definition small_trade (timestamp : string) : trade :=
  mk_trade "0xabc" "10" "0.5" timestamp "Yes".

(** A scan: the calls of [analyze_trade] on a list of trades, each with the
    clock reading of its call, the thresholds staying as they are. *)
Definition run (fromisoformat : string → option datetime)
    (py_float : string → option float) (py_sum : list float → float)
    (th : thresholds) (calls : list (Z * trade * market_data)) (st : state)
  : state :=
  foldl (λ st c,
           result_state
             (analyze_trade fromisoformat py_float py_sum "" c.1.1 th st
                c.1.2 c.2))
    st calls.

(** The stores after three small trades of one wallet on the sample
    market. *)
Definition three_small : state :=
  run iso_basic dec_float naive_sum default_thresholds
    [ (clock_of "2024-01-01T12:00:00", small_trade "2024-01-01T09:00:00",
       sample_market);
      (clock_of "2024-01-01T12:00:00", small_trade "2024-01-01T10:00:00",
       sample_market);
      (clock_of "2024-01-01T12:00:00", small_trade "2024-01-01T11:00:00",
       sample_market) ]
    init_state.

(** The first call of a scan, on a trade worth 2500 of a wallet never seen
    before. *)
Definition first_large : result :=
  analyze_trade iso_basic dec_float naive_sum ""
    (clock_of "2024-01-01T12:00:00") default_thresholds
    init_state (large_trade "2024-01-01T00:00:00")
    sample_market.

(** A trade worth 5, delivered once and then once more. *)
Definition small_once : result :=
  analyze_trade iso_basic dec_float naive_sum ""
    (clock_of "2024-01-01T12:00:00") default_thresholds
    init_state (small_trade "2024-01-01T00:00:00")
    sample_market.

Definition small_twice : result :=
  analyze_trade iso_basic dec_float naive_sum ""
    (clock_of "2024-01-01T12:00:00") default_thresholds
    (result_state small_once)
    (small_trade "2024-01-01T00:00:00") sample_market.

(** The stores after ten small trades on the sample market: its size
    window holds exactly ten sizes. *)
Definition ten_small : state :=
  run iso_basic dec_float naive_sum default_thresholds
    ((λ ts, (clock_of "2024-01-01T12:00:00", small_trade ts, sample_market))
     <$> [ "2024-01-01T09:00:00"; "2024-01-01T09:01:00";
           "2024-01-01T09:02:00"; "2024-01-01T09:03:00";
           "2024-01-01T09:04:00"; "2024-01-01T09:05:00";
           "2024-01-01T09:06:00"; "2024-01-01T09:07:00";
           "2024-01-01T09:08:00"; "2024-01-01T09:09:00" ])
    init_state.


(** The configuration [__init__] sets up. *)
Definition default_config : config :=
  {| is_paused := false; scan_interval := 60;
     bot_thresholds := default_thresholds |}.

(** [process_command] with the ASCII library functions. *)
Definition ascii_process_command : option string → config →
    option (config * option reply) :=
  process_command ascii_strip ascii_split dec_float ascii_isdigit dec_nat.

(** The first trade of a wallet, worth 2500, executed a month before the
    scan that delivers it. *)
Definition stale_first : result :=
  analyze_trade iso_basic dec_float naive_sum ""
    (clock_of "2024-01-01T12:00:00") default_thresholds
    init_state (large_trade "2023-12-01T00:00:00")
    sample_market.

(** A trade worth 900 at price 0.9, after ten trades at 0.5 within the
    last half hour. *)
Definition moving_trade : trade :=
  mk_trade "0xdef" "1000" "0.9" "2024-01-01T09:10:00" "Yes".

Definition moving_call : result :=
  analyze_trade iso_basic dec_float naive_sum ""
    (clock_of "2024-01-01T12:00:00") default_thresholds
    ten_small moving_trade sample_market.

(** Metadata without a condition id, and the first call of a scan on it. *)
Definition unlisted_market : market_data :=
  {| condition_id := None; question := Some "Will it rain?";
     volume := Some (PyStr "5000") |}.

Definition unlisted_call : result :=
  analyze_trade iso_basic dec_float naive_sum ""
    (clock_of "2024-01-01T12:00:00") default_thresholds
    init_state (large_trade "2024-01-01T00:00:00")
    unlisted_market.

(** Three wallets entering the sample market on the same outcome within
    two minutes, after a fourth one took the other side. *)
Definition trade_d : trade :=
  mk_trade "0xd" "1000" "0.5" "2024-01-01T09:00:00" "No".
Definition trade_a : trade :=
  mk_trade "0xa" "1000" "0.5" "2024-01-01T09:00:10" "Yes".
Definition trade_b : trade :=
  mk_trade "0xb" "1000" "0.5" "2024-01-01T09:01:00" "Yes".
Definition trade_c : trade :=
  mk_trade "0xc" "1000" "0.5" "2024-01-01T09:02:00" "Yes".

Definition coordinated_scan (tr : trade) (st : state) : result :=
  analyze_trade iso_basic dec_float naive_sum ""
    (clock_of "2024-01-01T12:00:00") default_thresholds st tr sample_market.

Definition entry_a : result :=
  coordinated_scan trade_a (result_state (coordinated_scan trade_d init_state)).
Definition entry_b : result := coordinated_scan trade_b (result_state entry_a).
Definition entry_c : result := coordinated_scan trade_c (result_state entry_b).

(** ** The command listener *)

(** A Telegram message: [message.get('chat', {}).get('id')] and
    [message.get('text')]. *)
Record message := { msg_chat : option Z; msg_text : option string }.

(** An update: [update['update_id']] and [update['message']], when the
    update has one. *)
Record update := { update_id : Z; upd_message : option message }.

(** What [listen_for_commands] reads and writes on the bot object. *)
Record listener := { last_update_id : Z; listener_config : config }.

Section Listener.

Variable py_strip : string → string.
Variable py_split : string → list string.
Variable py_float : string → option float.
Variable py_isdigit : string → bool.
Variable py_int : string → option Z.

(** [int(self.chat_id)]; [None] where it raises [ValueError]. *)
Variable chat_id : option Z.

(** Lines 179-184, the loop over the updates [get_updates] returned: the
    listener as the loop leaves it, the replies sent, and whether the loop
    completed (an exception ends it and is caught on line 186). *)
Fixpoint handle_updates (updates : list update) (l : listener)
    (replies : list reply) : listener * list reply * bool :=
  match updates with
  | [] => (l, replies, true)
  | u :: updates' =>
      let l1 := {| last_update_id := update_id u;
                   listener_config := listener_config l |} in
      match upd_message u with
      | None => handle_updates updates' l1 replies
      | Some m =>
          match chat_id with
          | None => (l1, replies, false)
          | Some cid =>
              if bool_decide (msg_chat m = Some cid) then
                match process_command py_strip py_split py_float py_isdigit
                        py_int (msg_text m) (listener_config l1) with
                | Some (c', r) =>
                    handle_updates updates'
                      {| last_update_id := update_id u;
                         listener_config := c' |}
                      (replies ++ from_option (λ x, [x]) [] r)
                | None => (l1, replies, false)
                end
              else handle_updates updates' l1 replies
          end
      end
  end.

End Listener.

(** ** Rendering and the scan *)

(** [s[:n]] and [s[-n:]]; a [string] stands for the sequence of characters
    of a Python [str]. *)
Definition py_prefix (n : nat) (s : string) : string := substring 0 n s.
Definition py_suffix (n : nat) (s : string) : string :=
  substring (String.length s - n) n s.

(** How an f-string prints an [int]. *)
Definition str_of_Z (z : Z) : string := NilZero.string_of_int (Z.to_int z).
Definition str_of_nat (n : nat) : string :=
  NilZero.string_of_uint (Nat.to_uint n).

(** The line break of the message templates. *)
Definition nl : string := String (ascii_of_nat 10) EmptyString.

(** [alert['market']]: the alerts of the conviction rule hold the name of
    the market under ['current_market'] (line 319) and have no ['market']
    entry. *)
Definition alert_market (a : alert) : option string :=
  match a_fields a with
  | ConvictionFields _ _ _ _ => None
  | _ => Some (a_market a)
  end.

(** [x / y] on floats; [None] is [ZeroDivisionError]. *)
Definition float_div (x y : float) : option float :=
  if is_zero y then None else Some (fdiv x y).

Section Rendering.

(** [format(x, '.nf')]: a float with [n] digits after the point. *)
Variable fmt_float : nat → float → string.

(** [format_alert(alert)]; [None] is an exception: the [KeyError] of an
    entry the dict does not have, or the [ZeroDivisionError] of line 400. *)
Definition format_alert (a : alert) : option string :=
  let wallet_short :=
    py_prefix 8 (a_wallet a) +:+ "..." +:+ py_suffix 6 (a_wallet a) in
  m ← alert_market a;
  let market := py_prefix 100 m in
  match a_type a, a_fields a with
  | FRESH_WALLET_LARGE_BET, FreshFields age_days value =>
      Some ("🚨 <b>FRESH WALLET LARGE BET</b>" +:+ nl +:+ nl
            +:+ "Wallet: <code>" +:+ wallet_short +:+ "</code>" +:+ nl
            +:+ "Age: " +:+ str_of_Z age_days +:+ " days" +:+ nl
            +:+ "Value: $" +:+ fmt_float 2 value +:+ nl +:+ nl
            +:+ "Market: " +:+ market)
  | UNUSUAL_SIZE, UnusualFields size avg_size =>
      ratio ← float_div size avg_size;
      Some ("📊 <b>UNUSUAL POSITION SIZE</b>" +:+ nl +:+ nl
            +:+ "Wallet: <code>" +:+ wallet_short +:+ "</code>" +:+ nl
            +:+ "Size: " +:+ fmt_float 2 size
            +:+ " (avg: " +:+ fmt_float 2 avg_size +:+ ")" +:+ nl
            +:+ "Multiplier: " +:+ fmt_float 1 ratio +:+ "x" +:+ nl +:+ nl
            +:+ "Market: " +:+ market)
  | REPEAT_NICHE_PLAYER, NicheFields trades_count market_volume =>
      Some ("🎯 <b>REPEAT NICHE PLAYER</b>" +:+ nl +:+ nl
            +:+ "Wallet: <code>" +:+ wallet_short +:+ "</code>" +:+ nl
            +:+ "Trades: " +:+ str_of_nat trades_count
            +:+ " in this market" +:+ nl
            +:+ "Volume: $" +:+ fmt_float 2 market_volume +:+ nl +:+ nl
            +:+ "Market: " +:+ market)
  | HIGH_WIN_RATE_TRADER,
    ConvictionFields conviction_trades total_trades current_price value =>
      Some ("🏆 <b>HIGH WIN RATE TRADER</b>" +:+ nl +:+ nl
            +:+ "Wallet: <code>" +:+ wallet_short +:+ "</code>" +:+ nl
            +:+ "Track record: " +:+ str_of_nat conviction_trades +:+ "/"
            +:+ str_of_nat total_trades +:+ " conviction trades" +:+ nl
            +:+ "Entry: " +:+ fmt_float 3 current_price +:+ nl
            +:+ "Value: $" +:+ fmt_float 2 value +:+ nl +:+ nl
            +:+ "Market: " +:+ market)
  | PRE_MOVE_POSITIONING,
    PreMoveFields value old_price new_price price_change =>
      Some ("⚡ <b>PRE-MOVE POSITIONING</b>" +:+ nl +:+ nl
            +:+ "Wallet: <code>" +:+ wallet_short +:+ "</code>" +:+ nl
            +:+ "Value: $" +:+ fmt_float 2 value +:+ nl
            +:+ "Price move: " +:+ fmt_float 3 old_price +:+ " → "
            +:+ fmt_float 3 new_price +:+ nl
            +:+ "Change: " +:+ fmt_float 1 price_change +:+ "%" +:+ nl +:+ nl
            +:+ "Market: " +:+ market)
  | COORDINATED_ENTRY, CoordinatedFields coordinated_wallets outcome value =>
      Some ("🤝 <b>COORDINATED ENTRY</b>" +:+ nl +:+ nl
            +:+ "Wallets: " +:+ str_of_nat coordinated_wallets
            +:+ " trading together" +:+ nl
            +:+ "Lead: <code>" +:+ wallet_short +:+ "</code>" +:+ nl
            +:+ "Value: $" +:+ fmt_float 2 value +:+ nl
            +:+ "Outcome: " +:+ outcome +:+ nl +:+ nl
            +:+ "Market: " +:+ market)
  | _, _ => None
  end.

(** Lines 468-471: the messages handed to [send_telegram], which swallows
    its own failures; the flag tells whether every alert was rendered. *)
Fixpoint send_alerts (alerts : list alert) : list string * bool :=
  match alerts with
  | [] => ([], true)
  | a :: alerts' =>
      match format_alert a with
      | Some message =>
          let '(sent, ok) := send_alerts alerts' in (message :: sent, ok)
      | None => ([], false)
      end
  end.

End Rendering.

(** What a call reads from its surroundings: the clock (as the default
    timestamp and as the reading of [get_wallet_age]) and the thresholds as
    the command thread left them. *)
Record tick := { tick_iso : string; tick_now : Z; tick_th : thresholds }.

(** What [get_markets] and [get_market_trades] answered during one scan:
    the markets in the order returned, each with the trades returned for
    it, each trade with the tick of its call. *)
Definition feed : Type := list (market_data * list (tick * trade)).

(** The stores a sequence of calls of [analyze_trade] leads to, from given
    stores. *)
Inductive reaches (fromisoformat : string → option datetime)
    (py_float : string → option float) (py_sum : list float → float)
  : state → state → Prop :=
  | reaches_refl st : reaches fromisoformat py_float py_sum st st
  | reaches_step st st' k tr md :
      reaches fromisoformat py_float py_sum st st' →
      reaches fromisoformat py_float py_sum st
        (result_state
           (analyze_trade fromisoformat py_float py_sum (tick_iso k)
              (tick_now k) (tick_th k) st' tr md)).

(** How [scan_markets] ends: the stores, the list [new_alerts] as it was
    when the function was left, the messages sent, and whether it returned
    ([new_alerts] is then its value) or let an exception escape. *)
Record scan_outcome := {
  scan_state : state;
  scan_found : list alert;
  scan_sent : list string;
  scan_returned : bool
}.

Section Scan.

Variable fromisoformat : string → option datetime.
Variable py_float : string → option float.
Variable py_sum : list float → float.
Variable fmt_float : nat → float → string.

(** Lines 462-464 for one market: the stores, the alerts found so far and
    whether every call returned. *)
Fixpoint scan_trades (md : market_data) (trades : list (tick * trade))
    (st : state) (found : list alert) : state * list alert * bool :=
  match trades with
  | [] => (st, found, true)
  | (k, tr) :: trades' =>
      match analyze_trade fromisoformat py_float py_sum (tick_iso k)
              (tick_now k) (tick_th k) st tr md with
      | Returned alerts st' => scan_trades md trades' st' (found ++ alerts)
      | Raised st' => (st', found, false)
      end
  end.

(** Lines 455-464: markets without a condition id are passed over. *)
Fixpoint scan_feed (markets : feed) (st : state) (found : list alert)
  : state * list alert * bool :=
  match markets with
  | [] => (st, found, true)
  | (md, trades) :: markets' =>
      match truthy_id (condition_id md) with
      | None => scan_feed markets' st found
      | Some _ =>
          match scan_trades md trades st found with
          | (st', found', true) => scan_feed markets' st' found'
          | (st', found', false) => (st', found', false)
          end
      end
  end.

(** [scan_markets()], with [paused] the flag [self.is_paused]. *)
Definition scan_markets (paused : bool) (markets : feed) (st : state)
  : scan_outcome :=
  if paused then
    {| scan_state := st; scan_found := []; scan_sent := [];
       scan_returned := true |}
  else
    match scan_feed markets st [] with
    | (st', new_alerts, true) =>
        let '(sent, ok) := send_alerts fmt_float new_alerts in
        {| scan_state := st'; scan_found := new_alerts; scan_sent := sent;
           scan_returned := ok |}
    | (st', new_alerts, false) =>
        {| scan_state := st'; scan_found := new_alerts; scan_sent := [];
           scan_returned := false |}
    end.

(** The trade's timestamp parses as a naive [datetime] and [float()]
    accepts its size and its price. *)
Definition readable_trade (kt : tick * trade) : Prop :=
  parses_naive fromisoformat (trade_timestamp (tick_iso kt.1) kt.2)
  ∧ is_Some (convert_trade py_float kt.2).

(** [float()] accepts the market's volume, and its trades are readable. *)
Definition readable_market (m : market_data * list (tick * trade)) : Prop :=
  is_Some (float_of py_float (default (PyInt 0) (volume m.1)))
  ∧ Forall readable_trade m.2.

End Scan.

(** The fields of an alert are those its type is built with. *)
Definition alert_wf (a : alert) : bool :=
  match a_type a, a_fields a with
  | FRESH_WALLET_LARGE_BET, FreshFields _ _
  | UNUSUAL_SIZE, UnusualFields _ _
  | REPEAT_NICHE_PLAYER, NicheFields _ _
  | HIGH_WIN_RATE_TRADER, ConvictionFields _ _ _ _
  | PRE_MOVE_POSITIONING, PreMoveFields _ _ _ _
  | COORDINATED_ENTRY, CoordinatedFields _ _ _ => true
  | _, _ => false
  end.

(** The mean an Unusual-Size alert reports is zero. *)
Definition zero_mean (a : alert) : bool :=
  match a_fields a with
  | UnusualFields _ avg_size => is_zero avg_size
  | _ => false
  end.

(** The string holds the separator of the dedup key. *)
Fixpoint has_underscore (s : string) : bool :=
  match s with
  | EmptyString => false
  | String c s' => Ascii.eqb c "_" || has_underscore s'
  end.

(** What holds of the alerts found by a scan, at any point of it: they are
    marked in the ledger and have the fields of their type. *)
Definition found_ok (st : state) (found : list alert) : Prop :=
  Forall (λ a, a_key a ∈ sent_alerts st ∧ alert_wf a = true) found.

(** ** Sample inputs of the scan and of the listener *)

(** [format(x, '.nf')]: the exact value of the float rounded to [n]
    decimals, ties to even; an instance of [fmt_float] for evaluation. *)
Definition round_half_even (q : Q) : Z :=
  let f := Qfloor q in
  match ((q - inject_Z f) ?= 1 # 2)%Q with
  | Lt => f
  | Gt => f + 1
  | Eq => if Z.even f then f else f + 1
  end.

Fixpoint zeros (n : nat) : string :=
  match n with
  | O => ""
  | S n' => "0" +:+ zeros n'
  end.

Definition pad_left (n : nat) (s : string) : string :=
  zeros (n - String.length s) +:+ s.

Definition fmt_fixed (n : nat) (x : float) : string :=
  let fixed (neg : bool) (q : Q) : string :=
    let scale := 10 ^ Z.of_nat n in
    let r := round_half_even (q * inject_Z scale) in
    (if neg then "-" else "")
    +:+ str_of_Z (r / scale)
    +:+ (if (n =? 0)%nat then ""
         else "." +:+ pad_left n (str_of_Z (r mod scale))) in
  match x with
  | S754_nan => "nan"
  | S754_infinity neg => if neg then "-inf" else "inf"
  | S754_zero neg => fixed neg 0%Q
  | S754_finite neg m e => fixed neg (inject_Z (Zpos m) * Qpower 2 e)%Q
  end.

(** The clock and the thresholds of the sample calls. *)
Definition noon : tick :=
  {| tick_iso := ""; tick_now := clock_of "2024-01-01T12:00:00";
     tick_th := default_thresholds |}.

(** The stores after the first sample call and a small trade of the same
    wallet an hour later. *)
Definition large_then_small : state :=
  result_state
    (analyze_trade iso_basic dec_float naive_sum (tick_iso noon)
       (tick_now noon) (tick_th noon)
       (result_state first_large) (small_trade "2024-01-01T01:00:00")
       sample_market).

(** A trade whose timestamp is a count of seconds, not an ISO string, the
    first call of a scan on it, and a later trade of the same wallet. *)
Definition garbled_trade : trade :=
  mk_trade "0xbad" "10" "0.5" "1700000000" "Yes".

Definition garbled_first : result :=
  analyze_trade iso_basic dec_float naive_sum ""
    (clock_of "2024-01-01T12:00:00") default_thresholds
    init_state garbled_trade sample_market.

Definition garbled_next : trade :=
  mk_trade "0xbad" "5000" "0.5" "2024-01-01T10:00:00" "Yes".

(** Trades of one wallet at 0.9, each worth 900: the stores after nine of
    them, and ten of them as one market's answer to a scan. *)
Definition high_trade (timestamp : string) : trade :=
  mk_trade "0xhi" "1000" "0.9" timestamp "Yes".

Definition nine_high : state :=
  run iso_basic dec_float naive_sum default_thresholds
    ((λ ts, (clock_of "2024-01-01T12:00:00", high_trade ts, sample_market))
     <$> [ "2024-01-01T09:00:00"; "2024-01-01T09:01:00";
           "2024-01-01T09:02:00"; "2024-01-01T09:03:00";
           "2024-01-01T09:04:00"; "2024-01-01T09:05:00";
           "2024-01-01T09:06:00"; "2024-01-01T09:07:00";
           "2024-01-01T09:08:00" ])
    init_state.


Definition conviction_feed : feed :=
  [ (sample_market,
     (λ ts, (noon, high_trade ts))
     <$> [ "2024-01-01T09:00:00"; "2024-01-01T09:01:00";
           "2024-01-01T09:02:00"; "2024-01-01T09:03:00";
           "2024-01-01T09:04:00"; "2024-01-01T09:05:00";
           "2024-01-01T09:06:00"; "2024-01-01T09:07:00";
           "2024-01-01T09:08:00"; "2024-01-01T09:09:00" ]) ].

Definition conviction_scan : scan_outcome :=
  scan_markets iso_basic dec_float naive_sum fmt_fixed false conviction_feed
    init_state.

(** The alert of the conviction rule on the tenth of these trades. *)
Definition conviction_alert : alert :=
  {| a_type := HIGH_WIN_RATE_TRADER; a_wallet := "0xhi";
     a_fields := ConvictionFields 10 10 (decimal 9 1)
                   (fmul (float_of_Z 1000) (decimal 9 1));
     a_market := "Will it rain?";
     a_key := "0xhi_0xm1_2024-01-01T09:09:00" |}.

(** The listener as [__init__] leaves it, the same one paused, and
    [handle_updates] with the ASCII library functions for the chat 42. *)
Definition default_listener : listener :=
  {| last_update_id := 0; listener_config := default_config |}.

Definition paused_listener : listener :=
  {| last_update_id := 0;
     listener_config :=
       {| is_paused := true; scan_interval := 60;
          bot_thresholds := default_thresholds |} |}.

Definition ascii_handle_updates (chat_id : option Z)
  : list update → listener → list reply → listener * list reply * bool :=
  handle_updates ascii_strip ascii_split dec_float ascii_isdigit dec_nat
    chat_id.

Definition from_chat (id chat : Z) (text : string) : update :=
  {| update_id := id;
     upd_message := Some {| msg_chat := Some chat; msg_text := Some text |} |}.

Definition no_message (id : Z) : update :=
  {| update_id := id; upd_message := None |}.

(** The paused listener after two commands of the chat 42. *)
Definition paused_batch : listener :=
  (ascii_handle_updates (Some 42)
     [from_chat 1 42 "/interval 30"; from_chat 2 42 "/status"]
     paused_listener []).1.1.

(** The trade with the garbled timestamp, on the market without id. *)
Definition unlisted_garbled : result :=
  analyze_trade iso_basic dec_float naive_sum ""
    (clock_of "2024-01-01T12:00:00") default_thresholds init_state
    garbled_trade unlisted_market.

(** Eleven trades of size 0.1 on the sample market, and then one of size
    0.25, two and a half times as much. *)
Definition eleven_tenths : state :=
  run iso_basic dec_float naive_sum default_thresholds
    ((λ ts, (clock_of "2024-01-01T12:00:00",
             mk_trade "0xabc" "0.1" "0.5" ts "Yes", sample_market))
     <$> [ "2024-01-01T09:00:00"; "2024-01-01T09:01:00";
           "2024-01-01T09:02:00"; "2024-01-01T09:03:00";
           "2024-01-01T09:04:00"; "2024-01-01T09:05:00";
           "2024-01-01T09:06:00"; "2024-01-01T09:07:00";
           "2024-01-01T09:08:00"; "2024-01-01T09:09:00";
           "2024-01-01T09:10:00" ])
    init_state.

Definition quarter_call : result :=
  analyze_trade iso_basic dec_float naive_sum ""
    (clock_of "2024-01-01T12:00:00") default_thresholds eleven_tenths
    (mk_trade "0xdef" "0.25" "0.5" "2024-01-01T10:00:00" "Yes")
    sample_market.

(** A trade worth 650 at price 0.65, after ten trades at 0.5 within the
    last half hour. *)
Definition drift_call : result :=
  analyze_trade iso_basic dec_float naive_sum ""
    (clock_of "2024-01-01T12:00:00") default_thresholds ten_small
    (mk_trade "0xdef" "1000" "0.65" "2024-01-01T09:10:00" "Yes")
    sample_market.

(** A market with a volume above [niche_volume_max]. *)
Definition busy_market : market_data :=
  {| condition_id := Some "0xm2"; question := Some "Will it snow?";
     volume := Some (PyStr "50000") |}.

(** The stores after the trade with the garbled timestamp and two hundred
    deliveries of one small trade, all on the busy market: the small trade
    raises no alert, so every delivery of it is processed, and the price
    of the garbled trade has left the price window while the trade is
    still in its wallet's history. *)
Definition clogged : state :=
  run iso_basic dec_float naive_sum default_thresholds
    ((clock_of "2024-01-01T12:00:00", garbled_trade, busy_market)
     :: replicate 200
          (clock_of "2024-01-01T12:00:00", small_trade "2024-01-01T09:00:00",
           busy_market))
    init_state.

(** A trade worth 9000 at price 0.9 on the busy market, ten minutes after
    the small one, and its call. *)
Definition late_trade : trade :=
  mk_trade "0xdef" "10000" "0.9" "2024-01-01T09:10:00" "Yes".

Definition late_call : result :=
  analyze_trade iso_basic dec_float naive_sum ""
    (clock_of "2024-01-01T12:00:00") default_thresholds clogged late_trade
    busy_market.

(** ** Proof automation *)

(** Case analysis on every [match], [if] and monadic bind of a hypothesis
    [H : ... = Some _], dropping the branches that raise. *)
Ltac option_cases H :=
  repeat (cbn [mbind option_bind fmap option_fmap option_map] in H;
          match type of H with
          | context [match ?x with _ => _ end] =>
              destruct x eqn:?; try discriminate H
          | context [mbind _ ?x] =>
              destruct x eqn:?; try discriminate H
          end).

(** * Properties *)

(** ** Lists *)

Lemma lastn_length {A} (n : nat) (l : list A) :
  length (lastn n l) = (length l `min` n)%nat.
Proof. unfold lastn. rewrite length_drop. lia. Qed.

Lemma lastn_all {A} (n : nat) (l : list A) :
  (length l ≤ n)%nat → lastn n l = l.
Proof.
  intros H. unfold lastn. replace (length l - n)%nat with 0%nat by lia.
  reflexivity.
Qed.

(** Appending and popping the head when the cap is passed keeps the last
    [cap] elements of the extended list, provided the list was within the
    cap. *)
Lemma push_capped_lastn {A} (cap : nat) (x : A) (l : list A) :
  (length l ≤ cap)%nat → push_capped cap x l = lastn cap (l ++ [x]).
Proof.
  intros H. unfold push_capped, lastn. rewrite length_app. simpl.
  destruct (Nat.ltb_spec cap (length l + 1)) as [Hlt|Hge].
  - replace (length l + 1 - cap)%nat with 1%nat by lia.
    destruct l; reflexivity.
  - replace (length l + 1 - cap)%nat with 0%nat by lia. reflexivity.
Qed.

Lemma push_capped_length {A} (cap : nat) (x : A) (l : list A) :
  (length l ≤ cap)%nat → (length (push_capped cap x l) ≤ cap)%nat.
Proof.
  intros H. rewrite push_capped_lastn by assumption.
  rewrite lastn_length. lia.
Qed.

(** Appending one entry at a time and keeping the last [n] each time keeps
    the last [n] of everything appended, in the order of arrival. *)
Lemma lastn_app_lastn {A} (n : nat) (a b : list A) :
  lastn n (lastn n a ++ b) = lastn n (a ++ b).
Proof.
  destruct (Nat.le_gt_cases (length a) n) as [Hle|Hgt].
  { rewrite (lastn_all n a) by exact Hle. reflexivity. }
  unfold lastn. rewrite !length_app, length_drop.
  assert (E1 : (length a - (length a - n) + length b - n = length b)%nat).
  { clear -Hgt. lia. }
  rewrite E1.
  replace (length a + length b - n)%nat
    with ((length a - n) + length b)%nat by lia.
  rewrite <- (drop_drop (a ++ b) (length b) (length a - n)).
  rewrite (drop_app_le a b (length a - n)) by lia. reflexivity.
Qed.

Lemma foldl_lastn {A} (n : nat) (xs l : list A) :
  (length l ≤ n)%nat →
  foldl (λ w x, lastn n (w ++ [x])) l xs = lastn n (l ++ xs).
Proof.
  revert l. induction xs as [|x xs IH]; intros l Hl; simpl.
  - rewrite app_nil_r, lastn_all by exact Hl. reflexivity.
  - rewrite IH by (rewrite lastn_length; lia).
    rewrite lastn_app_lastn, <- app_assoc. reflexivity.
Qed.

Lemma count_type_app (ty : alert_type) (l1 l2 : list alert) :
  count_type ty (l1 ++ l2) = (count_type ty l1 + count_type ty l2)%nat.
Proof. unfold count_type. rewrite List.filter_app, length_app. reflexivity. Qed.

Lemma alert_type_eqb_eq (x y : alert_type) :
  alert_type_eqb x y = true ↔ x = y.
Proof. destruct x, y; simpl; split; congruence. Qed.

(** ** Store lookups across the updates *)

Lemma dd_get_append {A} (k k' : string) (x : A) (d : gmap string (list A)) :
  dd_get k' (dd_append k x d)
  = if bool_decide (k = k') then dd_get k d ++ [x] else dd_get k' d.
Proof.
  unfold dd_get, dd_append. rewrite lookup_insert.
  case_bool_decide; case_decide; try congruence; reflexivity.
Qed.

Lemma dd_get_push_capped {A} (cap : nat) (k k' : string) (x : A)
    (d : gmap string (list A)) :
  dd_get k' (dd_push_capped cap k x d)
  = if bool_decide (k = k') then push_capped cap x (dd_get k d)
    else dd_get k' d.
Proof.
  unfold dd_get, dd_push_capped. rewrite lookup_insert.
  case_bool_decide; case_decide; try congruence; reflexivity.
Qed.

Lemma truthy_id_Some (o : option string) (mid : string) :
  truthy_id o = Some mid ↔ o = Some mid ∧ mid ≠ "".
Proof.
  unfold truthy_id.
  destruct o as [s|]; [|split; [discriminate|intros [? _]; discriminate]].
  destruct (String.eqb_spec s ""); split.
  - discriminate.
  - intros [[= ->] ?]. contradiction.
  - intros [= ->]. auto.
  - intros [[= ->] _]. reflexivity.
Qed.

Lemma truthy_id_None (o : option string) :
  truthy_id o = None ↔ o = None ∨ o = Some "".
Proof.
  unfold truthy_id. destruct o as [s|]; [|split; auto].
  destruct (String.eqb_spec s ""); split; try discriminate; auto.
  - intros _. right. congruence.
  - intros [?|[= ?]]; [discriminate|contradiction].
Qed.

Lemma recorded_wallet_history now_iso (tr : converted) md st :
  wallet_history (recorded now_iso tr md st)
  = dd_append (trade_wallet tr) (hist_entry_of now_iso tr md)
      (wallet_history st).
Proof. unfold recorded, record_price. case_match; reflexivity. Qed.

Lemma recorded_market_prices now_iso (tr : converted) md st :
  market_prices (recorded now_iso tr md st)
  = match truthy_id (condition_id md) with
    | Some mid =>
        dd_push_capped 200 mid (price_entry_of now_iso tr) (market_prices st)
    | None => market_prices st
    end.
Proof. unfold recorded, record_price. case_match; reflexivity. Qed.

Lemma recorded_market_volumes now_iso (tr : converted) md st :
  market_volumes (recorded now_iso tr md st) = market_volumes st.
Proof. unfold recorded, record_price. case_match; reflexivity. Qed.

Lemma recorded_wallet_outcomes now_iso (tr : converted) md st :
  wallet_outcomes (recorded now_iso tr md st) = wallet_outcomes st.
Proof. unfold recorded, record_price. case_match; reflexivity. Qed.

Lemma recorded_sent_alerts now_iso (tr : converted) md st :
  sent_alerts (recorded now_iso tr md st) = sent_alerts st.
Proof. unfold recorded, record_price. case_match; reflexivity. Qed.

Lemma updated_wallet_history now_iso (tr : converted) md st :
  wallet_history (updated now_iso tr md st)
  = dd_append (trade_wallet tr) (hist_entry_of now_iso tr md)
      (wallet_history st).
Proof.
  unfold updated, record_size. rewrite <- recorded_wallet_history.
  case_match; reflexivity.
Qed.

Lemma updated_market_prices now_iso (tr : converted) md st :
  market_prices (updated now_iso tr md st)
  = market_prices (recorded now_iso tr md st).
Proof. unfold updated, record_size. case_match; reflexivity. Qed.

Lemma updated_market_volumes now_iso (tr : converted) md st :
  market_volumes (updated now_iso tr md st)
  = match truthy_id (condition_id md) with
    | Some mid => dd_push_capped 100 mid (trade_size tr) (market_volumes st)
    | None => market_volumes st
    end.
Proof.
  unfold updated, record_size.
  case_match; simpl; rewrite ?recorded_market_volumes; reflexivity.
Qed.

Lemma updated_wallet_outcomes now_iso (tr : converted) md st :
  wallet_outcomes (updated now_iso tr md st)
  = dd_append (trade_wallet tr) (outcome_entry_of tr md) (wallet_outcomes st).
Proof.
  unfold updated, record_size.
  case_match; simpl; rewrite ?recorded_wallet_outcomes; reflexivity.
Qed.

Lemma updated_sent_alerts now_iso (tr : converted) md st :
  sent_alerts (updated now_iso tr md st) = sent_alerts st.
Proof.
  unfold updated, record_size.
  case_match; simpl; rewrite ?recorded_sent_alerts; reflexivity.
Qed.

(** ** The rules, one by one *)

Section EngineProperties.

Variable fromisoformat : string → option datetime.
Variable py_float : string → option float.
Variable py_sum : list float → float.

Abbreviation analyze_converted :=
  (analyze_converted fromisoformat py_float py_sum).
Abbreviation analyze_trade := (analyze_trade fromisoformat py_float py_sum).
Abbreviation convert_trade := (convert_trade py_float).
Abbreviation float_of := (float_of py_float).
Abbreviation mean := (mean py_sum).
Abbreviation unusual_rule := (unusual_rule py_sum).
Abbreviation niche_rule := (niche_rule py_float).
Abbreviation get_wallet_age := (get_wallet_age fromisoformat).
Abbreviation pre_move_rule := (pre_move_rule fromisoformat).
Abbreviation coordinated_rule := (coordinated_rule fromisoformat).

(** A rule yields nothing, or one alert of its own type under the key of
    the trade. *)
Lemma fresh_rule_shape th wallet age value market key :
  fresh_rule th wallet age value market key = []
  ∨ ∃ a, fresh_rule th wallet age value market key = [a]
         ∧ a_type a = FRESH_WALLET_LARGE_BET ∧ a_key a = key.
Proof.
  unfold fresh_rule. destruct age; [|auto].
  destruct (_ && _); [right|auto]. eexists. split; [reflexivity|auto].
Qed.

Lemma unusual_rule_shape th st wallet market_id size market key :
  unusual_rule th st wallet market_id size market key = []
  ∨ ∃ a, unusual_rule th st wallet market_id size market key = [a]
         ∧ a_type a = UNUSUAL_SIZE ∧ a_key a = key.
Proof.
  unfold unusual_rule. destruct (truthy_id market_id); [|auto].
  destruct (_ <? _)%nat; [|auto]. destruct (fgtb _ _); [right|auto].
  eexists. split; [reflexivity|auto].
Qed.

Lemma niche_rule_shape th st wallet md market key l :
  niche_rule th st wallet md market key = Some l →
  l = [] ∨ ∃ a, l = [a] ∧ a_type a = REPEAT_NICHE_PLAYER ∧ a_key a = key.
Proof.
  unfold niche_rule. intros H. option_cases H.
  all: injection H as <-; auto.
  right. eexists. split; [reflexivity|auto].
Qed.

Lemma conviction_rule_shape th st wallet price value market key :
  conviction_rule th st wallet price value market key = []
  ∨ ∃ a, conviction_rule th st wallet price value market key = [a]
         ∧ a_type a = HIGH_WIN_RATE_TRADER ∧ a_key a = key.
Proof.
  unfold conviction_rule. destruct (_ <=? _)%nat; [|auto].
  destruct (_ && _); [right|auto]. eexists. split; [reflexivity|auto].
Qed.

Lemma pre_move_rule_shape th st wallet market_id ts price value market key l :
  pre_move_rule th st wallet market_id ts price value market key = Some l →
  l = [] ∨ ∃ a, l = [a] ∧ a_type a = PRE_MOVE_POSITIONING ∧ a_key a = key.
Proof.
  unfold pre_move_rule. intros H. option_cases H.
  all: injection H as <-; auto.
  right. eexists. split; [reflexivity|auto].
Qed.

Lemma coordinated_rule_shape th st wallet market_id ts outcome value market
    key l :
  coordinated_rule th st wallet market_id ts outcome value market key
  = Some l →
  l = [] ∨ ∃ a, l = [a] ∧ a_type a = COORDINATED_ENTRY ∧ a_key a = key.
Proof.
  unfold coordinated_rule. intros H. option_cases H.
  all: injection H as <-; auto.
  right. eexists. split; [reflexivity|auto].
Qed.

(** ** The shape of a call *)

Lemma analyze_converted_seen now_iso now th st (tr : converted) md :
  trade_key now_iso tr md ∈ sent_alerts st →
  analyze_converted now_iso now th st tr md = Returned [] st.
Proof.
  intros H. unfold analyze_converted. rewrite bool_decide_eq_true_2 by exact H.
  reflexivity.
Qed.

(** The batch of a call that returns is the concatenation of what the six
    rules yield, in the order of the source. *)
Lemma analyze_converted_returned now_iso now th st (tr : converted) md alerts
    st' :
  trade_key now_iso tr md ∉ sent_alerts st →
  analyze_converted now_iso now th st tr md = Returned alerts st' →
  let key := trade_key now_iso tr md in
  let wallet := trade_wallet tr in
  let market := market_name md in
  let st1 := recorded now_iso tr md st in
  let st3 := updated now_iso tr md st in
  ∃ age a3 a5 a6,
    get_wallet_age now st1 wallet = Some age
    ∧ niche_rule th (record_size (condition_id md) (trade_size tr) st1)
        wallet md market key = Some a3
    ∧ pre_move_rule th st3 wallet (condition_id md)
        (trade_timestamp now_iso tr) (trade_price tr) (trade_value tr)
        market key = Some a5
    ∧ coordinated_rule th st3 wallet (condition_id md)
        (trade_timestamp now_iso tr) (trade_outcome tr) (trade_value tr)
        market key = Some a6
    ∧ alerts
      = fresh_rule th wallet age (trade_value tr) market key
        ++ unusual_rule th st1 wallet (condition_id md) (trade_size tr)
             market key
        ++ a3
        ++ conviction_rule th st3 wallet (trade_price tr) (trade_value tr)
             market key
        ++ a5 ++ a6
    ∧ st' = mark_sent alerts st3.
Proof.
  intros Hkey. unfold analyze_converted.
  rewrite bool_decide_eq_false_2 by exact Hkey.
  destruct (get_wallet_age _ _ _) as [age|]; [|discriminate].
  destruct (niche_rule _ _ _ _ _ _) as [a3|]; [|discriminate].
  destruct (pre_move_rule _ _ _ _ _ _ _ _ _) as [a5|]; [|discriminate].
  destruct (coordinated_rule _ _ _ _ _ _ _ _ _) as [a6|]; [|discriminate].
  intros [= <- <-]. exists age, a3, a5, a6. auto 10.
Qed.

(** A call that raises leaves the ledger as it was. *)
Lemma analyze_converted_raised now_iso now th st (tr : converted) md st' :
  analyze_converted now_iso now th st tr md = Raised st' →
  (trade_key now_iso tr md ∉ sent_alerts st)
  ∧ sent_alerts st' = sent_alerts st
  ∧ (st' = recorded now_iso tr md st
     ∨ st' = record_size (condition_id md) (trade_size tr)
               (recorded now_iso tr md st)
     ∨ st' = updated now_iso tr md st).
Proof.
  unfold analyze_converted. case_bool_decide as Hkey; [discriminate|].
  destruct (get_wallet_age _ _ _) as [age|].
  - destruct (niche_rule _ _ _ _ _ _) as [a3|].
    + destruct (pre_move_rule _ _ _ _ _ _ _ _ _) as [a5|].
      * destruct (coordinated_rule _ _ _ _ _ _ _ _ _) as [a6|];
          [discriminate|].
        intros [= <-]. split; [exact Hkey|]. split; [|auto].
        unfold updated, recorded, record_size, record_price.
        repeat case_match; reflexivity.
      * intros [= <-]. split; [exact Hkey|]. split; [|auto].
        unfold updated, recorded, record_size, record_price.
        repeat case_match; reflexivity.
    + intros [= <-]. split; [exact Hkey|]. split; [|auto].
      unfold recorded, record_size, record_price.
      repeat case_match; reflexivity.
  - intros [= <-]. split; [exact Hkey|]. split; [|auto].
    unfold recorded, record_price. repeat case_match; reflexivity.
Qed.

(** What the ledger holds after the batch is marked. *)
Lemma mark_sent_keys (alerts : list alert) (st : state) :
  sent_alerts (mark_sent alerts st)
  = list_to_set (a_key <$> alerts) ∪ sent_alerts st.
Proof.
  unfold mark_sent; simpl. generalize (sent_alerts st) as s.
  induction alerts as [|a l IH]; intros s; simpl.
  - set_solver.
  - rewrite IH. set_solver.
Qed.

Lemma mark_sent_same_key (key : string) (alerts : list alert) (st : state) :
  Forall (λ a, a_key a = key) alerts →
  sent_alerts (mark_sent alerts st)
  = if bool_decide (alerts = []) then sent_alerts st
    else {[key]} ∪ sent_alerts st.
Proof.
  intros Hall. rewrite mark_sent_keys.
  destruct alerts as [|a l]; simpl; [set_solver|].
  inversion Hall as [|? ? Ha Hl]; subst. clear Hall.
  induction Hl as [|b l Hb Hl IH]; simpl; [set_solver|].
  rewrite Hb. set_solver.
Qed.

(** Every alert of a batch carries the key of the trade. *)
Lemma analyze_converted_keys now_iso now th st (tr : converted) md :
  Forall (λ a, a_key a = trade_key now_iso tr md)
    (result_alerts (analyze_converted now_iso now th st tr md)).
Proof.
  destruct (decide (trade_key now_iso tr md ∈ sent_alerts st)) as [Hin|Hout].
  { rewrite analyze_converted_seen by exact Hin. constructor. }
  destruct (analyze_converted now_iso now th st tr md)
    as [alerts st'|st'] eqn:E;
    [|constructor].
  destruct (analyze_converted_returned _ _ _ _ _ _ _ _ Hout E)
    as (age & a3 & a5 & a6 & _ & H3 & H5 & H6 & -> & _).
  simpl. repeat rewrite Forall_app. repeat split.
  - destruct (fresh_rule_shape th (trade_wallet tr) age (trade_value tr)
      (market_name md) (trade_key now_iso tr md)) as [->|(a & -> & _ & Ha)];
      auto.
  - destruct (unusual_rule_shape th (recorded now_iso tr md st)
      (trade_wallet tr) (condition_id md) (trade_size tr) (market_name md)
      (trade_key now_iso tr md)) as [->|(a & -> & _ & Ha)]; auto.
  - destruct (niche_rule_shape _ _ _ _ _ _ _ H3)
      as [->|(a & -> & _ & Ha)]; auto.
  - destruct (conviction_rule_shape th (updated now_iso tr md st)
      (trade_wallet tr) (trade_price tr) (trade_value tr) (market_name md)
      (trade_key now_iso tr md)) as [->|(a & -> & _ & Ha)]; auto.
  - destruct (pre_move_rule_shape _ _ _ _ _ _ _ _ _ _ H5)
      as [->|(a & -> & _ & Ha)]; auto.
  - destruct (coordinated_rule_shape _ _ _ _ _ _ _ _ _ _ H6)
      as [->|(a & -> & _ & Ha)]; auto.
Qed.

(** The ledger after a call: the key of the trade joins it exactly when the
    call returns a non-empty batch. *)
Lemma analyze_converted_ledger now_iso now th st (tr : converted) md :
  let r := analyze_converted now_iso now th st tr md in
  sent_alerts (result_state r)
  = if bool_decide (result_alerts r = []) then sent_alerts st
    else {[trade_key now_iso tr md]} ∪ sent_alerts st.
Proof.
  intros r. pose proof (analyze_converted_keys now_iso now th st tr md) as Hk.
  fold r in Hk.
  destruct (decide (trade_key now_iso tr md ∈ sent_alerts st)) as [Hin|Hout].
  { subst r. rewrite analyze_converted_seen by exact Hin. reflexivity. }
  destruct r as [alerts st'|st'] eqn:E; simpl in *.
  - destruct (analyze_converted_returned _ _ _ _ _ _ _ _ Hout E)
      as (_ & _ & _ & _ & _ & _ & _ & _ & _ & ->).
    rewrite (mark_sent_same_key _ _ _ Hk), updated_sent_alerts.
    reflexivity.
  - apply analyze_converted_raised in E as (_ & -> & _). reflexivity.
Qed.


(** ** Counting the alerts of one rule *)

Lemma count_type_shape (ty ty' : alert_type) (key : string) (l : list alert) :
  l = [] ∨ (∃ a, l = [a] ∧ a_type a = ty' ∧ a_key a = key) →
  count_type ty l = if alert_type_eqb ty' ty then length l else 0%nat.
Proof.
  intros [->|(a & -> & Ha & _)].
  - destruct (alert_type_eqb ty' ty); reflexivity.
  - unfold count_type, is_type. simpl. rewrite Ha.
    destruct (alert_type_eqb ty' ty); reflexivity.
Qed.

(** In a returned batch, the alerts of a rule's type are those the rule
    yielded. *)
Lemma analyze_converted_counts now_iso now th st (tr : converted) md alerts
    st' :
  trade_key now_iso tr md ∉ sent_alerts st →
  analyze_converted now_iso now th st tr md = Returned alerts st' →
  let key := trade_key now_iso tr md in
  let wallet := trade_wallet tr in
  let market := market_name md in
  let st1 := recorded now_iso tr md st in
  let st3 := updated now_iso tr md st in
  ∃ age a3 a5 a6,
    get_wallet_age now st1 wallet = Some age
    ∧ niche_rule th (record_size (condition_id md) (trade_size tr) st1)
        wallet md market key = Some a3
    ∧ pre_move_rule th st3 wallet (condition_id md)
        (trade_timestamp now_iso tr) (trade_price tr) (trade_value tr)
        market key = Some a5
    ∧ coordinated_rule th st3 wallet (condition_id md)
        (trade_timestamp now_iso tr) (trade_outcome tr) (trade_value tr)
        market key = Some a6
    ∧ count_type FRESH_WALLET_LARGE_BET alerts
      = length (fresh_rule th wallet age (trade_value tr) market key)
    ∧ count_type UNUSUAL_SIZE alerts
      = length (unusual_rule th st1 wallet (condition_id md) (trade_size tr)
                  market key)
    ∧ count_type REPEAT_NICHE_PLAYER alerts = length a3
    ∧ count_type HIGH_WIN_RATE_TRADER alerts
      = length (conviction_rule th st3 wallet (trade_price tr)
                  (trade_value tr) market key)
    ∧ count_type PRE_MOVE_POSITIONING alerts = length a5
    ∧ count_type COORDINATED_ENTRY alerts = length a6.
Proof.
  intros Hout E. simpl.
  destruct (analyze_converted_returned _ _ _ _ _ _ _ _ Hout E)
    as (age & a3 & a5 & a6 & Hage & H3 & H5 & H6 & -> & _).
  exists age, a3, a5, a6. do 4 (split; [assumption|]).
  pose proof (fresh_rule_shape th (trade_wallet tr) age (trade_value tr)
    (market_name md) (trade_key now_iso tr md)) as S1.
  pose proof (unusual_rule_shape th (recorded now_iso tr md st)
    (trade_wallet tr) (condition_id md) (trade_size tr) (market_name md)
    (trade_key now_iso tr md)) as S2.
  pose proof (niche_rule_shape _ _ _ _ _ _ _ H3) as S3.
  pose proof (conviction_rule_shape th (updated now_iso tr md st)
    (trade_wallet tr) (trade_price tr) (trade_value tr) (market_name md)
    (trade_key now_iso tr md)) as S4.
  pose proof (pre_move_rule_shape _ _ _ _ _ _ _ _ _ _ H5) as S5.
  pose proof (coordinated_rule_shape _ _ _ _ _ _ _ _ _ _ H6) as S6.
  repeat rewrite count_type_app.
  repeat split.
  all: rewrite (count_type_shape _ _ _ _ S1), (count_type_shape _ _ _ _ S2),
         (count_type_shape _ _ _ _ S3), (count_type_shape _ _ _ _ S4),
         (count_type_shape _ _ _ _ S5), (count_type_shape _ _ _ _ S6);
       simpl; lia.
Qed.



(** ** From the converted trade to the trade *)

(** A trade that converts is the converted trade's own. *)
Lemma convert_trade_trade (tr : trade) c :
  convert_trade tr = Some c → c_trade c = tr.
Proof.
  unfold convert_trade. intros H. option_cases H. injection H as <-.
  reflexivity.
Qed.

(** A call raises at once, the stores untouched, when [float()] rejects
    the size or the price; otherwise it goes on with the two numbers. *)
Lemma analyze_trade_cases now_iso now th st (tr : trade) md :
  (convert_trade tr = None
   ∧ analyze_trade now_iso now th st tr md = Raised st)
  ∨ (∃ c, convert_trade tr = Some c
          ∧ c_trade c = tr
          ∧ analyze_trade now_iso now th st tr md
            = analyze_converted now_iso now th st c md).
Proof.
  unfold analyze_trade. destruct (convert_trade tr) as [c|] eqn:E; [|auto].
  right. exists c. split; [reflexivity|].
  split; [exact (convert_trade_trade tr c E)|reflexivity].
Qed.

Lemma analyze_trade_converted now_iso now th st (tr : trade) md c :
  convert_trade tr = Some c →
  analyze_trade now_iso now th st tr md
  = analyze_converted now_iso now th st c md.
Proof. unfold analyze_trade. intros ->. reflexivity. Qed.

(** A call that returns has converted its trade. *)
Lemma analyze_trade_returned now_iso now th st (tr : trade) md alerts st' :
  analyze_trade now_iso now th st tr md = Returned alerts st' →
  ∃ c, convert_trade tr = Some c
       ∧ c_trade c = tr
       ∧ analyze_converted now_iso now th st c md = Returned alerts st'.
Proof.
  intros E.
  destruct (analyze_trade_cases now_iso now th st tr md)
    as [[_ Er]|(c & Hc & Ht & Ec)]; [congruence|].
  exists c. split; [exact Hc|]. split; [exact Ht|]. congruence.
Qed.

Lemma analyze_trade_seen now_iso now th st (tr : trade) md c :
  convert_trade tr = Some c →
  trade_key now_iso tr md ∈ sent_alerts st →
  analyze_trade now_iso now th st tr md = Returned [] st.
Proof.
  intros Hc H. rewrite (analyze_trade_converted _ _ _ _ _ _ _ Hc).
  apply analyze_converted_seen.
  rewrite (convert_trade_trade tr c Hc). exact H.
Qed.

(** A trade whose key is in the ledger changes nothing and yields
    nothing, whether [float()] accepts its numbers or not. *)
Lemma analyze_trade_seen_noop now_iso now th st (tr : trade) md :
  trade_key now_iso tr md ∈ sent_alerts st →
  result_alerts (analyze_trade now_iso now th st tr md) = []
  ∧ result_state (analyze_trade now_iso now th st tr md) = st.
Proof.
  intros H.
  destruct (analyze_trade_cases now_iso now th st tr md)
    as [[_ ->]|(c & Hc & Ht & ->)]; [auto|].
  rewrite analyze_converted_seen by (rewrite Ht; exact H). auto.
Qed.

Lemma analyze_trade_keys now_iso now th st (tr : trade) md :
  Forall (λ a, a_key a = trade_key now_iso tr md)
    (result_alerts (analyze_trade now_iso now th st tr md)).
Proof.
  destruct (analyze_trade_cases now_iso now th st tr md)
    as [[_ ->]|(c & Hc & Ht & ->)]; [constructor|].
  rewrite <- Ht. apply analyze_converted_keys.
Qed.

Lemma analyze_trade_ledger now_iso now th st (tr : trade) md :
  let r := analyze_trade now_iso now th st tr md in
  sent_alerts (result_state r)
  = if bool_decide (result_alerts r = []) then sent_alerts st
    else {[trade_key now_iso tr md]} ∪ sent_alerts st.
Proof.
  intros r. subst r.
  destruct (analyze_trade_cases now_iso now th st tr md)
    as [[_ ->]|(c & Hc & Ht & ->)]; [reflexivity|].
  rewrite <- Ht. apply analyze_converted_ledger.
Qed.


(** ** The dedup key and the ledger *)

(** C8 (as amended): every alert of a call carries as key the wallet, the
    printed value of the market's condition id (the text [None] when the
    metadata has none) and the timestamp, joined by the separator ["_"];
    the same string is the only one a call can add to the ledger. *)
Theorem alert_key_format now_iso now th st (tr : trade) md :
  let key :=
    trade_wallet tr +:+ "_" +:+ default "None" (condition_id md) +:+ "_"
    +:+ trade_timestamp now_iso tr in
  let r := analyze_trade now_iso now th st tr md in
  Forall (λ a, a_key a = key) (result_alerts r)
  ∧ (sent_alerts (result_state r) = sent_alerts st
     ∨ sent_alerts (result_state r) = {[key]} ∪ sent_alerts st).
Proof.
  simpl. split; [exact (analyze_trade_keys now_iso now th st tr md)|].
  pose proof (analyze_trade_ledger now_iso now th st tr md) as L.
  cbv zeta in L. rewrite L. case_bool_decide; auto.
Qed.

(** C1 (as amended): once a call has returned at least one alert, a second
    call on the same trade and market (same wallet, condition id and
    timestamp, whatever the clock and the thresholds) returns the empty
    batch and leaves the stores and the ledger exactly as they were. *)
Theorem duplicate_after_alert_is_noop now_iso now th st (tr : trade) md
    alerts st' now_iso' now' th' :
  analyze_trade now_iso now th st tr md = Returned alerts st' →
  alerts ≠ [] →
  trade_timestamp now_iso' tr = trade_timestamp now_iso tr →
  analyze_trade now_iso' now' th' st' tr md = Returned [] st'.
Proof.
  intros E Hne Hts.
  destruct (analyze_trade_returned _ _ _ _ _ _ _ _ E) as (c & Hc & _ & _).
  apply (analyze_trade_seen _ _ _ _ _ _ c Hc).
  unfold trade_key. rewrite Hts. fold (trade_key now_iso tr md).
  pose proof (analyze_trade_ledger now_iso now th st tr md) as L.
  rewrite E in L. simpl in L. rewrite L.
  rewrite bool_decide_eq_false_2 by exact Hne. set_solver.
Qed.

(** The general part of C3: for a call on a key that is not in the ledger,
    the key is in the ledger afterwards exactly when the batch is not
    empty; every alert of the batch carries it; an empty batch leaves the
    ledger as it was. *)
Lemma ledger_marks_alerting_calls now_iso now th st (tr : trade) md :
  trade_key now_iso tr md ∉ sent_alerts st →
  let key := trade_key now_iso tr md in
  let r := analyze_trade now_iso now th st tr md in
  (key ∈ sent_alerts (result_state r) ↔ result_alerts r ≠ [])
  ∧ Forall (λ a, a_key a = key) (result_alerts r)
  ∧ (result_alerts r = [] → sent_alerts (result_state r) = sent_alerts st)
  ∧ (result_alerts r ≠ [] →
     sent_alerts (result_state r) = {[key]} ∪ sent_alerts st).
Proof.
  intros Hout key r.
  pose proof (analyze_trade_ledger now_iso now th st tr md) as L.
  simpl in L. fold r key in L.
  split; [|split; [apply analyze_trade_keys|split]].
  - rewrite L. case_bool_decide as Hnil; split.
    + intros Hin. contradiction.
    + intros Hne. contradiction.
    + intros _. exact Hnil.
    + intros _. set_solver.
  - intros Hnil. rewrite L. rewrite bool_decide_eq_true_2 by exact Hnil.
    reflexivity.
  - intros Hne. rewrite L. rewrite bool_decide_eq_false_2 by exact Hne.
    reflexivity.
Qed.

End EngineProperties.

(** ** Evaluated calls *)

(** C8, counterexample: the alert of a large first trade has the key
    [0xabc_0xm1_2024-01-01T00:00:00], which is not the concatenation of
    wallet, market id and timestamp without separators. *)
Lemma alert_key_has_separators :
  ∃ a, result_alerts first_large = [a]
       ∧ a_key a = "0xabc_0xm1_2024-01-01T00:00:00"
       ∧ a_key a ≠ "0xabc" +:+ "0xm1" +:+ "2024-01-01T00:00:00".
Proof.
  eexists. split; [vm_compute; reflexivity|].
  split; [reflexivity|]. vm_compute. discriminate.
Qed.

(** C1, counterexample: a trade worth 5 fires no rule, so its key is not
    marked; delivered a second time it is processed again, and all four
    stores grow. *)
Lemma duplicate_without_alert_is_reprocessed :
  result_alerts small_once = []
  ∧ length (dd_get "0xabc" (wallet_history (result_state small_once))) = 1%nat
  ∧ length (dd_get "0xabc" (wallet_history (result_state small_twice))) = 2%nat
  ∧ length (dd_get "0xm1" (market_volumes (result_state small_once))) = 1%nat
  ∧ length (dd_get "0xm1" (market_volumes (result_state small_twice))) = 2%nat
  ∧ length (dd_get "0xm1" (market_prices (result_state small_once))) = 1%nat
  ∧ length (dd_get "0xm1" (market_prices (result_state small_twice))) = 2%nat
  ∧ length (dd_get "0xabc" (wallet_outcomes (result_state small_once))) = 1%nat
  ∧ length (dd_get "0xabc" (wallet_outcomes (result_state small_twice)))
    = 2%nat.
Proof. vm_compute. repeat split. Qed.

Lemma duplicate_after_alert_is_noop_witness :
  analyze_trade iso_basic dec_float naive_sum ""
    (clock_of "2024-01-02T12:00:00") default_thresholds
    (result_state first_large)
    (large_trade "2024-01-01T00:00:00") sample_market
  = Returned [] (result_state first_large).
Proof.
  apply (duplicate_after_alert_is_noop iso_basic dec_float naive_sum ""
           (clock_of "2024-01-01T12:00:00") default_thresholds init_state
           (large_trade "2024-01-01T00:00:00") sample_market
           (result_alerts first_large) (result_state first_large)).
  - vm_compute. reflexivity.
  - vm_compute. discriminate.
  - reflexivity.
Defined.

(** C3: for every call on a key that is not in the ledger, the key is in
    the ledger afterwards if and only if the call returns at least one
    alert; all alerts of the batch carry that key; a call without alerts
    leaves the ledger unchanged; and one call can return several alerts of
    distinct types under the one key (here a fresh-wallet and a repeat-niche
    alert on the fourth trade of a wallet). *)
Theorem ledger_iff_alerts :
  (∀ fromisoformat py_float py_sum now_iso now th st (tr : trade) md,
     trade_key now_iso tr md ∉ sent_alerts st →
     let key := trade_key now_iso tr md in
     let r := analyze_trade fromisoformat py_float py_sum now_iso now th st
                tr md in
     (key ∈ sent_alerts (result_state r) ↔ result_alerts r ≠ [])
     ∧ Forall (λ a, a_key a = key) (result_alerts r)
     ∧ (result_alerts r = [] → sent_alerts (result_state r) = sent_alerts st)
     ∧ (result_alerts r ≠ [] →
        sent_alerts (result_state r) = {[key]} ∪ sent_alerts st))
  ∧ (∃ a1 a2,
       result_alerts
         (analyze_trade iso_basic dec_float naive_sum ""
            (clock_of "2024-01-01T12:00:00") default_thresholds three_small
            (large_trade "2024-01-01T11:30:00") sample_market) = [a1; a2]
       ∧ a_type a1 = FRESH_WALLET_LARGE_BET
       ∧ a_type a2 = REPEAT_NICHE_PLAYER
       ∧ a_key a1 = a_key a2).
Proof.
  split.
  - intros. apply ledger_marks_alerting_calls. assumption.
  - do 2 eexists. split; [vm_compute; reflexivity|]. repeat split.
Qed.

Lemma ledger_iff_alerts_witness :
  trade_key "" (large_trade "2024-01-01T00:00:00") sample_market
    ∈ sent_alerts (result_state first_large)
  ↔ result_alerts first_large ≠ [].
Proof.
  apply (proj1 ledger_iff_alerts iso_basic dec_float naive_sum ""
           (clock_of "2024-01-01T12:00:00") default_thresholds init_state
           (large_trade "2024-01-01T00:00:00") sample_market).
  apply not_elem_of_empty.
Defined.

(** ** The stores after a call *)

Section StoreProperties.

Variable fromisoformat : string → option datetime.
Variable py_float : string → option float.
Variable py_sum : list float → float.

Abbreviation analyze_converted :=
  (analyze_converted fromisoformat py_float py_sum).
Abbreviation analyze_trade := (analyze_trade fromisoformat py_float py_sum).
Abbreviation convert_trade := (convert_trade py_float).
Abbreviation float_of := (float_of py_float).
Abbreviation mean := (mean py_sum).
Abbreviation unusual_rule := (unusual_rule py_sum).
Abbreviation niche_rule := (niche_rule py_float).
Abbreviation get_wallet_age := (get_wallet_age fromisoformat).
Abbreviation reachable := (reachable fromisoformat py_float py_sum).

Lemma mark_sent_stores alerts st :
  wallet_history (mark_sent alerts st) = wallet_history st
  ∧ market_volumes (mark_sent alerts st) = market_volumes st
  ∧ market_prices (mark_sent alerts st) = market_prices st
  ∧ wallet_outcomes (mark_sent alerts st) = wallet_outcomes st.
Proof. repeat split. Qed.

(** A call that finds its key in the ledger touches nothing; any other call
    records the trade in the wallet's history and in the price window
    before anything can raise. *)
Lemma result_wallet_history now_iso now th st (tr : converted) md :
  wallet_history (result_state (analyze_converted now_iso now th st tr md))
  = if bool_decide (trade_key now_iso tr md ∈ sent_alerts st)
    then wallet_history st
    else dd_append (trade_wallet tr) (hist_entry_of now_iso tr md)
           (wallet_history st).
Proof.
  case_bool_decide as Hk;
    [rewrite analyze_converted_seen by exact Hk; reflexivity|].
  destruct (analyze_converted now_iso now th st tr md)
    as [alerts st'|st'] eqn:E.
  - destruct (analyze_converted_returned _ _ _ _ _ _ _ _ _ _ _ Hk E)
      as (_ & _ & _ & _ & _ & _ & _ & _ & _ & ->).
    simpl. apply updated_wallet_history.
  - apply analyze_converted_raised in E as (_ & _ & [-> | [-> | ->]]); simpl.
    + apply recorded_wallet_history.
    + unfold record_size. case_match; apply recorded_wallet_history.
    + apply updated_wallet_history.
Qed.

Lemma result_market_prices now_iso now th st (tr : converted) md :
  market_prices (result_state (analyze_converted now_iso now th st tr md))
  = if bool_decide (trade_key now_iso tr md ∈ sent_alerts st)
    then market_prices st
    else market_prices (recorded now_iso tr md st).
Proof.
  case_bool_decide as Hk;
    [rewrite analyze_converted_seen by exact Hk; reflexivity|].
  destruct (analyze_converted now_iso now th st tr md)
    as [alerts st'|st'] eqn:E.
  - destruct (analyze_converted_returned _ _ _ _ _ _ _ _ _ _ _ Hk E)
      as (_ & _ & _ & _ & _ & _ & _ & _ & _ & ->).
    simpl. apply updated_market_prices.
  - apply analyze_converted_raised in E as (_ & _ & [-> | [-> | ->]]); simpl.
    + reflexivity.
    + unfold record_size. case_match; reflexivity.
    + apply updated_market_prices.
Qed.

(** The size window is updated once [get_wallet_age] has returned, the
    wallet's outcomes once [float()] has returned the volume too. *)
Lemma result_market_volumes now_iso now th st (tr : converted) md :
  market_volumes (result_state (analyze_converted now_iso now th st tr md))
  = if bool_decide (trade_key now_iso tr md ∈ sent_alerts st)
    then market_volumes st
    else match get_wallet_age now (recorded now_iso tr md st)
                 (trade_wallet tr) with
         | Some _ => market_volumes (updated now_iso tr md st)
         | None => market_volumes st
         end.
Proof.
  case_bool_decide as Hk;
    [rewrite analyze_converted_seen by exact Hk; reflexivity|].
  unfold analyze_converted.
  rewrite bool_decide_eq_false_2 by exact Hk.
  destruct (get_wallet_age _ _ _); [|apply recorded_market_volumes].
  repeat case_match; reflexivity.
Qed.

Lemma result_wallet_outcomes now_iso now th st (tr : converted) md :
  wallet_outcomes (result_state (analyze_converted now_iso now th st tr md))
  = if bool_decide (trade_key now_iso tr md ∈ sent_alerts st)
    then wallet_outcomes st
    else match get_wallet_age now (recorded now_iso tr md st)
                 (trade_wallet tr),
               float_of (default (PyInt 0) (volume md)) with
         | Some _, Some _ => wallet_outcomes (updated now_iso tr md st)
         | _, _ => wallet_outcomes st
         end.
Proof.
  case_bool_decide as Hk;
    [rewrite analyze_converted_seen by exact Hk; reflexivity|].
  unfold analyze_converted.
  rewrite bool_decide_eq_false_2 by exact Hk.
  destruct (get_wallet_age _ _ _); [|apply recorded_wallet_outcomes].
  unfold niche_rule.
  destruct (float_of _) as [v|]; cbn [mbind option_bind].
  - destruct (_ && _); repeat case_match; reflexivity.
  - unfold record_size. case_match; apply recorded_wallet_outcomes.
Qed.


(** ** The unusual-size rule and the windows *)






(** The windows of market [m] after a call, against those before it. *)
Lemma result_price_window now_iso now th st (tr : converted) md m :
  dd_get m (market_prices
              (result_state (analyze_converted now_iso now th st tr md)))
  = if bool_decide ((trade_key now_iso tr md ∉ sent_alerts st)
                    ∧ truthy_id (condition_id md) = Some m)
    then push_capped 200 (price_entry_of now_iso tr)
           (dd_get m (market_prices st))
    else dd_get m (market_prices st).
Proof.
  rewrite result_market_prices.
  destruct (decide (trade_key now_iso tr md ∈ sent_alerts st)) as [Hin|Hout].
  { rewrite bool_decide_eq_true_2 by exact Hin.
    rewrite bool_decide_eq_false_2 by tauto. reflexivity. }
  rewrite (bool_decide_eq_false_2 _ Hout), recorded_market_prices.
  destruct (truthy_id (condition_id md)) as [mid|] eqn:Hmid.
  - rewrite dd_get_push_capped.
    destruct (decide (mid = m)) as [->|Hne].
    + rewrite !bool_decide_eq_true_2 by auto. reflexivity.
    + rewrite !bool_decide_eq_false_2; [reflexivity| |exact Hne].
      intros [_ [= ?]]. contradiction.
  - rewrite bool_decide_eq_false_2; [reflexivity|]. intros [_ [=]].
Qed.

Lemma result_size_window now_iso now th st (tr : converted) md m :
  dd_get m (market_volumes
              (result_state (analyze_converted now_iso now th st tr md)))
  = if bool_decide ((trade_key now_iso tr md ∉ sent_alerts st)
                    ∧ truthy_id (condition_id md) = Some m
                    ∧ is_Some (get_wallet_age now (recorded now_iso tr md st)
                                 (trade_wallet tr)))
    then push_capped 100 (trade_size tr) (dd_get m (market_volumes st))
    else dd_get m (market_volumes st).
Proof.
  rewrite result_market_volumes.
  destruct (decide (trade_key now_iso tr md ∈ sent_alerts st)) as [Hin|Hout].
  { rewrite bool_decide_eq_true_2 by exact Hin.
    rewrite bool_decide_eq_false_2 by tauto. reflexivity. }
  rewrite (bool_decide_eq_false_2 _ Hout).
  destruct (get_wallet_age _ _ _) as [age|].
  - rewrite updated_market_volumes.
    destruct (truthy_id (condition_id md)) as [mid|] eqn:Hmid.
    + rewrite dd_get_push_capped.
      destruct (decide (mid = m)) as [->|Hne].
      * rewrite !bool_decide_eq_true_2 by (repeat split; eauto).
        reflexivity.
      * rewrite !bool_decide_eq_false_2; [reflexivity| |exact Hne].
        intros (_ & [= ?] & _). contradiction.
    + rewrite bool_decide_eq_false_2; [reflexivity|]. intros (_ & [=] & _).
  - rewrite bool_decide_eq_false_2; [reflexivity|].
    intros (_ & _ & [? [=]]).
Qed.

(** The caps hold in every state the bot can reach. *)
Lemma reachable_windows_bounded st : reachable st → windows_bounded st.
Proof.
  induction 1 as [|now_iso now th st tr md _ IH].
  - intros m. unfold dd_get. simpl. rewrite !lookup_empty. simpl. lia.
  - destruct (analyze_trade_cases fromisoformat py_float py_sum now_iso now
                th st tr md) as [[_ ->]|(c & _ & _ & ->)]; [exact IH|].
    intros m. destruct (IH m) as [Hv Hp].
    rewrite result_size_window, result_price_window.
    split; case_bool_decide; auto using push_capped_length.
Qed.

(** C2: in every state reached by processing trades, every market's size
    window has at most 100 entries and its price window at most 200; a
    call turns each window into the last 100 (200) entries of the window
    extended by the trade's own entry, or leaves it as it is (as it does
    with every window when [float()] rejects the trade's size or price);
    and windows grown this way from empty hold the last 100 (200) of all
    the entries appended, in arrival order: the oldest entry is the one
    evicted. *)
Theorem windows_bounded_fifo st :
  reachable st →
  windows_bounded st
  ∧ (∀ now_iso now th (tr : trade) md m,
       let st' := result_state (analyze_trade now_iso now th st tr md) in
       match convert_trade tr with
       | Some c =>
           dd_get m (market_volumes st')
           = (if bool_decide
                   ((trade_key now_iso tr md ∉ sent_alerts st)
                    ∧ truthy_id (condition_id md) = Some m
                    ∧ is_Some (get_wallet_age now (recorded now_iso c md st)
                                 (trade_wallet tr)))
              then lastn 100 (dd_get m (market_volumes st) ++ [trade_size c])
              else dd_get m (market_volumes st))
           ∧ dd_get m (market_prices st')
             = (if bool_decide
                     ((trade_key now_iso tr md ∉ sent_alerts st)
                      ∧ truthy_id (condition_id md) = Some m)
                then lastn 200 (dd_get m (market_prices st)
                                ++ [price_entry_of now_iso c])
                else dd_get m (market_prices st))
       | None => st' = st
       end
       ∧ (length (dd_get m (market_volumes st')) ≤ 100)%nat
       ∧ (length (dd_get m (market_prices st')) ≤ 200)%nat)
  ∧ (∀ sizes : list float,
       foldl (λ w x, lastn 100 (w ++ [x])) [] sizes = lastn 100 sizes)
  ∧ (∀ entries : list price_entry,
       foldl (λ w x, lastn 200 (w ++ [x])) [] entries = lastn 200 entries).
Proof.
  intros Hst. pose proof (reachable_windows_bounded st Hst) as Hb.
  split; [exact Hb|]. split.
  - intros now_iso now th tr md m st'.
    destruct (Hb m) as [Hv Hp].
    assert (Hb' : windows_bounded st').
    { apply reachable_windows_bounded. constructor. exact Hst. }
    destruct (Hb' m) as [Hv' Hp']. split; [|auto]. subst st'.
    destruct (analyze_trade_cases fromisoformat py_float py_sum now_iso now
                th st tr md) as [[-> ->]|(c & -> & Ht & ->)]; [reflexivity|].
    rewrite result_size_window, result_price_window, Ht.
    rewrite <- (push_capped_lastn 100) by exact Hv.
    rewrite <- (push_capped_lastn 200) by exact Hp.
    auto.
  - split; intros l; apply (foldl_lastn _ l []); simpl; lia.
Qed.

End StoreProperties.

Lemma windows_bounded_fifo_witness :
  windows_bounded (result_state first_large).
Proof.
  apply (windows_bounded_fifo iso_basic dec_float naive_sum
           (result_state first_large)).
  apply reach_step. apply reach_init.
Defined.


(** The mean is the float one: eleven sizes 0.1 add up to less than 1.1
    from the left, their mean is below 0.1, and a trade of size 0.25 is
    above 2.5 times that mean. *)
Example quarter_call_flagged :
  count_type UNUSUAL_SIZE (result_alerts quarter_call) = 1%nat
  ∧ size_window sample_market eleven_tenths = replicate 11 (decimal 1 1)
  ∧ fltb (mean naive_sum (replicate 11 (decimal 1 1))) (decimal 1 1) = true
  ∧ fgtb (decimal 25 2)
      (fmul (mean naive_sum (replicate 11 (decimal 1 1))) (decimal 25 1))
    = true.
Proof. repeat split; vm_compute; reflexivity. Qed.

(** ** The [/set] command *)

Lemma known_param_cases (param : string) :
  known_param param = true →
  param ∈ threshold_names.
Proof. unfold known_param. apply bool_decide_eq_true_1. Qed.

(** Setting a key of the dict changes the value under that key and no
    other. *)
Lemma get_set_threshold (param : string) (value : float) (th : thresholds)
    (q : string) :
  known_param param = true →
  get_threshold q (set_threshold param value th)
  = if String.eqb q param then Some value else get_threshold q th.
Proof.
  intros H. apply known_param_cases in H. unfold threshold_names in H.
  repeat (apply elem_of_cons in H as [->|H]); [..|by apply elem_of_nil in H].
  all: unfold get_threshold, set_threshold; cbn [String.eqb Ascii.eqb Bool.eqb];
       repeat (match goal with
               | |- context [String.eqb ?x ?s] =>
                   is_var x; destruct (String.eqb_spec x s) as [->|?]
               end; cbn [String.eqb Ascii.eqb Bool.eqb]);
       try reflexivity; try congruence.
Qed.

(** A text that starts with [/set] is none of the commands tested before
    it. *)
Lemma set_prefix_inv (text : string) :
  String.prefix "/set" text = true → ∃ rest, text = "/set" +:+ rest.
Proof.
  intros H. apply prefix_correct in H. simpl in H.
  destruct text as [|c1 [|c2 [|c3 [|c4 rest]]]]; try discriminate.
  injection H as -> -> -> -> _. exists rest. reflexivity.
Qed.

Section CommandProperties.

Variable py_strip : string → string.
Variable py_split : string → list string.
Variable py_float : string → option float.
Variable py_isdigit : string → bool.
Variable py_int : string → option Z.

Abbreviation process_command :=
  (process_command py_strip py_split py_float py_isdigit py_int).

(** The [/set] branch, once reached. *)
Lemma process_command_set (msg : option string) (c : config) :
  String.prefix "/set" (py_strip (default "" msg)) = true →
  process_command msg c
  = match py_split (py_strip (default "" msg)) with
    | [_; param; arg] =>
        match py_float arg with
        | Some value =>
            if known_param param then
              Some ({| is_paused := is_paused c;
                       scan_interval := scan_interval c;
                       bot_thresholds :=
                         set_threshold param value (bot_thresholds c) |},
                    Some (SetOk param value))
            else Some (c, Some (UnknownParameter param))
        | None => Some (c, Some InvalidValue)
        end
    | _ => Some (c, Some SetUsage)
    end.
Proof.
  intros H. unfold process_command. rewrite H.
  destruct (set_prefix_inv _ H) as [rest ->]. reflexivity.
Qed.


(** Outside the [/set] branch no command writes a threshold. *)
Lemma process_command_other (msg : option string) (c c' : config)
    (r : option reply) :
  String.prefix "/set" (py_strip (default "" msg)) = false →
  process_command msg c = Some (c', r) →
  bot_thresholds c' = bot_thresholds c.
Proof.
  intros Hp. unfold process_command. rewrite Hp. intros H.
  option_cases H; injection H as <- <-; reflexivity.
Qed.

(** C9: a [/set] command that names an unknown parameter, or whose value
    [float] does not accept, is answered with an error message and leaves
    the configuration as it was; and whenever a command changes the
    thresholds, it is a [/set] naming a known parameter with a numeric
    value, and that parameter is the only one to change. *)
Theorem set_rejects_bad_updates (msg : option string) (c : config) :
  let text := py_strip (default "" msg) in
  (∀ cmd param arg,
     String.prefix "/set" text = true →
     py_split text = [cmd; param; arg] →
     known_param param = false ∨ py_float arg = None →
     ∃ r, process_command msg c = Some (c, Some r)
          ∧ is_error_reply (Some r) = true)
  ∧ (∀ c' r,
       process_command msg c = Some (c', r) →
       bot_thresholds c' ≠ bot_thresholds c →
       ∃ cmd param arg value,
         String.prefix "/set" text = true
         ∧ py_split text = [cmd; param; arg]
         ∧ known_param param = true
         ∧ py_float arg = Some value
         ∧ r = Some (SetOk param value)
         ∧ bot_thresholds c' = set_threshold param value (bot_thresholds c)
         ∧ ∀ q, get_threshold q (bot_thresholds c')
                = if String.eqb q param then Some value
                  else get_threshold q (bot_thresholds c)).
Proof.
  intros text. split.
  - intros cmd param arg Hp Hs Hbad.
    rewrite process_command_set by exact Hp. fold text. rewrite Hs.
    destruct (py_float arg) as [value|] eqn:Hf.
    + destruct Hbad as [Hk|?]; [|discriminate]. rewrite Hk.
      eexists. split; reflexivity.
    + eexists. split; reflexivity.
  - intros c' r H Hne.
    destruct (String.prefix "/set" text) eqn:Hp.
    2:{ exfalso. apply Hne. eapply process_command_other; eassumption. }
    rewrite process_command_set in H by exact Hp. fold text in H.
    destruct (py_split text) as [|cmd [|param [|arg [|? ?]]]] eqn:Hs;
      try (injection H as <- <-; contradiction).
    destruct (py_float arg) as [value|] eqn:Hf;
      [|injection H as <- <-; contradiction].
    destruct (known_param param) eqn:Hk;
      [|injection H as <- <-; contradiction].
    injection H as <- <-. exists cmd, param, arg, value.
    do 6 (split; [first [assumption|reflexivity]|]). simpl.
    intros q. apply get_set_threshold. exact Hk.
Qed.

End CommandProperties.

Lemma set_rejects_bad_updates_witness :
  (∃ r, ascii_process_command (Some "/set bogus 5") default_config
        = Some (default_config, Some r)
        ∧ is_error_reply (Some r) = true)
  ∧ (∃ r, ascii_process_command (Some "/set fresh_wallet_days soon")
            default_config
          = Some (default_config, Some r)
          ∧ is_error_reply (Some r) = true).
Proof.
  split.
  - apply (proj1 (set_rejects_bad_updates ascii_strip ascii_split dec_float
                    ascii_isdigit dec_nat (Some "/set bogus 5")
                    default_config) "/set" "bogus" "5").
    + reflexivity.
    + reflexivity.
    + left. reflexivity.
  - apply (proj1 (set_rejects_bad_updates ascii_strip ascii_split dec_float
                    ascii_isdigit dec_nat (Some "/set fresh_wallet_days soon")
                    default_config) "/set" "fresh_wallet_days" "soon").
    + reflexivity.
    + reflexivity.
    + right. reflexivity.
Defined.

(** ** Calls that cannot raise *)

Lemma elem_of_push_capped {A} (cap : nat) (x y : A) (l : list A) :
  y ∈ push_capped cap x l → y ∈ l ∨ y = x.
Proof.
  unfold push_capped. intros H.
  assert (Happ : y ∈ l ++ [x]).
  { destruct (_ <? _)%nat; [|exact H].
    destruct (l ++ [x]) as [|z l'] eqn:E; [exact H|].
    simpl in H. apply elem_of_cons. right. exact H. }
  apply elem_of_app in Happ as [?|Hx]; [left; assumption|].
  right. apply list_elem_of_singleton in Hx. exact Hx.
Qed.

Section TotalityProperties.

Variable fromisoformat : string → option datetime.
Variable py_float : string → option float.
Variable py_sum : list float → float.

Abbreviation analyze_converted :=
  (analyze_converted fromisoformat py_float py_sum).
Abbreviation analyze_trade := (analyze_trade fromisoformat py_float py_sum).
Abbreviation convert_trade := (convert_trade py_float).
Abbreviation float_of := (float_of py_float).
Abbreviation mean := (mean py_sum).
Abbreviation unusual_rule := (unusual_rule py_sum).
Abbreviation niche_rule := (niche_rule py_float).
Abbreviation get_wallet_age := (get_wallet_age fromisoformat).
Abbreviation pre_move_rule := (pre_move_rule fromisoformat).
Abbreviation coordinated_rule := (coordinated_rule fromisoformat).
Abbreviation last_30_min_of := (last_30_min_of fromisoformat).
Abbreviation similar_of := (similar_of fromisoformat).
Abbreviation similar_recent_of := (similar_recent_of fromisoformat).
Abbreviation within_30_min := (within_30_min fromisoformat).
Abbreviation coordinated_with := (coordinated_with fromisoformat).
Abbreviation parses_naive := (parses_naive fromisoformat).
Abbreviation timestamps_ok := (timestamps_ok fromisoformat).

(** When the loop of lines 329-332 completes, it has computed the filter of
    the window by [within_30_min]. *)
Lemma last_30_min_of_filter now l l' :
  last_30_min_of now l = Some l' → l' = List.filter (within_30_min now) l.
Proof.
  revert l'. induction l as [|p l IH]; intros l' H; simpl in H.
  - injection H as <-. reflexivity.
  - destruct (fromisoformat (p_timestamp p)) as [t|] eqn:Ht; [|discriminate].
    cbn [mbind option_bind] in H.
    destruct (dt_sub now t) as [d|] eqn:Hd; [|discriminate].
    cbn [mbind option_bind] in H.
    destruct (last_30_min_of now l) as [rest|]; [|discriminate].
    cbn [mbind option_bind] in H. injection H as <-.
    cbn [List.filter]. rewrite <- (IH rest eq_refl).
    unfold within_30_min. rewrite Ht. cbn [mbind option_bind].
    rewrite Hd. reflexivity.
Qed.

Lemma last_30_min_of_total us l :
  Forall (λ p, parses_naive (p_timestamp p)) l →
  last_30_min_of (naive us) l
  = Some (List.filter (within_30_min (naive us)) l).
Proof.
  intros Hall.
  assert (H : is_Some (last_30_min_of (naive us) l)).
  { induction Hall as [|p l [t Hp] _ IH]; simpl; [eauto|].
    rewrite Hp. cbn. destruct IH as [rest ->]. cbn. eauto. }
  destruct H as [l' H]. rewrite H. f_equal.
  apply last_30_min_of_filter. exact H.
Qed.

(** The same for the loop of lines 357-361. *)
Lemma similar_of_filter now mid outcome w trades l :
  similar_of now mid outcome w trades = Some l →
  l = (λ _, w) <$> List.filter (coordinated_with now mid outcome) trades.
Proof.
  revert l. induction trades as [|t trades IH]; intros l H; simpl in H.
  - injection H as <-. reflexivity.
  - cbn [List.filter]. unfold coordinated_with at 1.
    destruct (bool_decide (h_market_id t = Some mid)
              && bool_decide (h_outcome t = outcome)).
    + destruct (fromisoformat (h_timestamp t)) as [tt|]; [|discriminate].
      cbn [mbind option_bind] in H. cbn [mbind option_bind].
      destruct (dt_sub now tt) as [d|]; [|discriminate].
      cbn [mbind option_bind] in H.
      destruct (similar_of now mid outcome w trades) as [rest|];
        [|discriminate].
      cbn [mbind option_bind] in H. injection H as <-.
      rewrite (IH rest eq_refl). cbn [andb].
      destruct (Z.abs d <? _); reflexivity.
    + cbn [mbind option_bind] in H.
      destruct (similar_of now mid outcome w trades) as [rest|];
        [|discriminate].
      cbn [mbind option_bind] in H. injection H as <-.
      rewrite (IH rest eq_refl). reflexivity.
Qed.

Lemma similar_of_total us mid outcome w trades :
  Forall (λ t, parses_naive (h_timestamp t)) trades →
  is_Some (similar_of (naive us) mid outcome w trades).
Proof.
  induction 1 as [|t trades [tt Ht] _ IH]; simpl; [eauto|].
  rewrite Ht. destruct IH as [rest ->].
  destruct (_ && _); cbn; eauto.
Qed.


(** The wallets the scan of lines 353-361 collects: every other wallet with,
    among its last five trades, one on the same market and outcome less
    than 300 seconds away. *)
Lemma similar_recent_of_elem now wallet mid outcome items l w' :
  similar_recent_of now wallet mid outcome items = Some l →
  w' ∈ l ↔
  w' ≠ wallet
  ∧ ∃ trades t, (w', trades) ∈ items ∧ t ∈ lastn 5 trades
                ∧ coordinated_with now mid outcome t = true.
Proof.
  revert l. induction items as [|[w trades] items IH]; intros l H; simpl in H.
  - injection H as <-. split; [intros []%elem_of_nil|].
    intros (_ & ? & ? & []%elem_of_nil & _).
  - destruct (similar_recent_of now wallet mid outcome items) as [more|] eqn:E.
    2:{ destruct (bool_decide (w = wallet)); [discriminate|].
        destruct (similar_of _ _ _ _ _); discriminate. }
    specialize (IH more eq_refl).
    assert (Hhere : ∀ here, l = here ++ more →
      (w' ∈ here ↔ w' = w ∧ w ≠ wallet
                   ∧ ∃ t, t ∈ lastn 5 trades
                          ∧ coordinated_with now mid outcome t = true) →
      w' ∈ l ↔
      w' ≠ wallet
      ∧ ∃ trades0 t, (w', trades0) ∈ (w, trades) :: items
                     ∧ t ∈ lastn 5 trades0
                     ∧ coordinated_with now mid outcome t = true).
    { intros here -> Hh. rewrite elem_of_app, Hh, IH. split.
      - intros [(-> & Hne & t & Ht & Hc)|(Hne & tr0 & t & Hin & Ht & Hc)].
        + split; [exact Hne|]. exists trades, t. repeat split; auto.
          apply elem_of_cons. left. reflexivity.
        + split; [exact Hne|]. exists tr0, t. repeat split; auto.
          apply elem_of_cons. right. exact Hin.
      - intros (Hne & tr0 & t & Hin & Ht & Hc).
        apply elem_of_cons in Hin as [[= -> ->]|Hin].
        + left. repeat split; auto. exists t. auto.
        + right. split; [exact Hne|]. exists tr0, t. auto. }
    case_bool_decide as Hw.
    + cbn [mbind option_bind] in H. injection H as <-.
      apply (Hhere []); [reflexivity|]. split; [intros []%elem_of_nil|].
      intros (_ & ? & _). contradiction.
    + destruct (similar_of now mid outcome w (lastn 5 trades))
        as [here|] eqn:Es; [|discriminate].
      cbn [mbind option_bind] in H. injection H as <-.
      apply (Hhere here); [reflexivity|].
      rewrite (similar_of_filter _ _ _ _ _ _ Es).
      rewrite list_elem_of_fmap. split.
      * intros (t & -> & Ht). apply list_elem_of_In, List.filter_In in Ht.
        destruct Ht as [Ht Hc]. repeat split; auto.
        exists t. split; [apply list_elem_of_In; exact Ht|exact Hc].
      * intros (-> & _ & t & Ht & Hc). exists t. split; [reflexivity|].
        apply list_elem_of_In, List.filter_In. split; [|exact Hc].
        apply list_elem_of_In. exact Ht.
Qed.

Lemma similar_recent_of_total us wallet mid outcome items :
  Forall (λ it, Forall (λ t, parses_naive (h_timestamp t)) it.2) items →
  is_Some (similar_recent_of (naive us) wallet mid outcome items).
Proof.
  induction 1 as [|[w trades] items Hw _ IH]; simpl; [eauto|].
  destruct IH as [more ->]. case_bool_decide; [cbn; eauto|].
  destruct (similar_of_total us mid outcome w (lastn 5 trades)) as [here ->].
  - unfold lastn. apply Forall_drop. exact Hw.
  - cbn. eauto.
Qed.


(** The coordinated-entry rule against the set [S] of matching wallets. *)
Lemma coordinated_rule_count th st wallet market_id mid ts now outcome value
    market key a6 (S : gset string) :
  truthy_id market_id = Some mid →
  fromisoformat ts = Some now →
  coordinated_rule th st wallet market_id ts outcome value market key
  = Some a6 →
  (∀ w', w' ∈ S ↔
         w' ≠ wallet
         ∧ ∃ trades t, wallet_history st !! w' = Some trades
                       ∧ t ∈ lastn 5 trades
                       ∧ coordinated_with now mid outcome t = true) →
  length a6
  = if fgtb value (coordinated_min_value th)
       && int_geb_float (Z.of_nat (size S + 1)) (coordinated_min_wallets th)
    then 1%nat else 0%nat.
Proof.
  intros Hmid Hnow H HS. unfold coordinated_rule in H. rewrite Hmid in H.
  destruct (fgtb value (coordinated_min_value th));
    [|injection H as <-; reflexivity].
  rewrite Hnow in H. cbn [mbind option_bind] in H.
  destruct (similar_recent_of now wallet mid outcome
              (map_to_list (wallet_history st))) as [l|] eqn:El;
    [|discriminate].
  cbn [mbind option_bind] in H.
  assert (HS' : (list_to_set l : gset string) = S).
  { apply set_eq. intros w'. rewrite elem_of_list_to_set, HS.
    rewrite (similar_recent_of_elem _ _ _ _ _ _ w' El).
    split; intros (Hne & trades & t & Hin & Ht & Hc); (split; [exact Hne|]);
      exists trades, t; repeat split; auto.
    - apply elem_of_map_to_list in Hin. exact Hin.
    - apply elem_of_map_to_list. exact Hin. }
  rewrite HS' in H. cbn [andb].
  destruct (int_geb_float _ _); injection H as <-; reflexivity.
Qed.

(** The pre-move rule against the price window it reads. *)
Lemma pre_move_rule_count th st wallet market_id ts price value market key
    a5 :
  pre_move_rule th st wallet market_id ts price value market key = Some a5 →
  length a5 = 1%nat ↔
  ∃ mid,
    truthy_id market_id = Some mid
    ∧ fgtb value (pre_move_min_value th) = true
    ∧ (10 < length (dd_get mid (market_prices st)))%nat
    ∧ ∃ now,
        fromisoformat ts = Some now
        ∧ (5 ≤ length (List.filter (within_30_min now)
                         (dd_get mid (market_prices st))))%nat
        ∧ ∃ p0,
            head (List.filter (within_30_min now)
                    (dd_get mid (market_prices st))) = Some p0
            ∧ fgtb (fabs (fsub price (p_price p0))) (pre_move_change_pct th)
              = true.
Proof.
  intros H. unfold pre_move_rule in H.
  destruct (truthy_id market_id) as [mid|] eqn:Hmid.
  2:{ injection H as <-. split; [discriminate|]. intros (? & [=] & _). }
  destruct (fgtb value (pre_move_min_value th)) eqn:Hv.
  2:{ injection H as <-. split; [discriminate|].
      intros (? & _ & Hlt & _). discriminate. }
  destruct (Nat.ltb_spec 10 (length (dd_get mid (market_prices st))))
    as [Hlen|Hlen].
  2:{ injection H as <-. split; [discriminate|].
      intros (? & [= <-] & _ & ? & _). lia. }
  destruct (fromisoformat ts) as [now|] eqn:Hnow; [|discriminate].
  cbn [mbind option_bind] in H.
  destruct (last_30_min_of now (dd_get mid (market_prices st)))
    as [sub|] eqn:Hsub; [|discriminate].
  cbn [mbind option_bind] in H.
  apply last_30_min_of_filter in Hsub. subst sub.
  destruct (Nat.leb_spec 5
              (length (List.filter (within_30_min now)
                         (dd_get mid (market_prices st))))) as [H5|H5].
  2:{ injection H as <-. split; [discriminate|].
      intros (? & [= <-] & _ & _ & ? & [= <-] & ? & _). lia. }
  destruct (head _) as [p0|] eqn:Hp0; [|discriminate].
  cbn [mbind option_bind] in H.
  destruct (fgtb (fabs (fsub price (p_price p0))) (pre_move_change_pct th))
    eqn:Hc; injection H as <-.
  - split; [intros _|reflexivity].
    exists mid. repeat split; auto. exists now. repeat split; auto.
    exists p0. auto.
  - split; [discriminate|].
    intros (? & [= <-] & _ & _ & ? & [= <-] & _ & ? & Hh & Hlt).
    rewrite Hp0 in Hh. injection Hh as <-. congruence.
Qed.


(** [timestamps_ok] looks at the wallet histories and the price windows
    only. *)
Lemma timestamps_ok_ext st1 st2 :
  wallet_history st1 = wallet_history st2 →
  market_prices st1 = market_prices st2 →
  timestamps_ok st1 → timestamps_ok st2.
Proof. unfold timestamps_ok. intros <- <-. auto. Qed.

Lemma timestamps_ok_init : timestamps_ok init_state.
Proof.
  split; intros k l x H; simpl in H; rewrite lookup_empty in H; discriminate.
Qed.

Lemma timestamps_ok_recorded now_iso (tr : converted) md st :
  timestamps_ok st →
  parses_naive (trade_timestamp now_iso tr) →
  timestamps_ok (recorded now_iso tr md st).
Proof.
  intros [Hh Hp] Hts. split.
  - intros w l e. rewrite recorded_wallet_history. unfold dd_append.
    rewrite lookup_insert. case_decide as Hw.
    + intros [= <-] [He|He]%elem_of_app.
      * destruct (wallet_history st !! trade_wallet tr) as [old|] eqn:Eo;
          simpl in He; [eauto|]. apply elem_of_nil in He. contradiction.
      * apply list_elem_of_singleton in He. subst e. exact Hts.
    + apply Hh.
  - intros m l p. rewrite recorded_market_prices.
    destruct (truthy_id (condition_id md)) as [mid|]; [|apply Hp].
    unfold dd_push_capped. rewrite lookup_insert. case_decide as Hm.
    + intros [= <-] [He| ->]%elem_of_push_capped; [|exact Hts].
      unfold dd_get in He.
      destruct (market_prices st !! mid) as [old|] eqn:Eo; simpl in He;
        [eauto|]. apply elem_of_nil in He. contradiction.
    + apply Hp.
Qed.

Lemma timestamps_ok_updated now_iso (tr : converted) md st :
  timestamps_ok st →
  parses_naive (trade_timestamp now_iso tr) →
  timestamps_ok (updated now_iso tr md st).
Proof.
  intros Hst Hts.
  apply (timestamps_ok_ext (recorded now_iso tr md st)).
  - rewrite updated_wallet_history, recorded_wallet_history. reflexivity.
  - rewrite updated_market_prices. reflexivity.
  - apply timestamps_ok_recorded; assumption.
Qed.

(** The age [get_wallet_age] computes right after the trade was recorded:
    the whole days between the clock and the first entry of the wallet's
    history, which is the trade itself when the wallet had none. *)
Lemma get_wallet_age_recorded now now_iso (tr : converted) md st :
  timestamps_ok st →
  parses_naive (trade_timestamp now_iso tr) →
  ∃ e t,
    head (dd_get (trade_wallet tr) (wallet_history st)
          ++ [hist_entry_of now_iso tr md]) = Some e
    ∧ fromisoformat (h_timestamp e) = Some (naive t)
    ∧ get_wallet_age now (recorded now_iso tr md st) (trade_wallet tr)
      = Some (Some (td_days (now - t))).
Proof.
  intros Hst Hts.
  pose proof (timestamps_ok_recorded now_iso tr md st Hst Hts) as [Hh _].
  unfold get_wallet_age. specialize (Hh (trade_wallet tr)).
  rewrite recorded_wallet_history in *. unfold dd_append in *.
  rewrite lookup_insert_eq in *.
  fold (dd_get (trade_wallet tr) (wallet_history st)) in *.
  destruct (dd_get (trade_wallet tr) (wallet_history st)
            ++ [hist_entry_of now_iso tr md]) as [|e l] eqn:El.
  { destruct (dd_get (trade_wallet tr) (wallet_history st)); discriminate. }
  destruct (Hh (e :: l) e eq_refl) as [t Ht]; [apply elem_of_cons; auto|].
  exists e, t. split; [reflexivity|]. split; [exact Ht|].
  cbn [head mbind option_bind]. rewrite Ht. reflexivity.
Qed.

Lemma pre_move_rule_total th st wallet market_id ts price value market key :
  timestamps_ok st → parses_naive ts →
  is_Some (pre_move_rule th st wallet market_id ts price value market key).
Proof.
  intros [_ Hp] [t Hts]. unfold pre_move_rule.
  destruct (truthy_id market_id) as [mid|]; [|eauto].
  destruct (fgtb _ _); [|eauto]. destruct (_ <? _)%nat; [|eauto].
  rewrite Hts. cbn [mbind option_bind].
  rewrite last_30_min_of_total.
  2:{ apply Forall_forall. intros p Hin. unfold dd_get in Hin.
      destruct (market_prices st !! mid) as [l|] eqn:El; simpl in Hin;
        [eauto|]. apply elem_of_nil in Hin. contradiction. }
  cbn [mbind option_bind].
  destruct (Nat.leb_spec 5
    (length (List.filter (within_30_min (naive t))
               (dd_get mid (market_prices st))))) as [H5|H5]; [|eauto].
  destruct (List.filter _ _) as [|p0 l]; [simpl in H5; lia|].
  cbn [head mbind option_bind]. destruct (fgtb _ _); eauto.
Qed.

Lemma coordinated_rule_total th st wallet market_id ts outcome value market
    key :
  timestamps_ok st → parses_naive ts →
  is_Some (coordinated_rule th st wallet market_id ts outcome value market
             key).
Proof.
  intros [Hh _] [t Hts]. unfold coordinated_rule.
  destruct (truthy_id market_id) as [mid|]; [|eauto].
  destruct (fgtb _ _); [|eauto].
  rewrite Hts. cbn [mbind option_bind].
  destruct (similar_recent_of_total t wallet mid outcome
              (map_to_list (wallet_history st))) as [l ->].
  - apply Forall_forall. intros [w trades] Hin. simpl.
    apply elem_of_map_to_list in Hin. apply Forall_forall. eauto.
  - cbn [mbind option_bind]. destruct (int_geb_float _ _); eauto.
Qed.

(** The niche rule raises only where [float()] rejects the volume. *)
Lemma niche_rule_total th st wallet md market key :
  is_Some (float_of (default (PyInt 0) (volume md))) →
  is_Some (niche_rule th st wallet md market key).
Proof.
  intros [v Hv]. unfold niche_rule. rewrite Hv. cbn [mbind option_bind].
  destruct (_ && _); eauto.
Qed.

(** With well-formed timestamps in the stores and on the trade, and a
    volume that [float()] accepts, a call on a converted trade returns, and
    the stores stay well-formed. *)
Lemma analyze_converted_total now_iso now th st (tr : converted) md :
  timestamps_ok st →
  parses_naive (trade_timestamp now_iso tr) →
  is_Some (float_of (default (PyInt 0) (volume md))) →
  ∃ alerts st',
    analyze_converted now_iso now th st tr md = Returned alerts st'
    ∧ timestamps_ok st'.
Proof.
  intros Hst Hts Hvol.
  destruct (decide (trade_key now_iso tr md ∈ sent_alerts st)) as [Hin|Hout].
  { rewrite analyze_converted_seen by exact Hin. eauto. }
  unfold analyze_converted. rewrite bool_decide_eq_false_2 by exact Hout.
  destruct (get_wallet_age_recorded now now_iso tr md st Hst Hts)
    as (e & t & _ & _ & ->).
  destruct (niche_rule_total th
    (record_size (condition_id md) (trade_size tr) (recorded now_iso tr md st))
    (trade_wallet tr) md (market_name md) (trade_key now_iso tr md) Hvol)
    as [a3 ->].
  pose proof (timestamps_ok_updated now_iso tr md st Hst Hts) as Hup.
  destruct (pre_move_rule_total th (updated now_iso tr md st)
    (trade_wallet tr) (condition_id md) (trade_timestamp now_iso tr)
    (trade_price tr) (trade_value tr) (market_name md)
    (trade_key now_iso tr md) Hup Hts) as [a5 ->].
  destruct (coordinated_rule_total th (updated now_iso tr md st)
    (trade_wallet tr) (condition_id md) (trade_timestamp now_iso tr)
    (trade_outcome tr) (trade_value tr) (market_name md)
    (trade_key now_iso tr md) Hup Hts) as [a6 ->].
  do 2 eexists. split; [reflexivity|].
  eapply timestamps_ok_ext; [| |exact Hup]; reflexivity.
Qed.

(** The same for a trade whose size and price [float()] accepts. *)
Lemma analyze_trade_total now_iso now th st (tr : trade) md :
  timestamps_ok st →
  parses_naive (trade_timestamp now_iso tr) →
  is_Some (convert_trade tr) →
  is_Some (float_of (default (PyInt 0) (volume md))) →
  ∃ alerts st',
    analyze_trade now_iso now th st tr md = Returned alerts st'
    ∧ timestamps_ok st'.
Proof.
  intros Hst Hts [c Hc] Hvol.
  rewrite (analyze_trade_converted fromisoformat py_float py_sum _ _ _ _ _ _
             c Hc).
  apply analyze_converted_total; try assumption.
  rewrite (convert_trade_trade py_float tr c Hc). exact Hts.
Qed.

(** Whatever a call does, readable stores stay readable when the trade's
    timestamp is. *)
Lemma analyze_trade_timestamps_ok now_iso now th st (tr : trade) md :
  timestamps_ok st →
  parses_naive (trade_timestamp now_iso tr) →
  timestamps_ok (result_state (analyze_trade now_iso now th st tr md)).
Proof.
  intros Hst Hts.
  destruct (analyze_trade_cases fromisoformat py_float py_sum now_iso now th
              st tr md) as [[_ ->]|(c & Hc & Ht & ->)]; [exact Hst|].
  rewrite <- Ht in Hts.
  destruct (decide (trade_key now_iso c md ∈ sent_alerts st)) as [Hin|Hout].
  { rewrite analyze_converted_seen by exact Hin. exact Hst. }
  destruct (analyze_converted now_iso now th st c md)
    as [alerts st'|st'] eqn:E.
  - destruct (analyze_converted_returned _ _ _ _ _ _ _ _ _ _ _ Hout E)
      as (_ & _ & _ & _ & _ & _ & _ & _ & _ & ->).
    simpl. eapply timestamps_ok_ext;
      [| |exact (timestamps_ok_updated now_iso c md st Hst Hts)]; reflexivity.
  - apply analyze_converted_raised in E as (_ & _ & [-> | [-> | ->]]); simpl.
    + apply timestamps_ok_recorded; assumption.
    + eapply timestamps_ok_ext;
        [| |exact (timestamps_ok_recorded now_iso c md st Hst Hts)];
        unfold record_size; case_match; reflexivity.
    + apply timestamps_ok_updated; assumption.
Qed.

End TotalityProperties.

(** ** The fresh-wallet rule on a first trade *)

Section FreshWallet.

Variable fromisoformat : string → option datetime.
Variable py_float : string → option float.
Variable py_sum : list float → float.

Abbreviation analyze_converted :=
  (analyze_converted fromisoformat py_float py_sum).
Abbreviation analyze_trade := (analyze_trade fromisoformat py_float py_sum).
Abbreviation convert_trade := (convert_trade py_float).
Abbreviation float_of := (float_of py_float).
Abbreviation mean := (mean py_sum).
Abbreviation unusual_rule := (unusual_rule py_sum).
Abbreviation niche_rule := (niche_rule py_float).
Abbreviation get_wallet_age := (get_wallet_age fromisoformat).
Abbreviation timestamps_ok := (timestamps_ok fromisoformat).

(** C4 (as amended): for a wallet without recorded history, a first trade
    whose key is not in the ledger, whose timestamp parses, whose numbers
    [float()] accepts, and whose value exceeds [fresh_wallet_min_value]
    yields a Fresh-Wallet alert whenever the age, the whole days from the
    trade's own timestamp to the clock (the trade is recorded before the
    age is read), is below [fresh_wallet_days]; that age is 0 when the
    timestamp is less than a day old. The stores hold well-formed
    timestamps, so no rule raises. *)
Theorem fresh_wallet_first_trade now_iso now th st (tr : trade) md c t0 :
  convert_trade tr = Some c →
  is_Some (float_of (default (PyInt 0) (volume md))) →
  wallet_history st !! trade_wallet tr = None →
  trade_key now_iso tr md ∉ sent_alerts st →
  timestamps_ok st →
  fromisoformat (trade_timestamp now_iso tr) = Some (naive t0) →
  int_ltb_float (td_days (now - t0)) (fresh_wallet_days th) = true →
  fgtb (trade_value c) (fresh_wallet_min_value th) = true →
  ∃ alerts st',
    analyze_trade now_iso now th st tr md = Returned alerts st'
    ∧ count_type FRESH_WALLET_LARGE_BET alerts = 1%nat
    ∧ head alerts
      = Some {| a_type := FRESH_WALLET_LARGE_BET;
                a_wallet := trade_wallet tr;
                a_fields := FreshFields (td_days (now - t0)) (trade_value c);
                a_market := market_name md;
                a_key := trade_key now_iso tr md |}
    ∧ (0 ≤ now - t0 < us_per_day → td_days (now - t0) = 0).
Proof.
  intros Hc Hvol Hnew Hout Hst Hts Hage Hval.
  rewrite (analyze_trade_converted fromisoformat py_float py_sum _ _ _ _ _ _
             c Hc).
  pose proof (convert_trade_trade py_float tr c Hc) as Ht.
  subst tr. rename c into tr. clear Hc.
  assert (Hp : parses_naive fromisoformat (trade_timestamp now_iso tr))
    by (exists t0; exact Hts).
  destruct (analyze_converted_total fromisoformat py_float py_sum now_iso now
              th st tr md Hst Hp Hvol) as (alerts & st' & E & _).
  exists alerts, st'. split; [exact E|].
  destruct (get_wallet_age_recorded fromisoformat now now_iso tr md st Hst Hp)
    as (e & t & Hhead & He & Hget).
  unfold dd_get in Hhead. rewrite Hnew in Hhead. simpl in Hhead.
  injection Hhead as <-. simpl in He. rewrite Hts in He.
  injection He as <-.
  assert (Hfresh :
    fresh_rule th (trade_wallet tr) (Some (td_days (now - t0)))
      (trade_value tr) (market_name md) (trade_key now_iso tr md)
    = [ {| a_type := FRESH_WALLET_LARGE_BET; a_wallet := trade_wallet tr;
           a_fields := FreshFields (td_days (now - t0)) (trade_value tr);
           a_market := market_name md;
           a_key := trade_key now_iso tr md |} ]).
  { unfold fresh_rule. rewrite Hage, Hval. reflexivity. }
  split; [|split].
  - destruct (analyze_converted_counts _ _ _ _ _ _ _ _ _ _ _ Hout E)
      as (age & a3 & a5 & a6 & Hage' & H3 & _ & _ & Hc & _).
    rewrite Hc. rewrite Hget in Hage'. injection Hage' as <-.
    rewrite Hfresh. reflexivity.
  - destruct (analyze_converted_returned _ _ _ _ _ _ _ _ _ _ _ Hout E)
      as (age & a3 & a5 & a6 & Hage' & H3 & _ & _ & -> & _).
    rewrite Hget in Hage'. injection Hage' as <-.
    rewrite Hfresh. reflexivity.
  - intros Hday. unfold td_days. apply Z.div_small. exact Hday.
Qed.

End FreshWallet.

(** C4, counterexample: the first trade of a wallet, worth 2500 against a
    minimum of 1000 and with [fresh_wallet_days] at 7, bears a timestamp a
    month older than the clock; the age read is 31 days and the call
    returns without any alert. *)
Lemma stale_first_trade_not_fresh :
  wallet_history init_state !! "0xabc" = None
  ∧ convert_trade dec_float (large_trade "2023-12-01T00:00:00")
    = Some (read (large_trade "2023-12-01T00:00:00"))
  ∧ fgtb (trade_value (read (large_trade "2023-12-01T00:00:00")))
      (fresh_wallet_min_value default_thresholds) = true
  ∧ int_ltb_float 0 (fresh_wallet_days default_thresholds) = true
  ∧ get_wallet_age iso_basic (clock_of "2024-01-01T12:00:00")
      (result_state stale_first) "0xabc" = Some (Some 31)
  ∧ ∃ st', stale_first = Returned [] st'.
Proof.
  split; [reflexivity|]. split; [vm_compute; reflexivity|].
  split; [vm_compute; reflexivity|]. split; [vm_compute; reflexivity|].
  split; [vm_compute; reflexivity|].
  eexists. vm_compute. reflexivity.
Qed.

Lemma fresh_wallet_first_trade_witness :
  ∃ alerts st',
    first_large = Returned alerts st'
    ∧ count_type FRESH_WALLET_LARGE_BET alerts = 1%nat
    ∧ head alerts
      = Some {| a_type := FRESH_WALLET_LARGE_BET;
                a_wallet := "0xabc";
                a_fields :=
                  FreshFields 0
                    (trade_value (read (large_trade "2024-01-01T00:00:00")));
                a_market := "Will it rain?";
                a_key := "0xabc_0xm1_2024-01-01T00:00:00" |}
    ∧ (0 ≤ clock_of "2024-01-01T12:00:00" - clock_of "2024-01-01T00:00:00"
         < us_per_day →
       td_days (clock_of "2024-01-01T12:00:00"
                - clock_of "2024-01-01T00:00:00") = 0).
Proof.
  apply (fresh_wallet_first_trade iso_basic dec_float naive_sum ""
           (clock_of "2024-01-01T12:00:00") default_thresholds init_state
           (large_trade "2024-01-01T00:00:00") sample_market
           (read (large_trade "2024-01-01T00:00:00"))
           (clock_of "2024-01-01T00:00:00")).
  - vm_compute. reflexivity.
  - vm_compute. eauto.
  - reflexivity.
  - apply not_elem_of_empty.
  - apply timestamps_ok_init.
  - vm_compute. reflexivity.
  - vm_compute. reflexivity.
  - vm_compute. reflexivity.
Defined.

(** ** The pre-move rule *)

Lemma last_push_capped {A} (cap : nat) (x : A) (l : list A) :
  (1 ≤ cap)%nat → last (push_capped cap x l) = Some x.
Proof.
  intros Hcap. unfold push_capped.
  destruct (Nat.ltb_spec cap (length (l ++ [x]))) as [Hlt|_];
    [|apply last_snoc].
  destruct l as [|y l]; simpl in *; [lia|]. apply last_snoc.
Qed.

Lemma reachable_run fromisoformat py_float py_sum th calls st :
  reachable fromisoformat py_float py_sum st →
  reachable fromisoformat py_float py_sum
    (run fromisoformat py_float py_sum th calls st).
Proof.
  revert st. induction calls as [|c calls IH]; intros st H; [exact H|].
  simpl. apply IH. constructor. exact H.
Qed.

Section PreMove.

Variable fromisoformat : string → option datetime.
Variable py_float : string → option float.
Variable py_sum : list float → float.

Abbreviation analyze_converted :=
  (analyze_converted fromisoformat py_float py_sum).
Abbreviation analyze_trade := (analyze_trade fromisoformat py_float py_sum).
Abbreviation convert_trade := (convert_trade py_float).
Abbreviation float_of := (float_of py_float).
Abbreviation mean := (mean py_sum).
Abbreviation unusual_rule := (unusual_rule py_sum).
Abbreviation niche_rule := (niche_rule py_float).
Abbreviation reachable := (reachable fromisoformat py_float py_sum).
Abbreviation within_30_min := (within_30_min fromisoformat).

(** No reachable state stores a window under the empty market id. *)
Lemma reachable_market_keys_ok st : reachable st → market_keys_ok st.
Proof.
  induction 1 as [|now_iso now th st tr md _ [IHv IHp]].
  - split; reflexivity.
  - destruct (analyze_trade_cases fromisoformat py_float py_sum now_iso now
                th st tr md) as [[_ ->]|(c & _ & _ & ->)]; [split; assumption|].
    split.
    + rewrite result_size_window. rewrite bool_decide_eq_false_2; [exact IHv|].
      intros (_ & Hm & _). apply truthy_id_Some in Hm as [_ Hm]. congruence.
    + rewrite result_price_window. rewrite bool_decide_eq_false_2; [exact IHp|].
      intros (_ & Hm). apply truthy_id_Some in Hm as [_ Hm]. congruence.
Qed.

(** The pre-move rule on a converted trade, for a call that returns. *)
Lemma pre_move_converted now_iso now th st (tr : converted) md alerts st' :
  market_keys_ok st' →
  trade_key now_iso tr md ∉ sent_alerts st →
  analyze_converted now_iso now th st tr md = Returned alerts st' →
  let w := price_window md st' in
  (∀ mid, truthy_id (condition_id md) = Some mid →
          last w = Some (price_entry_of now_iso tr))
  ∧ (count_type PRE_MOVE_POSITIONING alerts = 1%nat ↔
     fgtb (trade_value tr) (pre_move_min_value th) = true
     ∧ (10 < length w)%nat
     ∧ ∃ nowdt,
         fromisoformat (trade_timestamp now_iso tr) = Some nowdt
         ∧ (5 ≤ length (List.filter (within_30_min nowdt) w))%nat
         ∧ ∃ p0,
             head (List.filter (within_30_min nowdt) w) = Some p0
             ∧ fgtb (fabs (fsub (trade_price tr) (p_price p0)))
                 (pre_move_change_pct th) = true).
Proof.
  intros Hst' Hout E w.
  destruct (analyze_converted_counts _ _ _ _ _ _ _ _ _ _ _ Hout E)
    as (age & a3 & a5 & a6 & _ & H3 & H5 & _ & _ & _ & _ & _ & Hc & _).
  destruct (analyze_converted_returned _ _ _ _ _ _ _ _ _ _ _ Hout E)
    as (_ & _ & _ & _ & _ & _ & _ & _ & _ & Est).
  assert (Hprices : market_prices st'
                    = market_prices (updated now_iso tr md st))
    by (rewrite Est; reflexivity).
  assert (Hw : ∀ mid, truthy_id (condition_id md) = Some mid →
                 w = dd_get mid (market_prices (updated now_iso tr md st))).
  { intros mid Hmid. apply truthy_id_Some in Hmid as [Hcid _].
    unfold w, price_window. rewrite Hcid, Hprices. reflexivity. }
  split.
  - intros mid Hmid. rewrite (Hw mid Hmid).
    rewrite updated_market_prices, recorded_market_prices, Hmid.
    rewrite dd_get_push_capped, bool_decide_eq_true_2 by reflexivity.
    apply last_push_capped. lia.
  - rewrite Hc. rewrite (pre_move_rule_count _ _ _ _ _ _ _ _ _ _ _ H5).
    split.
    + intros (mid & Hmid & Hv & Hlen & nowdt & Hnow & Hsub & p0 & Hp0 & Hd).
      rewrite <- (Hw mid Hmid) in *.
      split; [exact Hv|]. split; [exact Hlen|].
      exists nowdt. split; [exact Hnow|]. split; [exact Hsub|].
      exists p0. split; assumption.
    + intros (Hv & Hlen & nowdt & Hnow & Hsub & p0 & Hp0 & Hd).
      assert (Hmid : ∃ mid, truthy_id (condition_id md) = Some mid).
      { unfold w, price_window in Hlen.
        destruct (condition_id md) as [mid|] eqn:Hcid; [|simpl in Hlen; lia].
        exists mid. apply truthy_id_Some. split; [reflexivity|].
        intros ->. destruct Hst' as [_ Hp]. rewrite Hp in Hlen.
        simpl in Hlen. lia. }
      destruct Hmid as [mid Hmid]. exists mid.
      rewrite <- (Hw mid Hmid).
      split; [exact Hmid|]. split; [exact Hv|]. split; [exact Hlen|].
      exists nowdt. split; [exact Hnow|]. split; [exact Hsub|].
      exists p0. split; assumption.
Qed.

(** C7 (as amended): for a processed trade whose call returns (key not in
    the ledger, no exception escaping), the batch holds a
    Pre-Move-Positioning alert if and only if the value exceeds
    [pre_move_min_value], the market's price window, which ends with the
    price of the trade itself, has more than 10 entries, at least 5 of its
    entries are strictly less than 1800 seconds before the trade's
    timestamp, and the float [abs(price - old_price)], with [old_price]
    the price of the first of these in stored order, exceeds
    [pre_move_change_pct]. *)
Theorem pre_move_alert_iff now_iso now th st (tr : trade) md alerts st' :
  reachable st →
  trade_key now_iso tr md ∉ sent_alerts st →
  analyze_trade now_iso now th st tr md = Returned alerts st' →
  ∃ c,
    convert_trade tr = Some c
    ∧ let w := price_window md st' in
      (∀ mid, truthy_id (condition_id md) = Some mid →
              last w = Some (price_entry_of now_iso c))
      ∧ (count_type PRE_MOVE_POSITIONING alerts = 1%nat ↔
         fgtb (trade_value c) (pre_move_min_value th) = true
         ∧ (10 < length w)%nat
         ∧ ∃ nowdt,
             fromisoformat (trade_timestamp now_iso tr) = Some nowdt
             ∧ (5 ≤ length (List.filter (within_30_min nowdt) w))%nat
             ∧ ∃ p0,
                 head (List.filter (within_30_min nowdt) w) = Some p0
                 ∧ fgtb (fabs (fsub (trade_price c) (p_price p0)))
                     (pre_move_change_pct th) = true).
Proof.
  intros Hst Hout E.
  assert (Hst' : market_keys_ok st').
  { replace st' with (result_state (analyze_trade now_iso now th st tr md))
      by (rewrite E; reflexivity).
    apply reachable_market_keys_ok. constructor. exact Hst. }
  destruct (analyze_trade_returned fromisoformat py_float py_sum _ _ _ _ _ _
              _ _ E) as (c & Hc & Ht & Ec).
  exists c. split; [exact Hc|]. subst tr.
  exact (pre_move_converted now_iso now th st c md alerts st' Hst' Hout Ec).
Qed.

End PreMove.

(** The rule does fire: after ten trades at 0.5, a trade worth 900 at 0.9
    ten minutes after the first one is flagged. *)
Example moving_call_flagged :
  count_type PRE_MOVE_POSITIONING (result_alerts moving_call) = 1%nat
  ∧ length (price_window sample_market (result_state moving_call)) = 11%nat.
Proof. vm_compute. split; reflexivity. Qed.

(** The difference is the float one: 0.65 - 0.5 is above 0.15, and a
    trade at 0.65 after ten trades at 0.5 is flagged. *)
Example drift_call_flagged :
  count_type PRE_MOVE_POSITIONING (result_alerts drift_call) = 1%nat
  ∧ fgtb (fabs (fsub (decimal 65 2) (decimal 5 1))) (decimal 15 2) = true.
Proof. split; vm_compute; reflexivity. Qed.

Lemma pre_move_alert_iff_witness :
  ∃ c,
    convert_trade dec_float moving_trade = Some c
    ∧ (∀ mid, truthy_id (condition_id sample_market) = Some mid →
              last (price_window sample_market (result_state moving_call))
              = Some (price_entry_of "" c))
    ∧ (count_type PRE_MOVE_POSITIONING (result_alerts moving_call) = 1%nat ↔
       fgtb (trade_value c) (pre_move_min_value default_thresholds) = true
       ∧ (10 < length (price_window sample_market
                         (result_state moving_call)))%nat
       ∧ ∃ nowdt,
           iso_basic (trade_timestamp "" moving_trade) = Some nowdt
           ∧ (5 ≤ length
                    (List.filter (within_30_min iso_basic nowdt)
                       (price_window sample_market
                          (result_state moving_call))))%nat
           ∧ ∃ p0,
               head (List.filter (within_30_min iso_basic nowdt)
                       (price_window sample_market
                          (result_state moving_call))) = Some p0
               ∧ fgtb (fabs (fsub (trade_price c) (p_price p0)))
                   (pre_move_change_pct default_thresholds) = true).
Proof.
  apply (pre_move_alert_iff iso_basic dec_float naive_sum ""
           (clock_of "2024-01-01T12:00:00") default_thresholds ten_small
           moving_trade sample_market (result_alerts moving_call)
           (result_state moving_call)).
  - apply reachable_run, reach_init.
  - apply (bool_decide_unpack _). vm_compute. exact I.
  - vm_compute. reflexivity.
Defined.

(** C7, counterexample: the four conditions hold and no alert is produced
    when an exception escapes after the rule. On the busy market, the
    price of the garbled trade has left the price window, whose two
    hundred timestamps all parse, but the trade is still among the last
    five of its wallet. The late trade is worth more than
    [pre_move_min_value] and more than [coordinated_min_value]; lines
    325-348 build its Pre-Move-Positioning alert; then line 359 reads the
    garbled timestamp and raises, and the call returns no batch. The
    stores are reached from the initial ones. *)
Lemma pre_move_alert_lost_when_call_raises :
  reachable iso_basic dec_float naive_sum clogged
  ∧ (trade_key "" late_trade busy_market ∉ sent_alerts clogged)
  ∧ convert_trade dec_float late_trade = Some (read late_trade)
  ∧ (∃ a,
       pre_move_rule iso_basic default_thresholds
         (updated "" (read late_trade) busy_market clogged) "0xdef"
         (condition_id busy_market) (trade_timestamp "" late_trade)
         (trade_price (read late_trade)) (trade_value (read late_trade))
         (market_name busy_market) (trade_key "" late_trade busy_market)
       = Some [a]
       ∧ a_type a = PRE_MOVE_POSITIONING)
  ∧ coordinated_rule iso_basic default_thresholds
      (updated "" (read late_trade) busy_market clogged) "0xdef"
      (condition_id busy_market) (trade_timestamp "" late_trade)
      (trade_outcome late_trade) (trade_value (read late_trade))
      (market_name busy_market) (trade_key "" late_trade busy_market)
    = None
  ∧ late_call = Raised (updated "" (read late_trade) busy_market clogged)
  ∧ result_alerts late_call = []
  ∧ fgtb (trade_value (read late_trade))
      (pre_move_min_value default_thresholds) = true
  ∧ length (price_window busy_market (result_state late_call)) = 200%nat
  ∧ last (price_window busy_market (result_state late_call))
    = Some (price_entry_of "" (read late_trade))
  ∧ Forall (λ p, is_Some (iso_basic (p_timestamp p)))
      (price_window busy_market (result_state late_call))
  ∧ ∃ nowdt p0,
      iso_basic (trade_timestamp "" late_trade) = Some nowdt
      ∧ length (List.filter (within_30_min iso_basic nowdt)
                  (price_window busy_market (result_state late_call)))
        = 200%nat
      ∧ head (List.filter (within_30_min iso_basic nowdt)
                (price_window busy_market (result_state late_call)))
        = Some p0
      ∧ fgtb (fabs (fsub (trade_price (read late_trade)) (p_price p0)))
          (pre_move_change_pct default_thresholds) = true.
Proof.
  split; [apply reachable_run, reach_init|].
  split; [apply (bool_decide_unpack _); vm_compute; exact I|].
  split; [vm_compute; reflexivity|].
  split; [eexists; split; [vm_compute; reflexivity|reflexivity]|].
  split; [vm_compute; reflexivity|].
  split; [vm_compute; reflexivity|].
  split; [vm_compute; reflexivity|].
  split; [vm_compute; reflexivity|].
  split; [vm_compute; reflexivity|].
  split; [vm_compute; reflexivity|].
  split.
  - apply (bool_decide_unpack _). vm_compute. exact I.
  - do 2 eexists. split; [vm_compute; reflexivity|].
    split; [vm_compute; reflexivity|].
    split; vm_compute; reflexivity.
Qed.

(** ** Trades on a market without an id *)

Section NoMarketId.

Variable fromisoformat : string → option datetime.
Variable py_float : string → option float.
Variable py_sum : list float → float.

Abbreviation analyze_converted :=
  (analyze_converted fromisoformat py_float py_sum).
Abbreviation analyze_trade := (analyze_trade fromisoformat py_float py_sum).
Abbreviation convert_trade := (convert_trade py_float).
Abbreviation float_of := (float_of py_float).
Abbreviation mean := (mean py_sum).
Abbreviation unusual_rule := (unusual_rule py_sum).
Abbreviation niche_rule := (niche_rule py_float).
Abbreviation get_wallet_age := (get_wallet_age fromisoformat).
Abbreviation pre_move_rule := (pre_move_rule fromisoformat).
Abbreviation coordinated_rule := (coordinated_rule fromisoformat).

(** Without a market id only [get_wallet_age] and the [float()] of line
    288 can raise, and the batch is what the three wallet rules yield. *)
Lemma analyze_converted_no_market now_iso now th st (tr : converted) md :
  truthy_id (condition_id md) = None →
  trade_key now_iso tr md ∉ sent_alerts st →
  analyze_converted now_iso now th st tr md
  = match get_wallet_age now (recorded now_iso tr md st) (trade_wallet tr) with
    | Some age =>
        match niche_rule th (recorded now_iso tr md st) (trade_wallet tr) md
                (market_name md) (trade_key now_iso tr md) with
        | Some a3 =>
            let alerts :=
              fresh_rule th (trade_wallet tr) age (trade_value tr)
                (market_name md) (trade_key now_iso tr md)
              ++ a3
              ++ conviction_rule th (updated now_iso tr md st)
                   (trade_wallet tr) (trade_price tr) (trade_value tr)
                   (market_name md) (trade_key now_iso tr md) in
            Returned alerts (mark_sent alerts (updated now_iso tr md st))
        | None => Raised (recorded now_iso tr md st)
        end
    | None => Raised (recorded now_iso tr md st)
    end.
Proof.
  intros Hid Hout. unfold analyze_converted.
  rewrite bool_decide_eq_false_2 by exact Hout.
  destruct (get_wallet_age _ _ _) as [age|]; [|reflexivity].
  unfold pre_move_rule, coordinated_rule, unusual_rule, record_size.
  rewrite Hid. cbn zeta.
  destruct (niche_rule _ _ _ _ _ _) as [a3|]; [|reflexivity].
  rewrite !app_nil_r. reflexivity.
Qed.

Lemma no_market_id_converted now_iso now th st (tr : converted) md :
  truthy_id (condition_id md) = None →
  let r := analyze_converted now_iso now th st tr md in
  let wallet := trade_wallet tr in
  let key := trade_key now_iso tr md in
  market_volumes (result_state r) = market_volumes st
  ∧ market_prices (result_state r) = market_prices st
  ∧ count_type UNUSUAL_SIZE (result_alerts r) = 0%nat
  ∧ count_type PRE_MOVE_POSITIONING (result_alerts r) = 0%nat
  ∧ count_type COORDINATED_ENTRY (result_alerts r) = 0%nat
  ∧ (key ∉ sent_alerts st →
     wallet_history (result_state r)
     = dd_append wallet (hist_entry_of now_iso tr md) (wallet_history st)
     ∧ (∀ age a3,
          get_wallet_age now (recorded now_iso tr md st) wallet = Some age →
          niche_rule th (recorded now_iso tr md st) wallet md
            (market_name md) key = Some a3 →
          wallet_outcomes (result_state r)
          = dd_append wallet (outcome_entry_of tr md) (wallet_outcomes st)
          ∧ r = Returned
                  (fresh_rule th wallet age (trade_value tr)
                     (market_name md) key
                   ++ a3
                   ++ conviction_rule th (updated now_iso tr md st) wallet
                        (trade_price tr) (trade_value tr) (market_name md)
                        key)
                  (result_state r))
     ∧ (get_wallet_age now (recorded now_iso tr md st) wallet = None
        ∨ niche_rule th (recorded now_iso tr md st) wallet md
            (market_name md) key = None →
        r = Raised (recorded now_iso tr md st)
        ∧ wallet_outcomes (result_state r) = wallet_outcomes st)).
Proof.
  intros Hid r wallet key.
  assert (Hframe :
    market_volumes (result_state r) = market_volumes st
    ∧ market_prices (result_state r) = market_prices st).
  { subst r. rewrite result_market_volumes, result_market_prices.
    rewrite updated_market_volumes, recorded_market_prices, Hid.
    split; repeat case_match; reflexivity. }
  destruct Hframe as [Hv Hp]. do 2 (split; [assumption|]).
  destruct (decide (key ∈ sent_alerts st)) as [Hin|Hout].
  { subst r key. rewrite analyze_converted_seen by exact Hin.
    do 3 (split; [reflexivity|]). intros Hout. contradiction. }
  assert (Hr : r = analyze_converted now_iso now th st tr md) by reflexivity.
  rewrite (analyze_converted_no_market _ _ _ _ _ _ Hid Hout) in Hr.
  fold wallet key in Hr.
  destruct (get_wallet_age now (recorded now_iso tr md st) wallet)
    as [age|] eqn:Hage.
  - destruct (niche_rule th (recorded now_iso tr md st) wallet md
                (market_name md) key) as [a3|] eqn:H3.
    + cbn zeta in Hr.
      assert (Hcount : ∀ ty,
        ty ≠ FRESH_WALLET_LARGE_BET → ty ≠ REPEAT_NICHE_PLAYER →
        ty ≠ HIGH_WIN_RATE_TRADER → count_type ty (result_alerts r) = 0%nat).
      { intros ty H1 H3' H4. rewrite Hr. cbn [result_alerts].
        rewrite !count_type_app.
        rewrite (count_type_shape ty _ _ _ (fresh_rule_shape _ _ _ _ _ _)),
          (count_type_shape ty _ _ _
             (niche_rule_shape py_float _ _ _ _ _ _ _ H3)),
          (count_type_shape ty _ _ _ (conviction_rule_shape _ _ _ _ _ _ _)).
        destruct ty; try contradiction; reflexivity. }
      do 3 (split; [apply Hcount; discriminate|]).
      intros _. split; [|split].
      * rewrite Hr. cbn [result_state]. apply updated_wallet_history.
      * intros age' a3' [= <-] [= <-]. split.
        -- rewrite Hr. cbn [result_state]. apply updated_wallet_outcomes.
        -- rewrite Hr at 1. rewrite Hr. reflexivity.
      * intros [?|?]; discriminate.
    + do 3 (split; [rewrite Hr; reflexivity|]).
      intros _. split; [|split; [intros ? ? _ [=]|]].
      * rewrite Hr. cbn [result_state]. apply recorded_wallet_history.
      * intros _. split; [exact Hr|]. rewrite Hr. cbn [result_state].
        apply recorded_wallet_outcomes.
  - do 3 (split; [rewrite Hr; reflexivity|]).
    intros _. split; [|split; [intros ? ? [=]|]].
    + rewrite Hr. cbn [result_state]. apply recorded_wallet_history.
    + intros _. split; [exact Hr|]. rewrite Hr. cbn [result_state].
      apply recorded_wallet_outcomes.
Qed.

(** C10 (as amended): when the metadata has no condition id, or an empty
    one, a call leaves every size and price window as it was and yields no
    Unusual-Size, Pre-Move-Positioning or Coordinated-Entry alert. Where
    [float()] rejects the size or the price the call raises with the stores
    untouched. Otherwise a call whose key is not in the ledger records the
    trade in the wallet's history; if [get_wallet_age] and the [float()] of
    the volume both return, it records the trade in the wallet's outcomes
    and returns exactly what the Fresh-Wallet, Repeat-Niche-Player and
    Conviction rules yield; if one of the two raises, the call raises with
    the outcomes unwritten. *)
Theorem no_market_id_frame now_iso now th st (tr : trade) md :
  condition_id md = None ∨ condition_id md = Some "" →
  let r := analyze_trade now_iso now th st tr md in
  let wallet := trade_wallet tr in
  let key := trade_key now_iso tr md in
  market_volumes (result_state r) = market_volumes st
  ∧ market_prices (result_state r) = market_prices st
  ∧ count_type UNUSUAL_SIZE (result_alerts r) = 0%nat
  ∧ count_type PRE_MOVE_POSITIONING (result_alerts r) = 0%nat
  ∧ count_type COORDINATED_ENTRY (result_alerts r) = 0%nat
  ∧ (convert_trade tr = None → r = Raised st)
  ∧ (∀ c,
       convert_trade tr = Some c →
       key ∉ sent_alerts st →
       wallet_history (result_state r)
       = dd_append wallet (hist_entry_of now_iso c md) (wallet_history st)
       ∧ (∀ age a3,
            get_wallet_age now (recorded now_iso c md st) wallet = Some age →
            niche_rule th (recorded now_iso c md st) wallet md
              (market_name md) key = Some a3 →
            wallet_outcomes (result_state r)
            = dd_append wallet (outcome_entry_of c md) (wallet_outcomes st)
            ∧ r = Returned
                    (fresh_rule th wallet age (trade_value c)
                       (market_name md) key
                     ++ a3
                     ++ conviction_rule th (updated now_iso c md st) wallet
                          (trade_price c) (trade_value c) (market_name md)
                          key)
                    (result_state r))
       ∧ (get_wallet_age now (recorded now_iso c md st) wallet = None
          ∨ niche_rule th (recorded now_iso c md st) wallet md
              (market_name md) key = None →
          r = Raised (recorded now_iso c md st)
          ∧ wallet_outcomes (result_state r) = wallet_outcomes st)).
Proof.
  intros Hid%truthy_id_None r wallet key. subst r wallet key.
  destruct (analyze_trade_cases fromisoformat py_float py_sum now_iso now th
              st tr md) as [[Hn ->]|(c & Hc & Ht & ->)].
  { do 5 (split; [reflexivity|]). split; [reflexivity|].
    intros c Hc. congruence. }
  subst tr.
  destruct (no_market_id_converted now_iso now th st c md Hid)
    as (Hv & Hp & H2 & H5 & H6 & Hw).
  do 5 (split; [assumption|]). split; [congruence|].
  intros c' Hc' Hout. assert (c' = c) as -> by congruence.
  exact (Hw Hout).
Qed.

End NoMarketId.

Lemma no_market_id_frame_witness :
  market_volumes (result_state unlisted_call) = market_volumes init_state
  ∧ market_prices (result_state unlisted_call) = market_prices init_state
  ∧ count_type UNUSUAL_SIZE (result_alerts unlisted_call) = 0%nat
  ∧ count_type PRE_MOVE_POSITIONING (result_alerts unlisted_call) = 0%nat
  ∧ count_type COORDINATED_ENTRY (result_alerts unlisted_call) = 0%nat
  ∧ wallet_history (result_state unlisted_call)
    = dd_append "0xabc"
        (hist_entry_of "" (read (large_trade "2024-01-01T00:00:00"))
           unlisted_market)
        (wallet_history init_state)
  ∧ wallet_outcomes (result_state unlisted_call)
    = dd_append "0xabc"
        (outcome_entry_of (read (large_trade "2024-01-01T00:00:00"))
           unlisted_market)
        (wallet_outcomes init_state)
  ∧ ∃ alerts, unlisted_call = Returned alerts (result_state unlisted_call).
Proof.
  pose proof (no_market_id_frame iso_basic dec_float naive_sum ""
                (clock_of "2024-01-01T12:00:00") default_thresholds
                init_state (large_trade "2024-01-01T00:00:00")
                unlisted_market (or_introl eq_refl))
    as (Hv & Hp & H2 & H5 & H6 & _ & Hw).
  destruct (Hw (read (large_trade "2024-01-01T00:00:00")))
    as (Hh & Hreturns & _).
  { vm_compute. reflexivity. }
  { apply not_elem_of_empty. }
  destruct (Hreturns (Some 0) []) as [Ho Hr].
  { vm_compute. reflexivity. }
  { vm_compute. reflexivity. }
  do 5 (split; [assumption|]). split; [exact Hh|]. split; [exact Ho|].
  eexists. exact Hr.
Defined.

(** C10, counterexample: on the market without id, the trade whose
    timestamp is not an ISO string is recorded in the wallet's history,
    then [get_wallet_age] raises: the wallet's outcomes are not written and
    no rule is evaluated. *)
Lemma no_market_id_outcomes_unwritten :
  condition_id unlisted_market = None
  ∧ convert_trade dec_float garbled_trade = Some (read garbled_trade)
  ∧ (trade_key "" garbled_trade unlisted_market ∉ sent_alerts init_state)
  ∧ unlisted_garbled
    = Raised (recorded "" (read garbled_trade) unlisted_market init_state)
  ∧ wallet_history (result_state unlisted_garbled) !! "0xbad"
    = Some [hist_entry_of "" (read garbled_trade) unlisted_market]
  ∧ wallet_outcomes (result_state unlisted_garbled)
    = wallet_outcomes init_state.
Proof.
  split; [reflexivity|]. split; [vm_compute; reflexivity|].
  split; [apply not_elem_of_empty|].
  split; [vm_compute; reflexivity|].
  split; vm_compute; reflexivity.
Qed.

(** The wallet rules are still evaluated: the first trade of a wallet on a
    market without id is flagged as a fresh-wallet large bet, under the key
    that prints the absent id as [None]. *)
Example unlisted_call_flagged :
  ∃ a, result_alerts unlisted_call = [a]
       ∧ a_type a = FRESH_WALLET_LARGE_BET
       ∧ a_key a = "0xabc_None_2024-01-01T00:00:00".
Proof. eexists. split; [vm_compute; reflexivity|]. split; reflexivity. Qed.

(** ** Coordinated entries *)

(** [n >= 3.0] on an [int] [n]. *)
Lemma int_geb_float_3 (n : nat) :
  int_geb_float (Z.of_nat n) (float_of_Z 3) = (3 <=? n)%nat.
Proof.
  change (float_of_Z 3) with (S754_finite false 6755399441055744 (-51)).
  unfold int_geb_float, int_cmp_float.
  change (0 <=? -51) with false. cbv iota.
  change (2 ^ (- -51)) with 2251799813685248.
  destruct (Nat.leb_spec 3 n);
    destruct (Z.compare_spec (Z.of_nat n * 2251799813685248)
                6755399441055744); try reflexivity; lia.
Qed.

Lemma dd_append_fresh {A} (k : string) (x : A) (d : gmap string (list A)) :
  d !! k = None → dd_append k x d = <[k := [x]]> d.
Proof. intros H. unfold dd_append. rewrite H. reflexivity. Qed.

Section Coordinated.

Variable fromisoformat : string → option datetime.
Variable py_float : string → option float.
Variable py_sum : list float → float.

Abbreviation analyze_converted :=
  (analyze_converted fromisoformat py_float py_sum).
Abbreviation analyze_trade := (analyze_trade fromisoformat py_float py_sum).
Abbreviation convert_trade := (convert_trade py_float).
Abbreviation float_of := (float_of py_float).
Abbreviation mean := (mean py_sum).
Abbreviation unusual_rule := (unusual_rule py_sum).
Abbreviation niche_rule := (niche_rule py_float).
Abbreviation coordinated_with := (coordinated_with fromisoformat).
Abbreviation timestamps_ok := (timestamps_ok fromisoformat).

(** One processed trade on market [mid], against the set [S] of the other
    wallets with a matching trade among their last five. *)
Lemma coordinated_step now_iso now th st (tr : converted) md mid t
    (S : gset string) :
  is_Some (float_of (default (PyInt 0) (volume md))) →
  timestamps_ok st →
  trade_key now_iso tr md ∉ sent_alerts st →
  condition_id md = Some mid → mid ≠ "" →
  fromisoformat (trade_timestamp now_iso tr) = Some (naive t) →
  (∀ w', w' ∈ S ↔
         w' ≠ trade_wallet tr
         ∧ ∃ trades e, wallet_history st !! w' = Some trades
                       ∧ e ∈ lastn 5 trades
                       ∧ coordinated_with (naive t) mid (trade_outcome tr) e
                         = true) →
  ∃ alerts st',
    analyze_converted now_iso now th st tr md = Returned alerts st'
    ∧ timestamps_ok st'
    ∧ wallet_history st'
      = dd_append (trade_wallet tr) (hist_entry_of now_iso tr md)
          (wallet_history st)
    ∧ (∀ k, k ∈ sent_alerts st' →
            k = trade_key now_iso tr md ∨ k ∈ sent_alerts st)
    ∧ count_type COORDINATED_ENTRY alerts
      = if fgtb (trade_value tr) (coordinated_min_value th)
           && int_geb_float (Z.of_nat (size S + 1))
                (coordinated_min_wallets th)
        then 1%nat else 0%nat.
Proof.
  intros Hvol Hst Hout Hcid Hmid Hts HS.
  assert (Hp : parses_naive fromisoformat (trade_timestamp now_iso tr))
    by (exists t; exact Hts).
  destruct (analyze_converted_total fromisoformat py_float py_sum now_iso now
              th st tr md Hst Hp Hvol) as (alerts & st' & E & Hst').
  exists alerts, st'. split; [exact E|]. split; [exact Hst'|].
  destruct (analyze_converted_counts _ _ _ _ _ _ _ _ _ _ _ Hout E)
    as (age & a3 & a5 & a6 & _ & H3 & _ & H6 & _ & _ & _ & _ & _ & Hc).
  destruct (analyze_converted_returned _ _ _ _ _ _ _ _ _ _ _ Hout E)
    as (_ & _ & _ & _ & _ & _ & _ & _ & _ & Est).
  split; [|split].
  - rewrite Est. apply updated_wallet_history.
  - intros k Hk.
    pose proof (analyze_converted_ledger fromisoformat py_float py_sum
                  now_iso now th st tr md) as L.
    rewrite E in L. cbn [result_state result_alerts] in L. rewrite L in Hk.
    case_bool_decide; [right; exact Hk|].
    apply elem_of_union in Hk as [Hk%elem_of_singleton|Hk]; auto.
  - rewrite Hc.
    apply (coordinated_rule_count fromisoformat th
             (updated now_iso tr md st) (trade_wallet tr) (condition_id md)
             mid (trade_timestamp now_iso tr) (naive t) (trade_outcome tr)
             (trade_value tr) (market_name md) (trade_key now_iso tr md) a6 S).
    + apply truthy_id_Some. auto.
    + exact Hts.
    + exact H6.
    + intros w'. rewrite HS. rewrite updated_wallet_history.
      unfold dd_append.
      split; intros (Hne & trades & e & Hl & He & Hcw); (split; [exact Hne|]);
        exists trades, e; (split; [|auto]).
      * rewrite lookup_insert_ne by congruence. exact Hl.
      * rewrite lookup_insert_ne in Hl by congruence. exact Hl.
Qed.

(** A recorded trade on the market, for the outcome, and close in time,
    matches. *)
Lemma coordinated_with_match now_iso (tr : converted) md mid outcome t t' :
  condition_id md = Some mid →
  trade_outcome tr = outcome →
  fromisoformat (trade_timestamp now_iso tr) = Some (naive t') →
  Z.abs (t - t') < 300 * us_per_second →
  coordinated_with (naive t) mid outcome (hist_entry_of now_iso tr md) = true.
Proof.
  intros Hcid Ho Hts Hclose. unfold coordinated_with. simpl.
  rewrite Hts. cbn [mbind option_bind]. unfold dt_sub. simpl.
  rewrite !bool_decide_eq_true_2 by assumption. simpl.
  apply Z.ltb_lt. exact Hclose.
Qed.

Lemma coordinated_with_other_outcome now_iso (tr : converted) md mid outcome
    now :
  trade_outcome tr ≠ outcome →
  coordinated_with now mid outcome (hist_entry_of now_iso tr md) = false.
Proof.
  intros Ho. unfold coordinated_with. simpl.
  rewrite (bool_decide_eq_false_2 (trade_outcome tr = outcome)) by exact Ho.
  rewrite andb_false_r. reflexivity.
Qed.

(** The scenario of the coordinated entry, on converted trades. *)
Lemma coordinated_entry_converted now_iso nowD nowA nowB nowC th md M
    (trD trA trB trC : converted) tD tA tB tC :
  is_Some (float_of (default (PyInt 0) (volume md))) →
  condition_id md = Some M → M ≠ "" →
  NoDup [trade_wallet trA; trade_wallet trB; trade_wallet trC;
         trade_wallet trD] →
  NoDup [trade_key now_iso trD md; trade_key now_iso trA md;
         trade_key now_iso trB md; trade_key now_iso trC md] →
  trade_outcome trA = "Yes" → trade_outcome trB = "Yes" →
  trade_outcome trC = "Yes" → trade_outcome trD ≠ "Yes" →
  fromisoformat (trade_timestamp now_iso trD) = Some (naive tD) →
  fromisoformat (trade_timestamp now_iso trA) = Some (naive tA) →
  fromisoformat (trade_timestamp now_iso trB) = Some (naive tB) →
  fromisoformat (trade_timestamp now_iso trC) = Some (naive tC) →
  Z.abs (tA - tB) < 300 * us_per_second →
  Z.abs (tA - tC) < 300 * us_per_second →
  Z.abs (tB - tC) < 300 * us_per_second →
  fgtb (trade_value trA) (coordinated_min_value th) = true →
  fgtb (trade_value trB) (coordinated_min_value th) = true →
  fgtb (trade_value trC) (coordinated_min_value th) = true →
  coordinated_min_wallets th = float_of_Z 3 →
  let stD :=
    result_state (analyze_converted now_iso nowD th init_state trD md) in
  let rA := analyze_converted now_iso nowA th stD trA md in
  let rB := analyze_converted now_iso nowB th (result_state rA) trB md in
  let rC := analyze_converted now_iso nowC th (result_state rB) trC md in
  (∃ alerts st', rA = Returned alerts st'
                 ∧ count_type COORDINATED_ENTRY alerts = 0%nat)
  ∧ (∃ alerts st', rB = Returned alerts st'
                   ∧ count_type COORDINATED_ENTRY alerts = 0%nat)
  ∧ (∃ alerts st', rC = Returned alerts st'
                   ∧ count_type COORDINATED_ENTRY alerts = 1%nat).
Proof.
  intros Hvol Hcid HM Hw Hk HoA HoB HoC HoD HtD HtA HtB HtC HAB HAC HBC
    HvA HvB HvC Hmin.
  rewrite !NoDup_cons, !not_elem_of_cons in Hw.
  destruct Hw as ((HwAB & HwAC & HwAD & _) & (HwBC & HwBD & _)
                  & (HwCD & _) & _).
  rewrite !NoDup_cons, !not_elem_of_cons in Hk.
  destruct Hk as ((HkDA & HkDB & HkDC & _) & (HkAB & HkAC & _)
                  & (HkBC & _) & _).
  (* D *)
  destruct (coordinated_step now_iso nowD th init_state trD md
              M tD ∅ Hvol (timestamps_ok_init fromisoformat))
    as (alD & sD & ED & HokD & HwhD & HsentD & _);
    [apply not_elem_of_empty|exact Hcid|exact HM|exact HtD| |].
  { intros w'. split; [intros []%not_elem_of_empty|].
    intros (_ & trades & e & Hl & _). simpl in Hl.
    rewrite lookup_empty in Hl. discriminate. }
  rewrite dd_append_fresh in HwhD by apply lookup_empty.
  intros stD. subst stD. rewrite ED. cbn [result_state].
  (* A *)
  destruct (coordinated_step now_iso nowA th sD trA md
              M tA ∅ Hvol HokD)
    as (alA & sA & EA & HokA & HwhA & HsentA & HcA);
    [|exact Hcid|exact HM|exact HtA| |].
  { intros [Hk|[]%not_elem_of_empty]%HsentD. congruence. }
  { intros w'. split; [intros []%not_elem_of_empty|].
    intros (_ & trades & e & Hl & He & Hc). rewrite HwhD in Hl. simpl in Hl.
    apply lookup_insert_Some in Hl as [[<- <-]|[_ Hl]];
      [|rewrite lookup_empty in Hl; discriminate].
    apply list_elem_of_singleton in He. subst e.
    rewrite coordinated_with_other_outcome in Hc by congruence.
    discriminate. }
  rewrite dd_append_fresh in HwhA
    by (rewrite HwhD; simpl; rewrite lookup_insert_ne by congruence;
        apply lookup_empty).
  rewrite EA. cbn [result_state]. split.
  { exists alA, sA. split; [reflexivity|]. rewrite HcA.
    rewrite Hmin, int_geb_float_3. rewrite andb_false_r. reflexivity. }
  (* B *)
  destruct (coordinated_step now_iso nowB th sA trB md
              M tB {[trade_wallet trA]} Hvol HokA)
    as (alB & sB & EB & HokB & HwhB & HsentB & HcB);
    [|exact Hcid|exact HM|exact HtB| |].
  { intros [Hk|[Hk|[]%not_elem_of_empty]%HsentD]%HsentA; congruence. }
  { intros w'. rewrite elem_of_singleton, HwhA, HwhD. simpl. split.
    - intros ->. split; [congruence|].
      exists [hist_entry_of now_iso trA md], (hist_entry_of now_iso trA md).
      split; [apply lookup_insert_eq|]. split; [apply list_elem_of_here|].
      rewrite HoB. eapply coordinated_with_match;
        [exact Hcid|exact HoA|exact HtA|lia].
    - intros (_ & trades & e & Hl & He & Hc).
      apply lookup_insert_Some in Hl as [[<- <-]|[_ Hl]]; [reflexivity|].
      apply lookup_insert_Some in Hl as [[<- <-]|[_ Hl]];
        [|rewrite lookup_empty in Hl; discriminate].
      apply list_elem_of_singleton in He. subst e.
      rewrite coordinated_with_other_outcome in Hc by congruence.
      discriminate. }
  rewrite dd_append_fresh in HwhB
    by (rewrite HwhA, HwhD; simpl; rewrite !lookup_insert_ne by congruence;
        apply lookup_empty).
  rewrite EB. cbn [result_state]. split.
  { exists alB, sB. split; [reflexivity|]. rewrite HcB.
    rewrite size_singleton, Hmin, int_geb_float_3, andb_false_r.
    reflexivity. }
  (* C *)
  destruct (coordinated_step now_iso nowC th sB trC md
              M tC ({[trade_wallet trA]} ∪ {[trade_wallet trB]}) Hvol HokB)
    as (alC & sC & EC & _ & _ & _ & HcC);
    [|exact Hcid|exact HM|exact HtC| |].
  { intros [Hk|[Hk|[Hk|[]%not_elem_of_empty]%HsentD]%HsentA]%HsentB;
      congruence. }
  { intros w'. rewrite elem_of_union, !elem_of_singleton, HwhB, HwhA, HwhD.
    simpl. split.
    - intros [-> | ->].
      + split; [congruence|].
        exists [hist_entry_of now_iso trA md], (hist_entry_of now_iso trA md).
        split; [rewrite lookup_insert_ne by congruence;
                apply lookup_insert_eq|].
        split; [apply list_elem_of_here|].
        rewrite HoC. eapply coordinated_with_match;
          [exact Hcid|exact HoA|exact HtA|lia].
      + split; [congruence|].
        exists [hist_entry_of now_iso trB md], (hist_entry_of now_iso trB md).
        split; [apply lookup_insert_eq|]. split; [apply list_elem_of_here|].
        rewrite HoC. eapply coordinated_with_match;
          [exact Hcid|exact HoB|exact HtB|lia].
    - intros (_ & trades & e & Hl & He & Hc).
      apply lookup_insert_Some in Hl as [[<- <-]|[_ Hl]]; [auto|].
      apply lookup_insert_Some in Hl as [[<- <-]|[_ Hl]]; [auto|].
      apply lookup_insert_Some in Hl as [[<- <-]|[_ Hl]];
        [|rewrite lookup_empty in Hl; discriminate].
      apply list_elem_of_singleton in He. subst e.
      rewrite coordinated_with_other_outcome in Hc by congruence.
      discriminate. }
  exists alC, sC. split; [exact EC|]. rewrite HcC.
  rewrite size_union by (apply disjoint_singleton_l;
                         rewrite elem_of_singleton; congruence).
  rewrite !size_singleton, Hmin, int_geb_float_3.
  rewrite HvC. reflexivity.
Qed.

(** C6: from the initial stores, with [coordinated_min_wallets] at 3, let
    wallet D trade another outcome on market M, and then distinct wallets
    A, B and C each trade ["Yes"] on M, pairwise less than 300 seconds
    apart and each for more than [coordinated_min_value]. Every call
    returns; the batches of A and B hold no Coordinated-Entry alert, the
    batch of C holds exactly one: two other wallets match, each counted
    once, and D never does. (The market id is not empty, the four
    timestamps parse, [float()] accepts the sizes, the prices and the
    volume, the four dedup keys differ.) *)
Theorem coordinated_entry_at_third now_iso nowD nowA nowB nowC th md M
    (trD trA trB trC : trade) cD cA cB cC tD tA tB tC :
  convert_trade trD = Some cD → convert_trade trA = Some cA →
  convert_trade trB = Some cB → convert_trade trC = Some cC →
  is_Some (float_of (default (PyInt 0) (volume md))) →
  condition_id md = Some M → M ≠ "" →
  NoDup [trade_wallet trA; trade_wallet trB; trade_wallet trC;
         trade_wallet trD] →
  NoDup [trade_key now_iso trD md; trade_key now_iso trA md;
         trade_key now_iso trB md; trade_key now_iso trC md] →
  trade_outcome trA = "Yes" → trade_outcome trB = "Yes" →
  trade_outcome trC = "Yes" → trade_outcome trD ≠ "Yes" →
  fromisoformat (trade_timestamp now_iso trD) = Some (naive tD) →
  fromisoformat (trade_timestamp now_iso trA) = Some (naive tA) →
  fromisoformat (trade_timestamp now_iso trB) = Some (naive tB) →
  fromisoformat (trade_timestamp now_iso trC) = Some (naive tC) →
  Z.abs (tA - tB) < 300 * us_per_second →
  Z.abs (tA - tC) < 300 * us_per_second →
  Z.abs (tB - tC) < 300 * us_per_second →
  fgtb (trade_value cA) (coordinated_min_value th) = true →
  fgtb (trade_value cB) (coordinated_min_value th) = true →
  fgtb (trade_value cC) (coordinated_min_value th) = true →
  coordinated_min_wallets th = float_of_Z 3 →
  let stD := result_state (analyze_trade now_iso nowD th init_state trD md) in
  let rA := analyze_trade now_iso nowA th stD trA md in
  let rB := analyze_trade now_iso nowB th (result_state rA) trB md in
  let rC := analyze_trade now_iso nowC th (result_state rB) trC md in
  (∃ alerts st', rA = Returned alerts st'
                 ∧ count_type COORDINATED_ENTRY alerts = 0%nat)
  ∧ (∃ alerts st', rB = Returned alerts st'
                   ∧ count_type COORDINATED_ENTRY alerts = 0%nat)
  ∧ (∃ alerts st', rC = Returned alerts st'
                   ∧ count_type COORDINATED_ENTRY alerts = 1%nat).
Proof.
  intros HcD HcA HcB HcC Hvol Hcid HM Hw Hk HoA HoB HoC HoD HtD HtA HtB HtC
    HAB HAC HBC HvA HvB HvC Hmin.
  cbv zeta.
  rewrite (analyze_trade_converted fromisoformat py_float py_sum _ _ _ _ _ _
             cD HcD),
    (analyze_trade_converted fromisoformat py_float py_sum _ _ _ _ _ _
       cA HcA),
    (analyze_trade_converted fromisoformat py_float py_sum _ _ _ _ _ _
       cB HcB),
    (analyze_trade_converted fromisoformat py_float py_sum _ _ _ _ _ _
       cC HcC).
  apply convert_trade_trade in HcD, HcA, HcB, HcC. subst trD trA trB trC.
  exact (coordinated_entry_converted now_iso nowD nowA nowB nowC th md M
           cD cA cB cC tD tA tB tC Hvol Hcid HM Hw Hk HoA HoB HoC HoD
           HtD HtA HtB HtC HAB HAC HBC HvA HvB HvC Hmin).
Qed.

End Coordinated.

(** The scenario evaluated: the alert on C's trade reports three wallets. *)
Example entry_c_flagged :
  ∃ a, result_alerts entry_c = [a]
       ∧ a_type a = COORDINATED_ENTRY
       ∧ a_wallet a = "0xc"
       ∧ a_fields a = CoordinatedFields 3 "Yes" (trade_value (read trade_c)).
Proof. eexists. split; [vm_compute; reflexivity|]. repeat split. Qed.

Lemma coordinated_entry_at_third_witness :
  (∃ alerts st', entry_a = Returned alerts st'
                 ∧ count_type COORDINATED_ENTRY alerts = 0%nat)
  ∧ (∃ alerts st', entry_b = Returned alerts st'
                   ∧ count_type COORDINATED_ENTRY alerts = 0%nat)
  ∧ (∃ alerts st', entry_c = Returned alerts st'
                   ∧ count_type COORDINATED_ENTRY alerts = 1%nat).
Proof.
  apply (coordinated_entry_at_third iso_basic dec_float naive_sum ""
           (clock_of "2024-01-01T12:00:00") (clock_of "2024-01-01T12:00:00")
           (clock_of "2024-01-01T12:00:00") (clock_of "2024-01-01T12:00:00")
           default_thresholds sample_market "0xm1"
           trade_d trade_a trade_b trade_c
           (read trade_d) (read trade_a) (read trade_b) (read trade_c)
           (clock_of "2024-01-01T09:00:00") (clock_of "2024-01-01T09:00:10")
           (clock_of "2024-01-01T09:01:00") (clock_of "2024-01-01T09:02:00")).
  - vm_compute. reflexivity.
  - vm_compute. reflexivity.
  - vm_compute. reflexivity.
  - vm_compute. reflexivity.
  - vm_compute. eauto.
  - reflexivity.
  - discriminate.
  - apply (bool_decide_unpack _). vm_compute. exact I.
  - apply (bool_decide_unpack _). vm_compute. exact I.
  - reflexivity.
  - reflexivity.
  - reflexivity.
  - discriminate.
  - vm_compute. reflexivity.
  - vm_compute. reflexivity.
  - vm_compute. reflexivity.
  - vm_compute. reflexivity.
  - vm_compute. reflexivity.
  - vm_compute. reflexivity.
  - vm_compute. reflexivity.
  - vm_compute. reflexivity.
  - vm_compute. reflexivity.
  - vm_compute. reflexivity.
  - vm_compute. reflexivity.
Defined.


(** * Further properties of the engine *)

(** ** What a sequence of calls keeps *)

Section Sequences.

Variable fromisoformat : string → option datetime.
Variable py_float : string → option float.
Variable py_sum : list float → float.

Abbreviation analyze_converted :=
  (analyze_converted fromisoformat py_float py_sum).
Abbreviation analyze_trade := (analyze_trade fromisoformat py_float py_sum).
Abbreviation convert_trade := (convert_trade py_float).
Abbreviation float_of := (float_of py_float).
Abbreviation mean := (mean py_sum).
Abbreviation unusual_rule := (unusual_rule py_sum).
Abbreviation niche_rule := (niche_rule py_float).
Abbreviation get_wallet_age := (get_wallet_age fromisoformat).
Abbreviation reaches := (reaches fromisoformat py_float py_sum).

(** A call never takes a key out of the ledger. *)
Lemma ledger_grows now_iso now th st (tr : trade) md :
  sent_alerts st
  ⊆ sent_alerts (result_state (analyze_trade now_iso now th st tr md)).
Proof.
  pose proof (analyze_trade_ledger fromisoformat py_float py_sum
                now_iso now th st tr md) as L.
  cbv zeta in L. rewrite L. case_bool_decide; set_solver.
Qed.

Lemma reaches_ledger st st' : reaches st st' → sent_alerts st ⊆ sent_alerts st'.
Proof.
  induction 1 as [|st st' k tr md _ IH]; [reflexivity|].
  etrans; [exact IH|apply ledger_grows].
Qed.


(** A call extends the history and the outcomes of a wallet at their end,
    by at most one entry, and leaves those of the other wallets alone. *)
Lemma call_appends_converted now_iso now th st (tr : converted) md w :
  let st' := result_state (analyze_converted now_iso now th st tr md) in
  (∃ l, dd_get w (wallet_history st') = dd_get w (wallet_history st) ++ l
        ∧ (length l ≤ 1)%nat)
  ∧ (∃ l, dd_get w (wallet_outcomes st') = dd_get w (wallet_outcomes st) ++ l
          ∧ (length l ≤ 1)%nat).
Proof.
  intros st'. subst st'.
  rewrite result_wallet_history, result_wallet_outcomes.
  split.
  - case_bool_decide; [exists []; rewrite app_nil_r; auto|].
    rewrite dd_get_append. case_bool_decide as Hw.
    + subst w. eexists. split; [reflexivity|]. simpl. lia.
    + exists []. rewrite app_nil_r. auto.
  - case_bool_decide; [exists []; rewrite app_nil_r; auto|].
    destruct (get_wallet_age _ _ _); [|exists []; rewrite app_nil_r; auto].
    destruct (float_of _); [|exists []; rewrite app_nil_r; auto].
    rewrite updated_wallet_outcomes, dd_get_append. case_bool_decide as Hw.
    + subst w. eexists. split; [reflexivity|]. simpl. lia.
    + exists []. rewrite app_nil_r. auto.
Qed.

Lemma call_appends now_iso now th st (tr : trade) md w :
  let st' := result_state (analyze_trade now_iso now th st tr md) in
  (∃ l, dd_get w (wallet_history st') = dd_get w (wallet_history st) ++ l
        ∧ (length l ≤ 1)%nat)
  ∧ (∃ l, dd_get w (wallet_outcomes st') = dd_get w (wallet_outcomes st) ++ l
          ∧ (length l ≤ 1)%nat).
Proof.
  destruct (analyze_trade_cases fromisoformat py_float py_sum
              now_iso now th st tr md) as [[_ ->]|(c & _ & _ & ->)].
  - cbn. split; exists []; rewrite app_nil_r; auto.
  - apply call_appends_converted.
Qed.

Lemma reaches_appends st st' w :
  reaches st st' →
  (∃ l, dd_get w (wallet_history st') = dd_get w (wallet_history st) ++ l)
  ∧ (∃ l, dd_get w (wallet_outcomes st')
          = dd_get w (wallet_outcomes st) ++ l).
Proof.
  induction 1 as [|st st' k tr md _ [[lh IHh] [lo IHo]]].
  - split; exists []; rewrite app_nil_r; reflexivity.
  - destruct (call_appends (tick_iso k) (tick_now k) (tick_th k) st' tr md w)
      as [(l1 & E1 & _) (l2 & E2 & _)].
    split.
    + exists (lh ++ l1). rewrite E1, IHh, app_assoc. reflexivity.
    + exists (lo ++ l2). rewrite E2, IHo, app_assoc. reflexivity.
Qed.

(** X2: the wallet histories and the wallet outcomes are append-only:
    whatever calls follow, the entries a wallet has stay, in place and in
    order, at the front of its lists, and no list gets shorter. *)
Theorem wallet_stores_append_only st st' w :
  reaches st st' →
  (∃ l, dd_get w (wallet_history st') = dd_get w (wallet_history st) ++ l)
  ∧ (∃ l, dd_get w (wallet_outcomes st')
          = dd_get w (wallet_outcomes st) ++ l)
  ∧ (length (dd_get w (wallet_history st))
     ≤ length (dd_get w (wallet_history st')))%nat
  ∧ (length (dd_get w (wallet_outcomes st))
     ≤ length (dd_get w (wallet_outcomes st')))%nat.
Proof.
  intros Hr. destruct (reaches_appends st st' w Hr) as [[lh Eh] [lo Eo]].
  split; [eauto|]. split; [eauto|].
  rewrite Eh, Eo, !length_app. lia.
Qed.

(** Once a wallet has a history, [get_wallet_age] always reads the same
    first entry. *)
Lemma reaches_first_entry st st' w e l :
  reaches st st' →
  wallet_history st !! w = Some (e :: l) →
  ∃ l', wallet_history st' !! w = Some (e :: l').
Proof.
  intros Hr Hl.
  destruct (reaches_appends st st' w Hr) as [[l' E] _].
  unfold dd_get in E. rewrite Hl in E. simpl in E.
  destruct (wallet_history st' !! w) as [l2|]; simpl in E; [|discriminate].
  subst l2. eauto.
Qed.

(** X3: the age of a wallet is always measured from its first recorded
    trade: whatever calls follow, [get_wallet_age] answers for a known
    wallet what it answered before, at the same clock reading. *)
Theorem wallet_age_reference_fixed st st' w e l now :
  reaches st st' →
  wallet_history st !! w = Some (e :: l) →
  get_wallet_age now st' w = get_wallet_age now st w.
Proof.
  intros Hr Hl. destruct (reaches_first_entry st st' w e l Hr Hl) as [l' Hl'].
  unfold get_wallet_age. rewrite Hl, Hl'. reflexivity.
Qed.

(** X4: a wallet whose first recorded timestamp cannot be read, or is
    timezone-aware while the clock is naive, is lost to the engine: every
    later call on a trade of that wallet, whatever its own timestamp, lets
    an exception escape and yields no alert: at once and with every store
    untouched when [float()] rejects its size or its price, and otherwise
    after the trade was recorded in the history and in the price window,
    with the size windows, the outcomes and the ledger untouched. *)
Theorem unreadable_first_timestamp_blocks_wallet st st' e l now_iso now th
    (tr : trade) md :
  reaches st st' →
  wallet_history st !! trade_wallet tr = Some (e :: l) →
  fromisoformat (h_timestamp e) = None
  ∨ (∃ d, fromisoformat (h_timestamp e) = Some d ∧ dt_aware d = true) →
  trade_key now_iso tr md ∉ sent_alerts st' →
  match convert_trade tr with
  | Some c =>
      analyze_trade now_iso now th st' tr md
      = Raised (recorded now_iso c md st')
      ∧ market_volumes (recorded now_iso c md st') = market_volumes st'
      ∧ wallet_outcomes (recorded now_iso c md st') = wallet_outcomes st'
      ∧ sent_alerts (recorded now_iso c md st') = sent_alerts st'
  | None => analyze_trade now_iso now th st' tr md = Raised st'
  end.
Proof.
  intros Hr Hl Hbad Hout.
  destruct (reaches_first_entry st st' _ e l Hr Hl) as [l' Hl'].
  unfold analyze_trade.
  destruct (convert_trade tr) as [c|] eqn:Hc; [|reflexivity].
  pose proof (convert_trade_trade py_float tr c Hc) as Ht. subst tr.
  split; [|split; [apply recorded_market_volumes|
                   split; [apply recorded_wallet_outcomes|
                           apply recorded_sent_alerts]]].
  unfold analyze_converted.
  rewrite bool_decide_eq_false_2 by exact Hout.
  assert (Hage : get_wallet_age now (recorded now_iso c md st')
                   (trade_wallet c) = None).
  { unfold get_wallet_age. rewrite recorded_wallet_history.
    unfold dd_append. rewrite lookup_insert_eq, Hl'. simpl.
    destruct Hbad as [->|(d & -> & Hd)]; [reflexivity|].
    cbn [mbind option_bind]. unfold dt_sub. simpl. rewrite Hd. reflexivity. }
  rewrite Hage. reflexivity.
Qed.

End Sequences.

(** ** The dedup key *)

Lemma append_sep_inj (s1 s2 r1 r2 : string) :
  has_underscore s1 = false → has_underscore s2 = false →
  s1 +:+ "_" +:+ r1 = s2 +:+ "_" +:+ r2 →
  s1 = s2 ∧ r1 = r2.
Proof.
  revert s2. induction s1 as [|c s1 IH]; intros [|c' s2] H1 H2 E;
    cbn in *.
  - injection E as E. auto.
  - injection E as <- _. apply orb_false_iff in H2 as [H2 _].
    discriminate.
  - injection E as -> _. apply orb_false_iff in H1 as [H1 _].
    discriminate.
  - injection E as -> E. apply orb_false_iff in H1 as [_ H1].
    apply orb_false_iff in H2 as [_ H2].
    destruct (IH s2 H1 H2 E) as [-> ->]. auto.
Qed.

(** X5: for wallets and printed condition ids without an underscore, the
    dedup key determines the wallet, the printed condition id and the
    timestamp: two trades share a key only if all three agree. (An absent
    id and the id [None] print alike.) *)
Theorem alert_key_injective w1 w2 c1 c2 t1 t2 :
  has_underscore w1 = false → has_underscore w2 = false →
  has_underscore (fmt_opt c1) = false → has_underscore (fmt_opt c2) = false →
  make_alert_key w1 c1 t1 = make_alert_key w2 c2 t2 →
  w1 = w2 ∧ fmt_opt c1 = fmt_opt c2 ∧ t1 = t2.
Proof.
  intros Hw1 Hw2 Hc1 Hc2 E. unfold make_alert_key in E.
  destruct (append_sep_inj _ _ _ _ Hw1 Hw2 E) as [-> E'].
  destruct (append_sep_inj _ _ _ _ Hc1 Hc2 E') as [-> ->]. auto.
Qed.


(** ** The rules, as conditions on the stores before the call *)

Section RuleConditions.

Variable fromisoformat : string → option datetime.
Variable py_float : string → option float.
Variable py_sum : list float → float.

Abbreviation analyze_converted :=
  (analyze_converted fromisoformat py_float py_sum).
Abbreviation analyze_trade := (analyze_trade fromisoformat py_float py_sum).
Abbreviation convert_trade := (convert_trade py_float).
Abbreviation float_of := (float_of py_float).
Abbreviation mean := (mean py_sum).
Abbreviation unusual_rule := (unusual_rule py_sum).
Abbreviation niche_rule := (niche_rule py_float).
Abbreviation get_wallet_age := (get_wallet_age fromisoformat).
Abbreviation coordinated_with := (coordinated_with fromisoformat).










End RuleConditions.


(** * Rendering and scanning *)

(** ** Which alerts can be rendered *)

Section RenderingProperties.

Variable fromisoformat : string → option datetime.
Variable py_float : string → option float.
Variable py_sum : list float → float.
Variable fmt_float : nat → float → string.

Abbreviation analyze_converted :=
  (analyze_converted fromisoformat py_float py_sum).
Abbreviation analyze_trade := (analyze_trade fromisoformat py_float py_sum).
Abbreviation convert_trade := (convert_trade py_float).
Abbreviation float_of := (float_of py_float).
Abbreviation mean := (mean py_sum).
Abbreviation unusual_rule := (unusual_rule py_sum).
Abbreviation niche_rule := (niche_rule py_float).
Abbreviation format_alert := (format_alert fmt_float).
Abbreviation send_alerts := (send_alerts fmt_float).
Abbreviation scan_trades := (scan_trades fromisoformat py_float py_sum).
Abbreviation scan_feed := (scan_feed fromisoformat py_float py_sum).
Abbreviation scan_markets :=
  (scan_markets fromisoformat py_float py_sum fmt_float).
Abbreviation reaches := (reaches fromisoformat py_float py_sum).

(** Rendering fails on the alerts of the conviction rule and on a mean of
    zero, and on no other alert with the fields of its type. *)
Lemma format_alert_None (a : alert) :
  alert_wf a = true →
  format_alert a = None ↔
  a_type a = HIGH_WIN_RATE_TRADER ∨ zero_mean a = true.
Proof.
  destruct a as [ty w f m k]. unfold alert_wf, format_alert, zero_mean,
    alert_market, float_div. simpl.
  destruct ty, f; try discriminate; intros _; cbn [mbind option_bind].
  - split; [discriminate|]. intros [?|?]; discriminate.
  - destruct (is_zero avg_size); cbn [mbind option_bind].
    + split; auto.
    + split; [discriminate|]. intros [?|?]; discriminate.
  - split; [discriminate|]. intros [?|?]; discriminate.
  - split; auto.
  - split; [discriminate|]. intros [?|?]; discriminate.
  - split; [discriminate|]. intros [?|?]; discriminate.
Qed.

(** The rules build their alerts with the fields of their type. *)
Lemma analyze_converted_wf now_iso now th st (tr : converted) md :
  Forall (λ a, alert_wf a = true)
    (result_alerts (analyze_converted now_iso now th st tr md)).
Proof.
  destruct (decide (trade_key now_iso tr md ∈ sent_alerts st)) as [Hin|Hout].
  { rewrite analyze_converted_seen by exact Hin. constructor. }
  destruct (analyze_converted now_iso now th st tr md)
    as [alerts st'|st'] eqn:E; [|constructor].
  destruct (analyze_converted_returned fromisoformat py_float py_sum
              _ _ _ _ _ _ _ _ Hout E)
    as (age & a3 & a5 & a6 & _ & H3 & H5 & H6 & -> & _).
  simpl. repeat rewrite Forall_app. repeat split.
  - unfold fresh_rule. repeat case_match; repeat constructor.
  - unfold unusual_rule. repeat case_match; repeat constructor.
  - unfold niche_rule in H3. option_cases H3;
      injection H3 as <-; repeat constructor.
  - unfold conviction_rule. repeat case_match; repeat constructor.
  - unfold pre_move_rule in H5. option_cases H5;
      injection H5 as <-; repeat constructor.
  - unfold coordinated_rule in H6. option_cases H6;
      injection H6 as <-; repeat constructor.
Qed.

Lemma analyze_trade_wf now_iso now th st (tr : trade) md :
  Forall (λ a, alert_wf a = true)
    (result_alerts (analyze_trade now_iso now th st tr md)).
Proof.
  destruct (analyze_trade_cases fromisoformat py_float py_sum
              now_iso now th st tr md) as [[_ ->]|(c & _ & _ & ->)];
    [constructor|apply analyze_converted_wf].
Qed.

(** X10: of the alerts [analyze_trade] returns, [format_alert] fails on
    exactly two kinds: every High-Win-Rate alert (its dict has the market
    under [current_market], and [alert['market']] raises [KeyError]), and
    an Unusual-Size alert whose reported mean is zero (the multiplier
    divides by it). Every other alert is rendered. *)
Theorem format_alert_fails_iff now_iso now th st (tr : trade) md a :
  a ∈ result_alerts (analyze_trade now_iso now th st tr md) →
  format_alert a = None ↔
  a_type a = HIGH_WIN_RATE_TRADER ∨ zero_mean a = true.
Proof.
  intros Hin. apply format_alert_None.
  pose proof (analyze_trade_wf now_iso now th st tr md) as Hwf.
  rewrite Forall_forall in Hwf. apply Hwf. exact Hin.
Qed.

(** ** What a scan leaves behind *)

(** The alerts of a call are in the ledger once the call is over. *)
Lemma analyze_trade_marks now_iso now th st (tr : trade) md :
  Forall (λ a, a_key a
               ∈ sent_alerts
                   (result_state (analyze_trade now_iso now th st tr md)))
    (result_alerts (analyze_trade now_iso now th st tr md)).
Proof.
  pose proof (analyze_trade_keys fromisoformat py_float py_sum
                now_iso now th st tr md) as Hk.
  pose proof (analyze_trade_ledger fromisoformat py_float py_sum
                now_iso now th st tr md) as L. simpl in L.
  destruct (result_alerts _) as [|a l] eqn:El; [constructor|].
  rewrite bool_decide_eq_false_2 in L by discriminate.
  eapply Forall_impl; [exact Hk|]. intros b ->. rewrite L. set_solver.
Qed.

Lemma found_ok_reaches st st' found :
  reaches st st' → found_ok st found → found_ok st' found.
Proof.
  intros Hr Hf. eapply Forall_impl; [exact Hf|].
  intros a [Hk Hwf]. split; [|exact Hwf].
  apply (reaches_ledger fromisoformat py_float py_sum st st' Hr). exact Hk.
Qed.

Lemma reaches_trans st1 st2 st3 :
  reaches st1 st2 → reaches st2 st3 → reaches st1 st3.
Proof.
  intros H12 H23. induction H23 as [|st2 st3 k tr md _ IH]; [exact H12|].
  constructor. apply IH. exact H12.
Qed.

Lemma scan_trades_spec md trades st found :
  found_ok st found →
  ∃ st' more ok,
    scan_trades md trades st found = (st', found ++ more, ok)
    ∧ reaches st st' ∧ found_ok st' (found ++ more).
Proof.
  revert st found. induction trades as [|[k tr] trades IH]; intros st found Hf.
  - exists st, [], true. rewrite app_nil_r. simpl.
    split; [reflexivity|]. split; [constructor|exact Hf].
  - simpl.
    pose proof (analyze_trade_marks (tick_iso k) (tick_now k) (tick_th k)
                  st tr md) as Hm.
    pose proof (analyze_trade_wf (tick_iso k) (tick_now k) (tick_th k)
                  st tr md) as Hw.
    assert (Hr : reaches st
                   (result_state
                      (analyze_trade (tick_iso k) (tick_now k) (tick_th k)
                         st tr md)))
      by (constructor; constructor).
    destruct (analyze_trade _ _ _ st tr md) as [alerts st1|st1] eqn:E;
      cbn [result_state result_alerts] in *.
    + destruct (IH st1 (found ++ alerts)) as (st' & more & ok & Es & Hr' & Hf').
      { apply Forall_app. split; [exact (found_ok_reaches _ _ _ Hr Hf)|].
        apply Forall_forall. intros a Ha. rewrite Forall_forall in Hm, Hw.
        auto. }
      exists st', (alerts ++ more), ok. rewrite app_assoc.
      split; [exact Es|]. split; [exact (reaches_trans _ _ _ Hr Hr')|exact Hf'].
    + exists st1, [], false. rewrite app_nil_r.
      split; [reflexivity|]. split; [exact Hr|].
      exact (found_ok_reaches _ _ _ Hr Hf).
Qed.

Lemma scan_feed_spec markets st found :
  found_ok st found →
  ∃ st' more ok,
    scan_feed markets st found = (st', found ++ more, ok)
    ∧ reaches st st' ∧ found_ok st' (found ++ more).
Proof.
  revert st found.
  induction markets as [|[md trades] markets IH]; intros st found Hf.
  - exists st, [], true. rewrite app_nil_r. simpl.
    split; [reflexivity|]. split; [constructor|exact Hf].
  - simpl. destruct (truthy_id (condition_id md)); [|apply IH; exact Hf].
    destruct (scan_trades_spec md trades st found Hf)
      as (st1 & more1 & ok1 & E1 & Hr1 & Hf1).
    rewrite E1. destruct ok1.
    + destruct (IH st1 (found ++ more1) Hf1)
        as (st' & more & ok & Es & Hr' & Hf').
      exists st', (more1 ++ more), ok. rewrite app_assoc.
      split; [exact Es|].
      split; [exact (reaches_trans _ _ _ Hr1 Hr')|exact Hf'].
    + exists st1, more1, false. auto.
Qed.

(** The messages sent are the renderings of the alerts up to the first one
    that cannot be rendered. *)
Lemma send_alerts_spec alerts :
  ∃ sent ok,
    send_alerts alerts = (sent, ok)
    ∧ (length sent ≤ length alerts)%nat
    ∧ (ok = true → length sent = length alerts)
    ∧ (∀ i a, alerts !! i = Some a → format_alert a = None →
              ok = false ∧ (length sent ≤ i)%nat)
    ∧ (∀ i m, sent !! i = Some m →
              ∃ a, alerts !! i = Some a ∧ format_alert a = Some m).
Proof.
  induction alerts as [|a alerts (sent & ok & E & Hlen & Hok & Hbad & Hsent)].
  - exists [], true. simpl.
    split; [reflexivity|]. split; [lia|]. split; [reflexivity|].
    split; intros ? ? ?; discriminate.
  - simpl. destruct (format_alert a) as [m|] eqn:Ea.
    + rewrite E. exists (m :: sent), ok. simpl.
      split; [reflexivity|]. split; [lia|]. split; [auto|]. split.
      * intros [|i] b Hb Hn; simpl in Hb.
        -- injection Hb as <-. congruence.
        -- destruct (Hbad i b Hb Hn). split; [assumption|lia].
      * intros [|i] m' Hm'; simpl in Hm'.
        -- injection Hm' as <-. exists a. auto.
        -- apply Hsent. exact Hm'.
    + exists [], false. simpl.
      split; [reflexivity|]. split; [lia|]. split; [discriminate|]. split.
      * intros i b _ _. split; [reflexivity|lia].
      * intros i m' Hm'. discriminate.
Qed.

(** X11: however a scan ends, its stores are reached from the ones it
    started with by calls of [analyze_trade]; every alert it found is
    marked in the ledger, so a later delivery of a trade under its key
    yields no alert and leaves the stores as they are, and returns the
    empty batch when [float()] accepts the trade's size and price; at most
    one message per alert was sent, in order, each the rendering of its
    alert; and if the scan returned, every alert found was sent. *)
Theorem scan_marks_what_it_finds paused markets st :
  let o := scan_markets paused markets st in
  reaches st (scan_state o)
  ∧ Forall (λ a, a_key a ∈ sent_alerts (scan_state o)) (scan_found o)
  ∧ (∀ a now_iso now th (tr : trade) md,
       a ∈ scan_found o → trade_key now_iso tr md = a_key a →
       let r := analyze_trade now_iso now th (scan_state o) tr md in
       result_alerts r = [] ∧ result_state r = scan_state o
       ∧ (is_Some (convert_trade tr) → r = Returned [] (scan_state o)))
  ∧ (∀ i m, scan_sent o !! i = Some m →
            ∃ a, scan_found o !! i = Some a ∧ format_alert a = Some m)
  ∧ (scan_returned o = true →
     length (scan_sent o) = length (scan_found o)).
Proof.
  intros o.
  assert (H : reaches st (scan_state o)
              ∧ found_ok (scan_state o) (scan_found o)
              ∧ (∀ i m, scan_sent o !! i = Some m →
                        ∃ a, scan_found o !! i = Some a
                             ∧ format_alert a = Some m)
              ∧ (scan_returned o = true →
                 length (scan_sent o) = length (scan_found o))).
  { subst o. unfold scan_markets. destruct paused.
    { simpl. split; [constructor|]. split; [constructor|].
      split; [intros i m Hm; discriminate|reflexivity]. }
    destruct (scan_feed_spec markets st [])
      as (st' & more & ok & E & Hr & Hf); [constructor|].
    rewrite E. simpl in *. destruct ok.
    - destruct (send_alerts_spec more)
        as (sent & ok & Es & _ & Hok & _ & Hsent).
      rewrite Es. simpl. auto.
    - simpl. split; [exact Hr|]. split; [exact Hf|].
      split; [intros i m Hm; discriminate|discriminate]. }
  destruct H as (Hr & Hf & Hsent & Hlen).
  split; [exact Hr|]. split; [|split; [|split; assumption]].
  - eapply Forall_impl; [exact Hf|]. intros a [Hk _]. exact Hk.
  - intros a now_iso now th tr md Ha Hk r.
    unfold found_ok in Hf. rewrite Forall_forall in Hf.
    destruct (Hf a Ha) as [Hin _]. rewrite <- Hk in Hin.
    destruct (analyze_trade_seen_noop fromisoformat py_float py_sum
                now_iso now th (scan_state o) tr md Hin) as [Ha' Hs'].
    split; [exact Ha'|]. split; [exact Hs'|].
    intros [c Hc].
    exact (analyze_trade_seen fromisoformat py_float py_sum
             now_iso now th (scan_state o) tr md c Hc Hin).
Qed.

(** X12: an alert that cannot be rendered stops the delivery of its batch:
    if the alerts found by a scan hold, at position [i], a High-Win-Rate
    alert or an Unusual-Size alert with a zero mean, the scan does not
    return, and that alert and all the alerts found after it are marked in
    the ledger without having been sent. *)
Theorem unrenderable_alert_blocks_batch markets st i a :
  let o := scan_markets false markets st in
  scan_found o !! i = Some a →
  a_type a = HIGH_WIN_RATE_TRADER ∨ zero_mean a = true →
  scan_returned o = false
  ∧ (length (scan_sent o) ≤ i)%nat
  ∧ ∀ j b, (i ≤ j)%nat → scan_found o !! j = Some b →
           a_key b ∈ sent_alerts (scan_state o) ∧ scan_sent o !! j = None.
Proof.
  intros o Hi Hbad.
  assert (Hkeys : found_ok (scan_state o) (scan_found o)
                  ∧ scan_returned o = false
                  ∧ (length (scan_sent o) ≤ i)%nat).
  { subst o. unfold scan_markets in *.
    destruct (scan_feed_spec markets st [])
      as (st' & more & ok & E & Hr & Hf); [constructor|].
    rewrite E in *. simpl in *. destruct ok; simpl in *.
    - destruct (send_alerts_spec more)
        as (sent & ok & Es & _ & _ & Hb & _).
      rewrite Es in *. simpl in *. split; [exact Hf|].
      apply (Hb i a Hi).
      apply format_alert_None; [|exact Hbad].
      unfold found_ok in Hf. rewrite Forall_forall in Hf.
      apply (Hf a). apply list_elem_of_lookup. eauto.
    - split; [exact Hf|]. split; [reflexivity|lia]. }
  destruct Hkeys as (Hf & Hret & Hlen).
  split; [exact Hret|]. split; [exact Hlen|].
  intros j b Hj Hb. split.
  - unfold found_ok in Hf. rewrite Forall_forall in Hf.
    apply (Hf b). apply list_elem_of_lookup. eauto.
  - apply lookup_ge_None. lia.
Qed.

(** X13: a scan passes over the markets whose metadata has no condition id
    (or an empty one): it ends as the scan of the other markets alone, so
    no trade of such a market reaches [analyze_trade] through a scan. *)
Theorem scan_skips_markets_without_id paused markets st :
  scan_markets paused markets st
  = scan_markets paused
      (List.filter (λ m, bool_decide (is_Some (truthy_id (condition_id m.1))))
         markets) st.
Proof.
  unfold scan_markets. destruct paused; [reflexivity|].
  assert (H : ∀ found st0,
    scan_feed markets st0 found
    = scan_feed
        (List.filter
           (λ m, bool_decide (is_Some (truthy_id (condition_id m.1))))
           markets) st0 found).
  { induction markets as [|[md trades] markets IH]; intros found st0;
      [reflexivity|].
    simpl. destruct (truthy_id (condition_id md)) as [mid|] eqn:Hm.
    - rewrite bool_decide_eq_true_2 by eauto. simpl. rewrite Hm.
      destruct (scan_trades md trades st0 found) as [[st1 f1] [|]];
        [apply IH|reflexivity].
    - rewrite bool_decide_eq_false_2 by (intros [? [=]]). apply IH. }
  rewrite H. reflexivity.
Qed.

End RenderingProperties.


(** * Commands and the listener *)

Lemma interval_prefix_inv (text : string) :
  String.prefix "/interval" text = true → ∃ rest, text = "/interval" +:+ rest.
Proof.
  intros H. apply prefix_correct in H. simpl in H.
  destruct text as [|c1 [|c2 [|c3 [|c4 [|c5 [|c6 [|c7 [|c8 [|c9 rest]]]]]]]]];
    try discriminate.
  injection H as -> -> -> -> -> -> -> -> -> _. exists rest. reflexivity.
Qed.

Lemma default_last_cons (z x : Z) (l : list Z) :
  default z (last (x :: l)) = default x (last l).
Proof.
  destruct l as [|y l]; [reflexivity|].
  change (last (x :: y :: l)) with (last (y :: l)).
  destruct (last (y :: l)) as [v|] eqn:E; [reflexivity|].
  apply last_None in E. discriminate.
Qed.

Section ListenerProperties.

Variable py_strip : string → string.
Variable py_split : string → list string.
Variable py_float : string → option float.
Variable py_isdigit : string → bool.
Variable py_int : string → option Z.
Variable chat_id : option Z.

Abbreviation process_command :=
  (process_command py_strip py_split py_float py_isdigit py_int).
Abbreviation handle_updates :=
  (handle_updates py_strip py_split py_float py_isdigit py_int chat_id).

(** The [/interval] branch, once reached. *)
Lemma process_command_interval (msg : option string) (c : config) :
  String.prefix "/interval" (py_strip (default "" msg)) = true →
  process_command msg c
  = match py_split (py_strip (default "" msg)) with
    | [_; arg] =>
        if py_isdigit arg then
          new_interval ← py_int arg;
          if (10 <=? new_interval) && (new_interval <=? 600) then
            Some ({| is_paused := is_paused c; scan_interval := new_interval;
                     bot_thresholds := bot_thresholds c |},
                  Some (IntervalSet new_interval))
          else Some (c, Some IntervalOutOfRange)
        else Some (c, Some (IntervalUsage (scan_interval c)))
    | _ => Some (c, Some (IntervalUsage (scan_interval c)))
    end.
Proof.
  intros H. unfold process_command. rewrite H.
  destruct (interval_prefix_inv _ H) as [rest ->]. reflexivity.
Qed.

(** X14: the reply tells what a command changed. A command that returns
    has changed the pause flag only if it answered that monitoring is
    paused or resumed, the scan interval only if it answered with the new
    interval, which then lies between 10 and 600, and a threshold only if
    it answered with the parameter and its value; after any other reply,
    or none, the configuration is as it was. *)
Theorem reply_tells_the_change (msg : option string) (c c' : config)
    (r : option reply) :
  process_command msg c = Some (c', r) →
  match r with
  | Some PausedText =>
      c' = {| is_paused := true; scan_interval := scan_interval c;
              bot_thresholds := bot_thresholds c |}
  | Some ResumedText =>
      c' = {| is_paused := false; scan_interval := scan_interval c;
              bot_thresholds := bot_thresholds c |}
  | Some (IntervalSet n) =>
      c' = {| is_paused := is_paused c; scan_interval := n;
              bot_thresholds := bot_thresholds c |}
      ∧ 10 ≤ n ≤ 600
  | Some (SetOk param value) =>
      c' = {| is_paused := is_paused c; scan_interval := scan_interval c;
              bot_thresholds :=
                set_threshold param value (bot_thresholds c) |}
      ∧ known_param param = true
  | _ => c' = c
  end.
Proof.
  unfold process_command. intros H.
  option_cases H; injection H as <- <-; try reflexivity.
  - split; [reflexivity|].
    match goal with
    | Hb : (_ <=? _) && (_ <=? _) = true |- _ =>
        apply andb_true_iff in Hb as [?%Z.leb_le ?%Z.leb_le]
    end. lia.
  - split; [reflexivity|assumption].
Qed.

(** X15: a command lets an exception escape in one case only: a text that
    starts with [/interval], splits in two words, and whose second word
    [isdigit] accepts and [int] rejects. *)
Theorem process_command_raises_iff (msg : option string) (c : config) :
  process_command msg c = None ↔
  String.prefix "/interval" (py_strip (default "" msg)) = true
  ∧ ∃ cmd arg,
      py_split (py_strip (default "" msg)) = [cmd; arg]
      ∧ py_isdigit arg = true ∧ py_int arg = None.
Proof.
  split.
  - unfold process_command. intros H.
    repeat match type of H with
           | context [if ?b then _ else _] =>
               destruct b eqn:?; try discriminate H
           | context [match ?x with _ => _ end] =>
               destruct x eqn:?; try discriminate H
           end.
    all: try (cbn [mbind option_bind] in H; discriminate H).
    split; [reflexivity|]. do 2 eexists. split; [reflexivity|].
    split; [assumption|].
    destruct (py_int _) as [n|]; [|reflexivity].
    cbn [mbind option_bind] in H. destruct (_ && _) in H; discriminate H.
  - intros (Hp & cmd & arg & Hs & Hd & Hi).
    rewrite process_command_interval by exact Hp.
    rewrite Hs, Hd, Hi. reflexivity.
Qed.

(** The scan interval after a command. *)
Lemma process_command_interval_range msg c c' r :
  process_command msg c = Some (c', r) →
  10 ≤ scan_interval c ≤ 600 → 10 ≤ scan_interval c' ≤ 600.
Proof.
  unfold process_command. intros H Hc.
  option_cases H; injection H as <- <-; try exact Hc.
  simpl.
  match goal with
  | Hb : (_ <=? _) && (_ <=? _) = true |- _ =>
      apply andb_true_iff in Hb as [?%Z.leb_le ?%Z.leb_le]
  end. lia.
Qed.

(** What a batch of updates does, one update at a time. *)
Lemma handle_updates_cons u updates l replies :
  handle_updates (u :: updates) l replies
  = let l1 := {| last_update_id := update_id u;
                 listener_config := listener_config l |} in
    match upd_message u with
    | None => handle_updates updates l1 replies
    | Some m =>
        match chat_id with
        | None => (l1, replies, false)
        | Some cid =>
            if bool_decide (msg_chat m = Some cid) then
              match process_command (msg_text m) (listener_config l) with
              | Some (c', r) =>
                  handle_updates updates
                    {| last_update_id := update_id u;
                       listener_config := c' |}
                    (replies ++ from_option (λ x, [x]) [] r)
              | None => (l1, replies, false)
              end
            else handle_updates updates l1 replies
        end
    end.
Proof. reflexivity. Qed.

Lemma handle_updates_cons_chat cid u updates l replies :
  chat_id = Some cid →
  handle_updates (u :: updates) l replies
  = let l1 := {| last_update_id := update_id u;
                 listener_config := listener_config l |} in
    match upd_message u with
    | None => handle_updates updates l1 replies
    | Some m =>
        if bool_decide (msg_chat m = Some cid) then
          match process_command (msg_text m) (listener_config l) with
          | Some (c', r) =>
              handle_updates updates
                {| last_update_id := update_id u; listener_config := c' |}
                (replies ++ from_option (λ x, [x]) [] r)
          | None => (l1, replies, false)
          end
        else handle_updates updates l1 replies
    end.
Proof.
  intros H. rewrite handle_updates_cons. cbn zeta.
  destruct (upd_message u); [|reflexivity]. rewrite H. reflexivity.
Qed.

(** X16: the scan interval never leaves the range the [/interval] command
    checks: if it lies between 10 and 600 (it starts at 60), it still does
    after any batch of updates, whether the batch was handled to its end
    or cut short by an exception. *)
Theorem scan_interval_stays_in_range updates l replies :
  10 ≤ scan_interval (listener_config l) ≤ 600 →
  10 ≤ scan_interval (listener_config (handle_updates updates l replies).1.1)
     ≤ 600.
Proof.
  revert l replies. induction updates as [|u updates IH]; intros l replies Hl;
    [exact Hl|].
  rewrite handle_updates_cons. cbn zeta.
  destruct (upd_message u) as [m|]; [|apply IH; exact Hl].
  destruct chat_id as [cid|]; [|exact Hl].
  case_bool_decide; [|apply IH; exact Hl].
  destruct (process_command (msg_text m) (listener_config l))
    as [[c' r]|] eqn:E; [|exact Hl].
  apply IH. simpl. eapply process_command_interval_range; eassumption.
Qed.

(** X17: only the configured chat commands the bot: a batch in which no
    message comes from that chat is handled to its end, changes nothing of
    the configuration and sends no reply; only the id of the last update
    is recorded. *)
Theorem foreign_chats_are_ignored cid updates l replies :
  chat_id = Some cid →
  Forall (λ u, ∀ m, upd_message u = Some m → msg_chat m ≠ Some cid) updates →
  handle_updates updates l replies
  = ({| last_update_id :=
          default (last_update_id l) (last (update_id <$> updates));
        listener_config := listener_config l |}, replies, true).
Proof.
  intros Hcid Hall. revert l.
  induction Hall as [|u updates Hu _ IH]; intros l.
  - destruct l. reflexivity.
  - rewrite (handle_updates_cons_chat cid) by exact Hcid. cbn zeta.
    rewrite fmap_cons, default_last_cons.
    destruct (upd_message u) as [m|] eqn:Em; [|rewrite IH; reflexivity].
    rewrite bool_decide_eq_false_2 by (apply Hu; reflexivity).
    rewrite IH. reflexivity.
Qed.

Lemma handle_updates_cons_nochat u updates l replies :
  chat_id = None →
  handle_updates (u :: updates) l replies
  = let l1 := {| last_update_id := update_id u;
                 listener_config := listener_config l |} in
    match upd_message u with
    | None => handle_updates updates l1 replies
    | Some m => (l1, replies, false)
    end.
Proof.
  intros H. rewrite handle_updates_cons. cbn zeta.
  destruct (upd_message u); [|reflexivity]. rewrite H. reflexivity.
Qed.

(** One update either is handled, and the batch goes on from the listener
    it leaves, or raises, and the batch ends there. *)
Lemma handle_updates_step u l replies :
  (∃ l1 rs,
     last_update_id l1 = update_id u
     ∧ ∀ updates, handle_updates (u :: updates) l replies
                  = handle_updates updates l1 rs)
  ∨ (is_Some (upd_message u)
     ∧ ∀ updates, handle_updates (u :: updates) l replies
                  = ({| last_update_id := update_id u;
                        listener_config := listener_config l |},
                     replies, false)).
Proof.
  assert (Hc : chat_id = None ∨ ∃ cid, chat_id = Some cid)
    by (destruct chat_id; eauto).
  destruct (upd_message u) as [m|] eqn:Em.
  - destruct Hc as [Ec|[cid Ec]].
    + right. split; [eauto|]. intros updates.
      rewrite handle_updates_cons_nochat by exact Ec. cbn zeta.
      rewrite Em. reflexivity.
    + destruct (bool_decide (msg_chat m = Some cid)) eqn:Eb.
      * destruct (process_command (msg_text m) (listener_config l))
          as [[c' r]|] eqn:Ep.
        -- left. do 2 eexists. split; [|intros updates].
           2:{ rewrite (handle_updates_cons_chat cid) by exact Ec. cbn zeta.
               rewrite Em, Eb, Ep. reflexivity. }
           reflexivity.
        -- right. split; [eauto|]. intros updates.
           rewrite (handle_updates_cons_chat cid) by exact Ec. cbn zeta.
           rewrite Em, Eb, Ep. reflexivity.
      * left. do 2 eexists. split; [|intros updates].
        2:{ rewrite (handle_updates_cons_chat cid) by exact Ec. cbn zeta.
            rewrite Em, Eb. reflexivity. }
        reflexivity.
  - left. do 2 eexists. split; [|intros updates].
    2:{ rewrite handle_updates_cons. cbn zeta. rewrite Em. reflexivity. }
    reflexivity.
Qed.

(** X18: after a batch handled to its end, the listener holds the id of
    the last update, so the next poll asks for later updates only; a batch
    cut short by an exception stops at the update that raised, whose id
    is recorded: that update is not polled again, the updates before it
    were handled as in a complete batch, and no reply was sent for it. *)
Theorem last_update_id_after_batch updates l replies l' replies' ok :
  handle_updates updates l replies = (l', replies', ok) →
  (ok = true →
   last_update_id l'
   = default (last_update_id l) (last (update_id <$> updates)))
  ∧ (ok = false →
     ∃ before u after l1,
       updates = before ++ u :: after
       ∧ handle_updates before l replies = (l1, replies', true)
       ∧ l' = {| last_update_id := update_id u;
                 listener_config := listener_config l1 |}
       ∧ is_Some (upd_message u)).
Proof.
  revert l replies. induction updates as [|u updates IH]; intros l replies H.
  - simpl in H. injection H as <- <- <-. split; [reflexivity|discriminate].
  - destruct (handle_updates_step u l replies)
      as [(l1 & rs & Hid & Hgo)|[Hm Hstop]].
    + rewrite Hgo in H. destruct (IH l1 rs H) as [Hok Hbad]. split.
      * intros Hk. rewrite fmap_cons, default_last_cons, (Hok Hk), Hid.
        reflexivity.
      * intros Hk.
        destruct (Hbad Hk) as (before & u0 & after & l2 & -> & Hb & -> & Hm).
        exists (u :: before), u0, after, l2. split; [reflexivity|].
        split; [|auto]. rewrite Hgo. exact Hb.
    + rewrite Hstop in H. injection H as <- <- <-.
      split; [discriminate|]. intros _.
      exists [], u, updates, l. repeat split; auto.
Qed.

(** What every command of a batch keeps, the batch keeps. *)
Lemma handle_updates_invariant (P : config → Prop) (Q : message → Prop)
    updates l replies :
  (∀ m c c' r, Q m → P c →
               process_command (msg_text m) c = Some (c', r) → P c') →
  Forall (λ u, ∀ m, upd_message u = Some m → Q m) updates →
  P (listener_config l) →
  P (listener_config (handle_updates updates l replies).1.1).
Proof.
  intros Hstep Hall. revert l replies.
  induction Hall as [|u updates Hu _ IH]; intros l replies Hl; [exact Hl|].
  rewrite handle_updates_cons. cbn zeta.
  destruct (upd_message u) as [m|] eqn:Em; [|apply IH; exact Hl].
  destruct chat_id as [cid|]; [|exact Hl].
  case_bool_decide; [|apply IH; exact Hl].
  destruct (process_command (msg_text m) (listener_config l))
    as [[c' r]|] eqn:E; [|exact Hl].
  apply IH. simpl. eapply Hstep; [apply Hu; reflexivity|exact Hl|exact E].
Qed.

(** The pause flag is cleared by [/resume] alone. *)
Lemma process_command_keeps_pause msg c c' r :
  process_command msg c = Some (c', r) →
  py_strip (default "" msg) ≠ "/resume" →
  is_paused c = true → is_paused c' = true.
Proof.
  unfold process_command. intros H Hm Hc.
  option_cases H; injection H as <- <-; try exact Hc; try reflexivity.
  exfalso. apply Hm. apply String.eqb_eq. assumption.
Qed.

(** X19: a paused bot stays paused until it is told to resume: if no
    message of a batch reads [/resume] once stripped, the pause flag is
    still set after the batch, however the batch ended, and a scan then
    returns at once: no market is fetched, no store is touched, nothing
    is sent. *)
Theorem paused_until_resumed fromisoformat py_sum fmt_float updates l
    replies markets st :
  is_paused (listener_config l) = true →
  Forall (λ u, ∀ m, upd_message u = Some m →
                    py_strip (default "" (msg_text m)) ≠ "/resume") updates →
  let l' := (handle_updates updates l replies).1.1 in
  is_paused (listener_config l') = true
  ∧ scan_markets fromisoformat py_float py_sum fmt_float
      (is_paused (listener_config l')) markets st
    = {| scan_state := st; scan_found := []; scan_sent := [];
         scan_returned := true |}.
Proof.
  intros Hp Hall l'.
  assert (H : is_paused (listener_config l') = true).
  { subst l'.
    apply (handle_updates_invariant (λ c, is_paused c = true)
             (λ m, py_strip (default "" (msg_text m)) ≠ "/resume"));
      [|exact Hall|exact Hp].
    intros m c c' r Hm Hc E.
    exact (process_command_keeps_pause _ _ _ _ E Hm Hc). }
  split; [exact H|]. rewrite H. reflexivity.
Qed.

End ListenerProperties.



(** * Whole scans and whole batches *)

Section ScanProperties.

Variable fromisoformat : string → option datetime.
Variable py_float : string → option float.
Variable py_sum : list float → float.
Variable fmt_float : nat → float → string.

Abbreviation analyze_converted :=
  (analyze_converted fromisoformat py_float py_sum).
Abbreviation analyze_trade := (analyze_trade fromisoformat py_float py_sum).
Abbreviation convert_trade := (convert_trade py_float).
Abbreviation float_of := (float_of py_float).
Abbreviation mean := (mean py_sum).
Abbreviation unusual_rule := (unusual_rule py_sum).
Abbreviation niche_rule := (niche_rule py_float).
Abbreviation format_alert := (format_alert fmt_float).
Abbreviation send_alerts := (send_alerts fmt_float).
Abbreviation scan_trades := (scan_trades fromisoformat py_float py_sum).
Abbreviation scan_feed := (scan_feed fromisoformat py_float py_sum).
Abbreviation scan_markets :=
  (scan_markets fromisoformat py_float py_sum fmt_float).
Abbreviation parses_naive := (parses_naive fromisoformat).
Abbreviation timestamps_ok := (timestamps_ok fromisoformat).
Abbreviation readable_trade := (readable_trade fromisoformat py_float).
Abbreviation readable_market := (readable_market fromisoformat py_float).

Lemma one_alert_per_rule_converted now_iso now th st (tr : converted) md :
  let alerts := result_alerts (analyze_converted now_iso now th st tr md) in
  (∀ ty, (count_type ty alerts ≤ 1)%nat)
  ∧ (length alerts ≤ 6)%nat
  ∧ Forall (λ a, a_key a = trade_key now_iso tr md
                 ∧ a_wallet a = trade_wallet tr
                 ∧ a_market a = market_name md) alerts.
Proof.
  intros alerts. subst alerts.
  destruct (decide (trade_key now_iso tr md ∈ sent_alerts st)) as [Hin|Hout].
  { rewrite analyze_converted_seen by exact Hin. simpl.
    split; [intros ty; unfold count_type; simpl; lia|].
    split; [lia|constructor]. }
  destruct (analyze_converted now_iso now th st tr md)
    as [alerts st'|st'] eqn:E.
  2:{ simpl. split; [intros ty; unfold count_type; simpl; lia|].
      split; [lia|constructor]. }
  destruct (analyze_converted_returned fromisoformat py_float py_sum
              _ _ _ _ _ _ _ _ Hout E)
    as (age & a3 & a5 & a6 & _ & H3 & H5 & H6 & -> & _).
  cbn [result_alerts].
  assert (F1 : ∀ l : list alert,
            l = fresh_rule th (trade_wallet tr) age (trade_value tr)
                  (market_name md) (trade_key now_iso tr md) →
            (length l ≤ 1)%nat
            ∧ Forall (λ a, a_key a = trade_key now_iso tr md
                           ∧ a_wallet a = trade_wallet tr
                           ∧ a_market a = market_name md) l).
  { intros l ->. unfold fresh_rule.
    repeat case_match; simpl; split; try lia; repeat constructor. }
  assert (F2 : ∀ l : list alert,
            l = unusual_rule th (recorded now_iso tr md st) (trade_wallet tr)
                  (condition_id md) (trade_size tr) (market_name md)
                  (trade_key now_iso tr md) →
            (length l ≤ 1)%nat
            ∧ Forall (λ a, a_key a = trade_key now_iso tr md
                           ∧ a_wallet a = trade_wallet tr
                           ∧ a_market a = market_name md) l).
  { intros l ->. unfold unusual_rule.
    repeat case_match; simpl; split; try lia; repeat constructor. }
  assert (F3 : (length a3 ≤ 1)%nat
               ∧ Forall (λ a, a_key a = trade_key now_iso tr md
                              ∧ a_wallet a = trade_wallet tr
                              ∧ a_market a = market_name md) a3).
  { unfold niche_rule in H3. option_cases H3; injection H3 as <-;
      simpl; split; try lia; repeat constructor. }
  assert (F4 : ∀ l : list alert,
            l = conviction_rule th (updated now_iso tr md st)
                  (trade_wallet tr) (trade_price tr) (trade_value tr)
                  (market_name md) (trade_key now_iso tr md) →
            (length l ≤ 1)%nat
            ∧ Forall (λ a, a_key a = trade_key now_iso tr md
                           ∧ a_wallet a = trade_wallet tr
                           ∧ a_market a = market_name md) l).
  { intros l ->. unfold conviction_rule.
    repeat case_match; simpl; split; try lia; repeat constructor. }
  assert (F5 : (length a5 ≤ 1)%nat
               ∧ Forall (λ a, a_key a = trade_key now_iso tr md
                              ∧ a_wallet a = trade_wallet tr
                              ∧ a_market a = market_name md) a5).
  { unfold pre_move_rule in H5. option_cases H5; injection H5 as <-;
      simpl; split; try lia; repeat constructor. }
  assert (F6 : (length a6 ≤ 1)%nat
               ∧ Forall (λ a, a_key a = trade_key now_iso tr md
                              ∧ a_wallet a = trade_wallet tr
                              ∧ a_market a = market_name md) a6).
  { unfold coordinated_rule in H6. option_cases H6; injection H6 as <-;
      simpl; split; try lia; repeat constructor. }
  destruct (F1 _ eq_refl) as [L1 K1]. destruct (F2 _ eq_refl) as [L2 K2].
  destruct F3 as [L3 K3]. destruct (F4 _ eq_refl) as [L4 K4].
  destruct F5 as [L5 K5]. destruct F6 as [L6 K6].
  split; [|split].
  - intros ty.
    destruct (analyze_converted_counts fromisoformat py_float py_sum
                _ _ _ _ _ _ _ _ Hout E)
      as (age' & b3 & b5 & b6 & _ & G3 & G5 & G6 & C1 & C2 & C3 & C4 & C5
          & C6).
    rewrite H3 in G3. injection G3 as <-.
    rewrite H5 in G5. injection G5 as <-.
    rewrite H6 in G6. injection G6 as <-.
    destruct ty; [rewrite C1|rewrite C2|rewrite C3|rewrite C4|rewrite C5
                  |rewrite C6]; try assumption.
    unfold fresh_rule. repeat case_match; simpl; lia.
  - rewrite !length_app. lia.
  - repeat (apply Forall_app; split); assumption.
Qed.

(** X20: a trade yields at most one alert per rule, hence at most six, and
    all of them carry the trade's key, its wallet and the name of its
    market. *)
Theorem one_alert_per_rule now_iso now th st (tr : trade) md :
  let alerts := result_alerts (analyze_trade now_iso now th st tr md) in
  (∀ ty, (count_type ty alerts ≤ 1)%nat)
  ∧ (length alerts ≤ 6)%nat
  ∧ Forall (λ a, a_key a = trade_key now_iso tr md
                 ∧ a_wallet a = trade_wallet tr
                 ∧ a_market a = market_name md) alerts.
Proof.
  destruct (analyze_trade_cases fromisoformat py_float py_sum
              now_iso now th st tr md) as [[_ ->]|(c & _ & Ht & ->)].
  - simpl. split; [intros ty; unfold count_type; simpl; lia|].
    split; [lia|constructor].
  - rewrite <- Ht. apply one_alert_per_rule_converted.
Qed.

Lemma send_alerts_ok alerts :
  (send_alerts alerts).2 = true ↔ Forall (λ a, is_Some (format_alert a)) alerts.
Proof.
  induction alerts as [|a alerts IH]; simpl.
  - split; [constructor|reflexivity].
  - destruct (format_alert a) as [m|] eqn:Ea.
    + destruct (send_alerts alerts) as [sent ok]. simpl in *.
      rewrite IH. split.
      * intros H. constructor; [rewrite Ea; eauto|exact H].
      * intros H. inversion H. assumption.
    + simpl. split; [discriminate|].
      intros H. inversion H as [|? ? [m Hm] _]. congruence.
Qed.

Lemma scan_trades_total md trades st found :
  timestamps_ok st →
  is_Some (float_of (default (PyInt 0) (volume md))) →
  Forall readable_trade trades →
  ∃ st' found',
    scan_trades md trades st found = (st', found', true) ∧ timestamps_ok st'.
Proof.
  intros Hst Hvol Hall. revert st found Hst.
  induction Hall as [|[k tr] trades [Hk Hc] _ IH]; intros st found Hst.
  - simpl. eauto.
  - simpl in *.
    destruct (analyze_trade_total fromisoformat py_float py_sum (tick_iso k)
                (tick_now k) (tick_th k) st tr md Hst Hk Hc Hvol)
      as (alerts & st' & -> & Hst').
    apply IH. exact Hst'.
Qed.

Lemma scan_feed_total markets st found :
  timestamps_ok st →
  Forall readable_market markets →
  ∃ st' found',
    scan_feed markets st found = (st', found', true) ∧ timestamps_ok st'.
Proof.
  intros Hst Hall. revert st found Hst.
  induction Hall as [|[md trades] markets [Hv Hm] _ IH]; intros st found Hst.
  - simpl. eauto.
  - simpl in *. destruct (truthy_id (condition_id md)); [|apply IH; exact Hst].
    destruct (scan_trades_total md trades st found Hst Hv Hm)
      as (st1 & found1 & -> & Hst1).
    apply IH. exact Hst1.
Qed.

(** X21: on readable data a scan can fail in rendering only. If every
    timestamp in the stores and on the trades delivered parses as a naive
    [datetime], and [float()] accepts the size and the price of every
    trade delivered and the volume of every market, every call of
    [analyze_trade] of the scan returns, the stores stay readable, and the
    scan returns exactly when none of the alerts found is a High-Win-Rate
    alert or an Unusual-Size alert with a zero mean. *)
Theorem scan_fails_only_in_rendering markets st :
  timestamps_ok st →
  Forall readable_market markets →
  let o := scan_markets false markets st in
  timestamps_ok (scan_state o)
  ∧ (scan_state o, scan_found o, true) = scan_feed markets st []
  ∧ (scan_returned o = true ↔
     Forall (λ a, a_type a ≠ HIGH_WIN_RATE_TRADER ∧ zero_mean a = false)
       (scan_found o)).
Proof.
  intros Hst Hall o. subst o. unfold scan_markets.
  destruct (scan_feed_total markets st [] Hst Hall) as (st' & found & E & Hst').
  destruct (scan_feed_spec fromisoformat py_float py_sum markets st [])
    as (st2 & more & ok & E2 & _ & Hf); [constructor|].
  rewrite E in E2. injection E2 as <- <- <-. rewrite E. simpl in Hf.
  pose proof (send_alerts_ok found) as Hok.
  destruct (send_alerts found) as [sent ok]. simpl in *.
  split; [exact Hst'|]. split; [reflexivity|].
  rewrite Hok. unfold found_ok in Hf.
  rewrite !Forall_forall in *. split.
  - intros H a Ha. destruct (Hf a Ha) as [_ Hwf].
    pose proof (format_alert_None fmt_float a Hwf) as Hn.
    destruct (H a Ha) as [m Hm]. split.
    + intros Hty. rewrite (proj2 Hn (or_introl Hty)) in Hm. discriminate.
    + destruct (zero_mean a) eqn:Hz; [|reflexivity].
      rewrite (proj2 Hn (or_intror eq_refl)) in Hm. discriminate.
  - intros H a Ha. destruct (Hf a Ha) as [_ Hwf].
    pose proof (format_alert_None fmt_float a Hwf) as Hn.
    destruct (format_alert a) as [m|]; [eauto|].
    destruct (H a Ha) as [Hty Hz].
    destruct (proj1 Hn eq_refl) as [?|?]; congruence.
Qed.

End ScanProperties.

Section BatchProperties.

Variable py_strip : string → string.
Variable py_split : string → list string.
Variable py_float : string → option float.
Variable py_isdigit : string → bool.
Variable py_int : string → option Z.
Variable chat_id : option Z.

Abbreviation process_command :=
  (process_command py_strip py_split py_float py_isdigit py_int).
Abbreviation handle_updates :=
  (handle_updates py_strip py_split py_float py_isdigit py_int chat_id).

(** X22: a text that starts with [/set], has three words, names a key of
    the thresholds and gives a number is obeyed, whatever follows [/set] in
    its first word: the key then reads the number, every other key reads
    what it read before, and the pause flag and the scan interval are as
    they were. *)
Theorem set_then_get (msg : option string) (c : config) cmd param arg value :
  String.prefix "/set" (py_strip (default "" msg)) = true →
  py_split (py_strip (default "" msg)) = [cmd; param; arg] →
  known_param param = true →
  py_float arg = Some value →
  ∃ c',
    process_command msg c = Some (c', Some (SetOk param value))
    ∧ is_paused c' = is_paused c
    ∧ scan_interval c' = scan_interval c
    ∧ get_threshold param (bot_thresholds c') = Some value
    ∧ ∀ q, q ≠ param →
           get_threshold q (bot_thresholds c')
           = get_threshold q (bot_thresholds c).
Proof.
  intros Hp Hs Hk Hf.
  rewrite (process_command_set py_strip py_split py_float py_isdigit py_int)
    by exact Hp.
  rewrite Hs, Hf, Hk. eexists. split; [reflexivity|]. simpl.
  split; [reflexivity|]. split; [reflexivity|]. split.
  - rewrite get_set_threshold by exact Hk. rewrite String.eqb_refl.
    reflexivity.
  - intros q Hq. rewrite get_set_threshold by exact Hk.
    destruct (String.eqb_spec q param); [contradiction|reflexivity].
Qed.

(** X23: how the updates are cut into batches does not matter to a
    listener that meets no exception: handling two batches one after the
    other is handling them as one, and a batch that raises stops there. *)
Theorem batches_compose updates1 updates2 l replies :
  handle_updates (updates1 ++ updates2) l replies
  = match handle_updates updates1 l replies with
    | (l1, replies1, true) => handle_updates updates2 l1 replies1
    | (l1, replies1, false) => (l1, replies1, false)
    end.
Proof.
  revert l replies. induction updates1 as [|u updates1 IH]; intros l replies;
    [reflexivity|].
  rewrite <- app_comm_cons.
  destruct (handle_updates_step py_strip py_split py_float py_isdigit py_int
              chat_id u l replies) as [(l1 & rs & _ & Hgo)|[_ Hstop]].
  - rewrite !Hgo. apply IH.
  - rewrite !Hstop. reflexivity.
Qed.

End BatchProperties.


(** * The further properties on sample inputs *)


Lemma wallet_stores_append_only_witness :
  (∃ l, dd_get "0xabc" (wallet_history large_then_small)
        = dd_get "0xabc" (wallet_history (result_state first_large)) ++ l)
  ∧ (∃ l, dd_get "0xabc" (wallet_outcomes large_then_small)
          = dd_get "0xabc" (wallet_outcomes (result_state first_large)) ++ l)
  ∧ (length (dd_get "0xabc" (wallet_history (result_state first_large)))
     ≤ length (dd_get "0xabc" (wallet_history large_then_small)))%nat
  ∧ (length (dd_get "0xabc" (wallet_outcomes (result_state first_large)))
     ≤ length (dd_get "0xabc" (wallet_outcomes large_then_small)))%nat.
Proof.
  apply (wallet_stores_append_only iso_basic dec_float naive_sum).
  apply (reaches_step iso_basic dec_float naive_sum _ _ noon).
  apply reaches_refl.
Defined.

Lemma wallet_age_reference_fixed_witness :
  get_wallet_age iso_basic (clock_of "2024-01-09T12:00:00") large_then_small
    "0xabc"
  = get_wallet_age iso_basic (clock_of "2024-01-09T12:00:00")
      (result_state first_large) "0xabc".
Proof.
  apply (wallet_age_reference_fixed iso_basic dec_float naive_sum
           (result_state first_large) large_then_small "0xabc"
           (hist_entry_of "" (read (large_trade "2024-01-01T00:00:00"))
              sample_market) []).
  - apply (reaches_step iso_basic dec_float naive_sum _ _ noon).
    apply reaches_refl.
  - vm_compute. reflexivity.
Defined.

Lemma unreadable_first_timestamp_blocks_wallet_witness :
  match convert_trade dec_float garbled_next with
  | Some c =>
      analyze_trade iso_basic dec_float naive_sum ""
        (clock_of "2024-01-01T12:00:00") default_thresholds
        (result_state garbled_first) garbled_next sample_market
      = Raised (recorded "" c sample_market (result_state garbled_first))
      ∧ market_volumes (recorded "" c sample_market
                          (result_state garbled_first))
        = market_volumes (result_state garbled_first)
      ∧ wallet_outcomes (recorded "" c sample_market
                           (result_state garbled_first))
        = wallet_outcomes (result_state garbled_first)
      ∧ sent_alerts (recorded "" c sample_market
                       (result_state garbled_first))
        = sent_alerts (result_state garbled_first)
  | None =>
      analyze_trade iso_basic dec_float naive_sum ""
        (clock_of "2024-01-01T12:00:00") default_thresholds
        (result_state garbled_first) garbled_next sample_market
      = Raised (result_state garbled_first)
  end.
Proof.
  apply (unreadable_first_timestamp_blocks_wallet iso_basic dec_float
           naive_sum (result_state garbled_first)
           (result_state garbled_first)
           (hist_entry_of "" (read garbled_trade) sample_market) []).
  - apply reaches_refl.
  - vm_compute. reflexivity.
  - left. vm_compute. reflexivity.
  - apply (bool_decide_unpack _). vm_compute. exact I.
Defined.

(** The later trade of the garbled wallet does convert: its call raises
    after the trade was recorded. *)
Example garbled_next_recorded :
  convert_trade dec_float garbled_next = Some (read garbled_next)
  ∧ analyze_trade iso_basic dec_float naive_sum ""
      (clock_of "2024-01-01T12:00:00") default_thresholds
      (result_state garbled_first) garbled_next sample_market
    = Raised (recorded "" (read garbled_next) sample_market
                (result_state garbled_first)).
Proof. split; vm_compute; reflexivity. Qed.

Lemma alert_key_injective_witness :
  "0xabc" = "0xabc"
  ∧ fmt_opt None = fmt_opt (Some "None")
  ∧ "2024-01-01T00:00:00" = "2024-01-01T00:00:00".
Proof.
  apply (alert_key_injective "0xabc" "0xabc" None (Some "None")
           "2024-01-01T00:00:00" "2024-01-01T00:00:00");
    reflexivity.
Defined.





Lemma format_alert_fails_iff_witness :
  format_alert fmt_fixed conviction_alert = None ↔
  a_type conviction_alert = HIGH_WIN_RATE_TRADER
  ∨ zero_mean conviction_alert = true.
Proof.
  apply (format_alert_fails_iff iso_basic dec_float naive_sum fmt_fixed ""
           (clock_of "2024-01-01T12:00:00") default_thresholds nine_high
           (high_trade "2024-01-01T09:09:00") sample_market).
  vm_compute. apply list_elem_of_further, list_elem_of_here.
Defined.

Lemma unrenderable_alert_blocks_batch_witness :
  scan_returned conviction_scan = false
  ∧ (length (scan_sent conviction_scan) ≤ 7)%nat
  ∧ ∀ j b, (7 ≤ j)%nat → scan_found conviction_scan !! j = Some b →
           a_key b ∈ sent_alerts (scan_state conviction_scan)
           ∧ scan_sent conviction_scan !! j = None.
Proof.
  apply (unrenderable_alert_blocks_batch iso_basic dec_float naive_sum
           fmt_fixed conviction_feed init_state 7 conviction_alert).
  - vm_compute. reflexivity.
  - left. reflexivity.
Defined.

Lemma reply_tells_the_change_witness :
  ∃ c', ascii_process_command (Some "/interval 30") default_config
        = Some (c', Some (IntervalSet 30))
        ∧ c' = {| is_paused := false; scan_interval := 30;
                  bot_thresholds := default_thresholds |}
        ∧ 10 ≤ 30 ≤ 600.
Proof.
  eexists. split; [vm_compute; reflexivity|].
  apply (reply_tells_the_change ascii_strip ascii_split dec_float
           ascii_isdigit dec_nat (Some "/interval 30") default_config _
           (Some (IntervalSet 30))).
  vm_compute. reflexivity.
Defined.

Lemma scan_interval_stays_in_range_witness :
  10 ≤ scan_interval
         (listener_config
            (ascii_handle_updates (Some 42)
               [from_chat 1 42 "/interval 30"; from_chat 2 42 "/interval 5"]
               default_listener []).1.1)
     ≤ 600.
Proof.
  apply (scan_interval_stays_in_range ascii_strip ascii_split dec_float
           ascii_isdigit dec_nat (Some 42)).
  vm_compute. split; discriminate.
Defined.

Lemma foreign_chats_are_ignored_witness :
  ascii_handle_updates (Some 42)
    [from_chat 1 7 "/pause"; no_message 2; from_chat 3 8 "/interval 30"]
    default_listener []
  = ({| last_update_id := 3; listener_config := default_config |}, [], true).
Proof.
  apply (foreign_chats_are_ignored ascii_strip ascii_split dec_float
           ascii_isdigit dec_nat (Some 42) 42
           [from_chat 1 7 "/pause"; no_message 2;
            from_chat 3 8 "/interval 30"] default_listener []).
  - reflexivity.
  - repeat constructor; intros m [= <-]; discriminate.
Defined.

Lemma last_update_id_after_batch_witness :
  (∃ l' replies',
     ascii_handle_updates (Some 42)
       [from_chat 4 42 "/pause"; from_chat 5 42 "/interval 30"]
       default_listener [] = (l', replies', true)
     ∧ last_update_id l' = 5)
  ∧ (∃ l' replies' before u after l1,
       ascii_handle_updates None
         [no_message 4; from_chat 5 42 "/pause"; from_chat 6 42 "/resume"]
         default_listener [] = (l', replies', false)
       ∧ [no_message 4; from_chat 5 42 "/pause"; from_chat 6 42 "/resume"]
         = before ++ u :: after
       ∧ ascii_handle_updates None before default_listener []
         = (l1, replies', true)
       ∧ l' = {| last_update_id := update_id u;
                 listener_config := listener_config l1 |}
       ∧ is_Some (upd_message u)).
Proof.
  split.
  - do 2 eexists. split; [vm_compute; reflexivity|].
    refine (proj1 (last_update_id_after_batch ascii_strip ascii_split
                     dec_float ascii_isdigit dec_nat (Some 42)
                     [from_chat 4 42 "/pause"; from_chat 5 42 "/interval 30"]
                     default_listener [] _ _ true _) eq_refl).
    vm_compute. reflexivity.
  - do 2 eexists.
    assert (E : ascii_handle_updates None
                  [no_message 4; from_chat 5 42 "/pause";
                   from_chat 6 42 "/resume"] default_listener []
                = ({| last_update_id := 5;
                      listener_config := default_config |}, [], false))
      by (vm_compute; reflexivity).
    destruct (proj2 (last_update_id_after_batch ascii_strip ascii_split
                       dec_float ascii_isdigit dec_nat None _ _ _ _ _ _ E)
                eq_refl) as (before & u & after & l1 & H).
    exists before, u, after, l1. split; [exact E|exact H].
Defined.

Lemma paused_until_resumed_witness :
  is_paused (listener_config paused_batch) = true
  ∧ scan_markets iso_basic dec_float naive_sum fmt_fixed
      (is_paused (listener_config paused_batch)) conviction_feed init_state
    = {| scan_state := init_state; scan_found := []; scan_sent := [];
         scan_returned := true |}.
Proof.
  apply (paused_until_resumed ascii_strip ascii_split dec_float ascii_isdigit
           dec_nat (Some 42) iso_basic naive_sum fmt_fixed
           [from_chat 1 42 "/interval 30"; from_chat 2 42 "/status"]
           paused_listener [] conviction_feed init_state).
  - reflexivity.
  - repeat constructor; intros m [= <-]; vm_compute; discriminate.
Defined.

Lemma scan_fails_only_in_rendering_witness :
  timestamps_ok iso_basic (scan_state conviction_scan)
  ∧ (scan_state conviction_scan, scan_found conviction_scan, true)
    = scan_feed iso_basic dec_float naive_sum conviction_feed init_state []
  ∧ (scan_returned conviction_scan = true ↔
     Forall (λ a, a_type a ≠ HIGH_WIN_RATE_TRADER ∧ zero_mean a = false)
       (scan_found conviction_scan)).
Proof.
  apply (scan_fails_only_in_rendering iso_basic dec_float naive_sum fmt_fixed
           conviction_feed init_state).
  - apply timestamps_ok_init.
  - constructor; [|constructor].
    split; [vm_compute; eauto|]. simpl.
    repeat (constructor;
            [split; [eexists; vm_compute; reflexivity|vm_compute; eauto]|]).
    constructor.
Defined.

Lemma set_then_get_witness :
  ∃ c',
    ascii_process_command (Some "/settings niche_volume_max 500")
      default_config
    = Some (c', Some (SetOk "niche_volume_max" (float_of_Z 500)))
    ∧ is_paused c' = is_paused default_config
    ∧ scan_interval c' = scan_interval default_config
    ∧ get_threshold "niche_volume_max" (bot_thresholds c')
      = Some (float_of_Z 500)
    ∧ ∀ q, q ≠ "niche_volume_max" →
           get_threshold q (bot_thresholds c')
           = get_threshold q (bot_thresholds default_config).
Proof.
  apply (set_then_get ascii_strip ascii_split dec_float ascii_isdigit dec_nat
           (Some "/settings niche_volume_max 500") default_config
           "/settings" "niche_volume_max" "500" (float_of_Z 500)).
  - reflexivity.
  - reflexivity.
  - reflexivity.
  - vm_compute. reflexivity.
Defined.
